(** * CloudTrail detection Lambda: a shallow embedding and its properties

    The handler of [LambdaCloudTrailProcess.py] receives an S3 notification,
    downloads the gzip-compressed CloudTrail log it names, filters the audit
    records against a fixed list of event names and publishes every match to
    an SNS topic.

    Python values are embedded as the JSON values they are decoded from, the
    calls to AWS and the log lines are recorded in a trace, and Python
    exceptions are explicit results. *)

From Stdlib Require Import List String Ascii ZArith Bool Arith Lia.
From Stdlib Require DecimalString DecimalZ DecimalPos.
Import ListNotations.

Local Open Scope list_scope.
Local Open Scope string_scope.

#[local] Set Warnings "-register-all".

(* ================================================================== *)
(** * Python values *)

(** A value produced by [json.loads] (and the event handed over by the Lambda
    runtime).  A [str] is a [string], one [ascii] per character, so the
    model covers text whose code points are below 256.  A [float] is
    represented by its [repr()] text, which identifies it.  A [dict] is an
    association list in insertion order; Python's [None] is [JNull]. *)
Inductive json : Type :=
| JNull
| JBool (b : bool)
| JInt (z : Z)
| JFloat (repr : string)
| JString (s : string)
| JArray (l : list json)
| JObject (d : list (string * json)).

Definition dict := list (string * json).

(** [d.get(k)] on a dict: the value stored under [k], if any. *)
Fixpoint dict_get (d : dict) (k : string) : option json :=
  match d with
  | [] => None
  | (k', v) :: rest => if String.eqb k' k then Some v else dict_get rest k
  end.

(** [type(v).__name__] *)
Definition py_type_name (v : json) : string :=
  match v with
  | JNull => "NoneType"
  | JBool _ => "bool"
  | JInt _ => "int"
  | JFloat _ => "float"
  | JString _ => "str"
  | JArray _ => "list"
  | JObject _ => "dict"
  end.

(** Truth value of a Python object, as tested by [not x] and [if x]. *)
Definition py_bool (v : json) : bool :=
  match v with
  | JNull => false
  | JBool b => b
  | JInt z => negb (Z.eqb z 0)
  | JFloat r => negb (String.eqb r "0.0" || String.eqb r "-0.0")
  | JString s => negb (String.eqb s "")
  | JArray l => match l with [] => false | _ => true end
  | JObject d => match d with [] => false | _ => true end
  end.

(** [v == s] for a [str] constant [s]: only an equal [str] compares equal. *)
Definition py_eq_str (v : json) (s : string) : bool :=
  match v with
  | JString t => String.eqb t s
  | _ => false
  end.

(** [v in [s1, ..., sn]] for a list of [str] constants. *)
Definition py_in (v : json) (l : list string) : bool :=
  existsb (py_eq_str v) l.

Definition string_of_nat (n : nat) : string :=
  DecimalString.NilZero.string_of_uint (Nat.to_uint n).

Definition string_of_Z (z : Z) : string :=
  DecimalString.NilZero.string_of_int (Z.to_int z).

(* ================================================================== *)
(** * [json.dumps] with its default settings ([ensure_ascii], separators
      [", "] and [": "]) *)

Definition dquote : ascii := "034"%char.
Definition backslash : ascii := "092"%char.

Definition hex_digit (n : nat) : ascii :=
  match n with
  | 0 => "0" | 1 => "1" | 2 => "2" | 3 => "3" | 4 => "4" | 5 => "5"
  | 6 => "6" | 7 => "7" | 8 => "8" | 9 => "9" | 10 => "a" | 11 => "b"
  | 12 => "c" | 13 => "d" | 14 => "e" | _ => "f"
  end%char.

(** ['\\u{0:04x}'.format(n)] for [n < 256]. *)
Definition escape_u (n : nat) : string :=
  String backslash
    (String "u" (String "0" (String "0"
      (String (hex_digit (n / 16)) (String (hex_digit (n mod 16)) ""))))).

(** The replacement [json.encoder] makes for one character: the short
    escapes of [ESCAPE_DCT], the character itself between space and [~],
    and a [\u] escape for everything else. *)
Definition escape_char (c : ascii) : string :=
  let n := nat_of_ascii c in
  if Nat.eqb n 34 then String backslash (String dquote "")
  else if Nat.eqb n 92 then String backslash (String backslash "")
  else if Nat.eqb n 8 then String backslash "b"
  else if Nat.eqb n 12 then String backslash "f"
  else if Nat.eqb n 10 then String backslash "n"
  else if Nat.eqb n 13 then String backslash "r"
  else if Nat.eqb n 9 then String backslash "t"
  else if ((32 <=? n) && (n <=? 126))%nat then String c ""
  else escape_u n.

Fixpoint escape_string (s : string) : string :=
  match s with
  | EmptyString => ""
  | String c rest => escape_char c ++ escape_string rest
  end.

(** [py_encode_basestring_ascii] *)
Definition dumps_string (s : string) : string :=
  String dquote (escape_string s ++ String dquote "").

(** [float.__repr__] with the three spellings the encoder replaces. *)
Definition dumps_float (r : string) : string :=
  if String.eqb r "nan" then "NaN"
  else if String.eqb r "inf" then "Infinity"
  else if String.eqb r "-inf" then "-Infinity"
  else r.

(** [', '.join(l)] *)
Fixpoint join_comma (l : list string) : string :=
  match l with
  | [] => ""
  | [x] => x
  | x :: rest => x ++ ", " ++ join_comma rest
  end.

Fixpoint json_dumps (v : json) : string :=
  match v with
  | JNull => "null"
  | JBool true => "true"
  | JBool false => "false"
  | JInt z => string_of_Z z
  | JFloat r => dumps_float r
  | JString s => dumps_string s
  | JArray l => "[" ++ join_comma (map json_dumps l) ++ "]"
  | JObject d =>
      "{" ++ join_comma (map (fun kv => dumps_string (fst kv) ++ ": " ++ json_dumps (snd kv)) d) ++ "}"
  end.


(* ================================================================== *)
(** * Exceptions, the trace and the monad of handler code *)

(** A raised exception: its class and the text [str(e)] gives. *)
Record exn : Type := mk_exn { exn_class : string; exn_msg : string }.

Definition AttributeError (v : json) (attr : string) : exn :=
  mk_exn "AttributeError"
         ("'" ++ py_type_name v ++ "' object has no attribute '" ++ attr ++ "'").

Definition TypeError (msg : string) : exn := mk_exn "TypeError" msg.
Definition IndexError (msg : string) : exn := mk_exn "IndexError" msg.
Definition KeyError (key : string) : exn := mk_exn "KeyError" key.

(** [isinstance(e, json.JSONDecodeError)] *)
Definition is_JSONDecodeError (e : exn) : bool :=
  String.eqb (exn_class e) "JSONDecodeError".

Inductive level : Type := DEBUG | INFO | WARNING | ERROR | CRITICAL.

(** What an invocation does to the outside: the records the logger emits
    and the calls to the two AWS clients, oldest first. *)
Inductive event : Type :=
| Log (lvl : level) (msg : string)
| S3GetObject (bucket key : json)
| SnsPublish (topic message subject : string).

Definition trace := list event.

(** The environment of the function; creating the two clients is taken to
    succeed.  [sns_topic_arn] is
    [os.environ.get('SnsArn')], read once at import.  [s3_get_object] is the
    outcome of [s3.get_object(...)] followed by [response['Body'].read()];
    [sns_publish] is the outcome of [sns.publish(...)] followed by
    [response['MessageId']], and may depend on what happened before. *)
Record world : Type := {
  sns_topic_arn : option string;
  s3_get_object : json -> json -> exn + list Byte.byte;
  sns_publish : trace -> string -> string -> string -> exn + string
}.

(** A computation reads the trace so far and extends it; it ends with a value
    or a raised exception. *)
Definition M (A : Type) : Type := trace -> (exn + A) * trace.

Definition ret {A} (a : A) : M A := fun t => (inr a, t).

Definition raise {A} (e : exn) : M A := fun t => (inl e, t).

Definition bind {A B} (m : M A) (f : A -> M B) : M B :=
  fun t =>
    match m t with
    | (inr a, t') => f a t'
    | (inl e, t') => (inl e, t')
    end.

Notation "x <- m ;; k" := (bind m (fun x => k))
  (at level 61, m at next level, right associativity).
Notation "m ;;; k" := (bind m (fun _ => k))
  (at level 61, right associativity).

(** [try: m  except Exception as e: h e] *)
Definition try_except {A} (m : M A) (h : exn -> M A) : M A :=
  fun t =>
    match m t with
    | (inr a, t') => (inr a, t')
    | (inl e, t') => h e t'
    end.

(** [try: m  except C as e: h e] for the exception class recognised by [c];
    any other exception propagates. *)
Definition try_except_class {A} (c : exn -> bool) (m : M A) (h : exn -> M A) : M A :=
  fun t =>
    match m t with
    | (inr a, t') => (inr a, t')
    | (inl e, t') => if c e then h e t' else (inl e, t')
    end.

(** The result of a call that is pure apart from raising. *)
Definition lift {A} (r : exn + A) : M A :=
  match r with
  | inr a => ret a
  | inl e => raise e
  end.

Definition emit (ev : event) : M unit := fun t => (inr tt, (t ++ [ev])%list).

(** The logger is configured with [logger.setLevel(logging.INFO)]: a debug
    record is dropped, the others are emitted. *)
Definition logger_debug (msg : string) : M unit := ret tt.
Definition logger_info (msg : string) : M unit := emit (Log INFO msg).
Definition logger_warning (msg : string) : M unit := emit (Log WARNING msg).
Definition logger_error (msg : string) : M unit := emit (Log ERROR msg).
Definition logger_critical (msg : string) : M unit := emit (Log CRITICAL msg).

(* ================================================================== *)
(** * Operations on Python objects that may raise *)

(** [v.get(k, default)]: only a dict has the method. *)
Definition py_get (v : json) (k : string) (default : json) : M json :=
  match v with
  | JObject d =>
      ret (match dict_get d k with Some x => x | None => default end)
  | _ => raise (AttributeError v "get")
  end.

(** [v[0]] *)
Definition py_getitem0 (v : json) : M json :=
  match v with
  | JArray l =>
      match l with
      | x :: _ => ret x
      | [] => raise (IndexError "list index out of range")
      end
  | JString s =>
      match s with
      | String c _ => ret (JString (String c ""))
      | EmptyString => raise (IndexError "string index out of range")
      end
  | JObject _ => raise (KeyError "0")
  | _ => raise (TypeError ("'" ++ py_type_name v ++ "' object is not subscriptable"))
  end.

(** [len(v)] *)
Definition py_len (v : json) : M nat :=
  match v with
  | JArray l => ret (List.length l)
  | JString s => ret (String.length s)
  | JObject d => ret (List.length d)
  | _ => raise (TypeError ("object of type '" ++ py_type_name v ++ "' has no len()"))
  end.

(** The items [for x in v] goes through: the elements of a list, the
    characters of a str, the keys of a dict. *)
Definition py_iter (v : json) : M (list json) :=
  match v with
  | JArray l => ret l
  | JString s => ret (map (fun c => JString (String c "")) (list_ascii_of_string s))
  | JObject d => ret (map (fun kv => JString (fst kv)) d)
  | _ => raise (TypeError ("'" ++ py_type_name v ++ "' object is not iterable"))
  end.

(* ================================================================== *)
(** * The handler *)

Record response : Type := { statusCode : Z; body : string }.

(** The event names the filter looks for. *)
Definition criteria_events : list string :=
  ["StopLogging"; "UpdateTrail"; "ConsoleLogin"; "DeleteTrail"].

Section Handler.

(** Library functions the code calls: [gzip.decompress],
    [bytes.decode('utf-8')], [json.loads], and [repr] of a list or dict
    (used only inside formatted messages). *)
Variable gzip_decompress : list Byte.byte -> exn + list Byte.byte.
Variable decode_utf8 : list Byte.byte -> exn + string.
Variable json_loads : string -> exn + json.
Variable py_repr : json -> string.

Variable w : world.

(** [str(v)], which is what an f-string field [{v}] inserts. *)
Definition py_str (v : json) : string :=
  match v with
  | JNull => "None"
  | JBool true => "True"
  | JBool false => "False"
  | JInt z => string_of_Z z
  | JFloat r => r
  | JString s => s
  | JArray _ | JObject _ => py_repr v
  end.

Definition get_object (bucket key : json) : M (list Byte.byte) :=
  fun t => (s3_get_object w bucket key, (t ++ [S3GetObject bucket key])%list).

Definition publish (topic message subject : string) : M string :=
  fun t => (sns_publish w t topic message subject,
            (t ++ [SnsPublish topic message subject])%list).

(** Downloads, decompresses and parses the log file; [None] on error. *)
Definition fetch_cloudtrail_log (bucket key : json) : M json :=
  logger_debug ("Attempting to fetch CloudTrail log from bucket '" ++ py_str bucket
                ++ "' with key '" ++ py_str key ++ "'.") ;;;
  try_except
    (compressed_content <- get_object bucket key ;;
     logger_debug ("Successfully downloaded "
                   ++ string_of_nat (List.length compressed_content)
                   ++ " bytes from S3.") ;;;
     decompressed <-
       try_except
         (raw <- lift (gzip_decompress compressed_content) ;;
          content <- lift (decode_utf8 raw) ;;
          logger_debug ("Successfully decompressed log file. Size: "
                        ++ string_of_nat (String.length content) ++ " bytes.") ;;;
          ret (Some content))
         (fun e =>
            logger_warning ("Error decompressing log file '" ++ py_str key
                            ++ "': " ++ exn_msg e) ;;;
            ret None) ;;
     match decompressed with
     | None => ret JNull
     | Some content =>
         try_except_class is_JSONDecodeError
           (log_data <- lift (json_loads content) ;;
            records <- py_get log_data "Records" (JArray []) ;;
            n <- py_len records ;;
            logger_debug ("Successfully loaded JSON data. Found "
                          ++ string_of_nat n ++ " records.") ;;;
            ret log_data)
           (fun e =>
              logger_error ("Error decoding JSON for file '" ++ py_str key
                            ++ "': " ++ exn_msg e) ;;;
              ret JNull)
     end)
    (fun e =>
       logger_error ("Error fetching CloudTrail log from S3 for '" ++ py_str key
                     ++ "': " ++ exn_msg e) ;;;
       ret JNull).

(** Checks one record against the event names. *)
Definition process_cloudtrail_event (record : json) : M bool :=
  event_name <- py_get record "eventName" JNull ;;
  event_id <- py_get record "eventID" (JString "N/A") ;;
  logger_debug ("Processing event: '" ++ py_str event_name
                ++ "' with event ID: '" ++ py_str event_id ++ "'") ;;;
  if py_in event_name ["StopLogging"; "UpdateTrail"; "ConsoleLogin"; "DeleteTrail"] then
    logger_info ("Found matching CloudTrail event: '" ++ py_str event_name ++ "'.") ;;;
    ret true
  else ret false.

(** [not sns_topic_arn] *)
Definition topic_unset (arn : option string) : bool :=
  match arn with
  | None => true
  | Some s => String.eqb s ""
  end.

(** Sends one record to the SNS topic. *)
Definition send_to_sns (record : json) : M unit :=
  if topic_unset (sns_topic_arn w) then
    logger_critical "SNS_TOPIC_ARN is not set. Cannot send to SNS."
  else
    let arn := match sns_topic_arn w with Some s => s | None => "" end in
    try_except
      (let message := json_dumps record in
       event_name <- py_get record "eventName" (JString "Unknown") ;;
       let subject := "CloudTrail Event: " ++ py_str event_name in
       logger_debug ("Attempting to send message to SNS topic '" ++ arn
                     ++ "'. Subject: '" ++ subject ++ "', Message: '"
                     ++ String.substring 0 50 message ++ "...'") ;;;
       message_id <- publish arn message subject ;;
       logger_info ("Event sent to SNS. Message ID: " ++ message_id))
      (fun e => logger_error ("Error sending event to SNS: " ++ exn_msg e)).

(** The loop over the records of the log file, with its two counters. *)
Fixpoint for_each_record (records : list json) (processed_count matching_count : nat)
  : M (nat * nat) :=
  match records with
  | [] => ret (processed_count, matching_count)
  | record :: rest =>
      let processed_count := processed_count + 1 in
      matched <- process_cloudtrail_event record ;;
      if matched then
        let matching_count := matching_count + 1 in
        event_name <- py_get record "eventName" JNull ;;
        event_id <- py_get record "eventID" (JString "N/A") ;;
        logger_info ("Found matching event: '" ++ py_str event_name
                     ++ "' (Event ID: '" ++ py_str event_id ++ "'). Sending to SNS.") ;;;
        send_to_sns record ;;;
        for_each_record rest processed_count matching_count
      else
        for_each_record rest processed_count matching_count
  end.

Definition lambda_handler (event : json) (context : string) : M response :=
  logger_info ("Lambda function invoked with event: " ++ py_str event) ;;;
  logger_debug ("Lambda context: " ++ context) ;;;
  try_except
    (records <- py_get event "Records" (JArray []) ;;
     if negb (py_bool records) then
       logger_warning "No S3 records found in the event." ;;;
       ret {| statusCode := 200;
              body := json_dumps
                        (JObject [("message", JString "No S3 records to process.")]) |}
     else
       first_record <- py_getitem0 records ;;
       s3_info <- py_get first_record "s3" (JObject []) ;;
       bucket_info <- py_get s3_info "bucket" (JObject []) ;;
       object_info <- py_get s3_info "object" (JObject []) ;;
       bucket <- py_get bucket_info "name" JNull ;;
       key <- py_get object_info "key" JNull ;;
       if negb (py_bool bucket) || negb (py_bool key) then
         logger_error ("Could not extract bucket name or key from the S3 event: "
                       ++ py_str event) ;;;
         ret {| statusCode := 400;
                body := json_dumps
                          (JObject [("error", JString "Invalid S3 event format.")]) |}
       else
         logger_info ("Processing CloudTrail log file: '" ++ py_str key
                      ++ "' from bucket: '" ++ py_str bucket ++ "'") ;;;
         log_data <- fetch_cloudtrail_log bucket key ;;
         match log_data with
         | JNull =>
             logger_error ("Failed to fetch or process CloudTrail log from S3. "
                           ++ "Exiting processing for '" ++ py_str key ++ "'.") ;;;
             ret {| statusCode := 500;
                    body := json_dumps
                              (JObject [("error",
                                         JString ("Failed to retrieve or process CloudTrail logs: "
                                                  ++ py_str key))]) |}
         | _ =>
             log_records <- py_get log_data "Records" (JArray []) ;;
             items <- py_iter log_records ;;
             counts <- for_each_record items 0 0 ;;
             let processed_count := fst counts in
             let matching_count := snd counts in
             logger_info ("Successfully processed " ++ string_of_nat processed_count
                          ++ " records from '" ++ py_str key ++ "'. Found "
                          ++ string_of_nat matching_count ++ " matching events.") ;;;
             ret {| statusCode := 200;
                    body := json_dumps
                              (JObject [("message",
                                         JString ("Successfully processed CloudTrail log: "
                                                  ++ py_str key ++ ". Found "
                                                  ++ string_of_nat matching_count
                                                  ++ " matching events."))]) |}
         end)
    (fun e =>
       logger_critical ("An unhandled exception occurred during processing: "
                        ++ exn_msg e) ;;;
       ret {| statusCode := 500;
              body := json_dumps
                        (JObject [("error",
                                   JString ("Error processing S3 event: " ++ exn_msg e))]) |}).

End Handler.

(* ================================================================== *)
(** * The restructured variant, [lambda/LambdaCloudTrailProcess copy.py] *)

Module Copy.
Section Handler.

Variable gzip_decompress : list Byte.byte -> exn + list Byte.byte.
Variable decode_utf8 : list Byte.byte -> exn + string.
Variable json_loads : string -> exn + json.
Variable py_repr : json -> string.

Variable w : world.

(** Downloads and decompresses the file; [None] on error. *)
Definition fetch_s3 (bucket key : json) : M (option (list Byte.byte)) :=
  logger_debug ("Attempting to fetch file from bucket '" ++ py_str py_repr bucket
                ++ "' with key '" ++ py_str py_repr key ++ "'.") ;;;
  try_except
    (compressed_content <- get_object w bucket key ;;
     logger_debug ("Successfully downloaded "
                   ++ string_of_nat (List.length compressed_content)
                   ++ " bytes from S3.") ;;;
     try_except
       (content <- lift (gzip_decompress compressed_content) ;;
        logger_debug ("Successfully decompressed file. Size: "
                      ++ string_of_nat (List.length content) ++ " bytes.") ;;;
        ret (Some content))
       (fun e =>
          logger_warning ("Error decompressing file '" ++ py_str py_repr key
                          ++ "': " ++ exn_msg e) ;;;
          ret None))
    (fun e =>
       logger_error ("Error fetching file from S3 for '" ++ py_str py_repr key
                     ++ "': " ++ exn_msg e) ;;;
       ret None).

(** Checks one record against the event names. *)
Definition matching_rule (record : json) : M bool :=
  event_name <- py_get record "eventName" JNull ;;
  let criteria_events := ["StopLogging"; "UpdateTrail"; "ConsoleLogin"; "DeleteTrail"] in
  if py_in event_name criteria_events then
    logger_info ("Found matching CloudTrail event: '"
                 ++ py_str py_repr event_name ++ "'.") ;;;
    ret true
  else ret false.

Fixpoint collect_matching (records matching_events : list json) : M (list json) :=
  match records with
  | [] => ret matching_events
  | record :: rest =>
      matched <- matching_rule record ;;
      if matched then collect_matching rest (matching_events ++ [record])%list
      else collect_matching rest matching_events
  end.

(** Parses the decompressed content and returns the matching records; an
    empty list on error. *)
Definition process_s3_records (s3_content : list Byte.byte) : M (list json) :=
  match s3_content with
  | [] =>
      logger_warning "No content provided to process_s3_records." ;;;
      ret []
  | _ =>
      try_except
        (try_except_class is_JSONDecodeError
           (text <- lift (decode_utf8 s3_content) ;;
            log_data <- lift (json_loads text) ;;
            records <- py_get log_data "Records" (JArray []) ;;
            n <- py_len records ;;
            logger_debug ("Successfully loaded JSON data. Found "
                          ++ string_of_nat n ++ " records.") ;;;
            items <- py_iter records ;;
            collect_matching items [])
           (fun e =>
              logger_error ("Error decoding JSON content: " ++ exn_msg e) ;;;
              ret []))
        (fun e =>
           logger_error ("An unexpected error occurred during processing S3 records: "
                         ++ exn_msg e) ;;;
           ret [])
  end.

(** Sends one record to the SNS topic. *)
Definition send_sns (record : json) : M unit :=
  if topic_unset (sns_topic_arn w) then
    logger_critical "SNS_TOPIC_ARN is not set. Cannot send to SNS."
  else
    let arn := match sns_topic_arn w with Some s => s | None => "" end in
    try_except
      (let message := json_dumps record in
       event_name <- py_get record "eventName" (JString "Unknown") ;;
       let subject := "CloudTrail Event: " ++ py_str py_repr event_name in
       logger_debug ("Attempting to send message to SNS topic '" ++ arn
                     ++ "'. Subject: '" ++ subject ++ "', Message: '"
                     ++ String.substring 0 50 message ++ "...'") ;;;
       message_id <- publish w arn message subject ;;
       logger_info ("Event sent to SNS. Message ID: " ++ message_id))
      (fun e => logger_error ("Error sending event to SNS: " ++ exn_msg e)).

Fixpoint send_each (records : list json) : M unit :=
  match records with
  | [] => ret tt
  | record :: rest =>
      event_name <- py_get record "eventName" (JString "N/A") ;;
      event_id <- py_get record "eventID" (JString "N/A") ;;
      logger_info ("Sending matched event to SNS: " ++ py_str py_repr event_name
                   ++ " (ID: " ++ py_str py_repr event_id ++ ")") ;;;
      send_sns record ;;;
      send_each rest
  end.

Definition lambda_handler (event : json) (context : string) : M response :=
  logger_info ("Lambda function invoked with event: " ++ py_str py_repr event) ;;;
  logger_debug ("Lambda context: " ++ context) ;;;
  try_except
    (records_in_event <- py_get event "Records" (JArray []) ;;
     if negb (py_bool records_in_event) then
       logger_warning "No S3 records found in the event." ;;;
       ret {| statusCode := 200;
              body := json_dumps
                        (JObject [("message", JString "No S3 records to process.")]) |}
     else
       first_s3_record <- py_getitem0 records_in_event ;;
       s3_info <- py_get first_s3_record "s3" (JObject []) ;;
       bucket_info <- py_get s3_info "bucket" (JObject []) ;;
       bucket <- py_get bucket_info "name" JNull ;;
       s3_info' <- py_get first_s3_record "s3" (JObject []) ;;
       object_info <- py_get s3_info' "object" (JObject []) ;;
       key <- py_get object_info "key" JNull ;;
       if negb (py_bool bucket) || negb (py_bool key) then
         logger_error ("Could not extract bucket name or key from the S3 event: "
                       ++ py_str py_repr event) ;;;
         ret {| statusCode := 400;
                body := json_dumps
                          (JObject [("error", JString "Invalid S3 event format.")]) |}
       else
         logger_info ("Processing CloudTrail log file: '" ++ py_str py_repr key
                      ++ "' from bucket: '" ++ py_str py_repr bucket ++ "'") ;;;
         s3_content <- fetch_s3 bucket key ;;
         match s3_content with
         | None =>
             logger_error ("Failed to fetch content from S3 for '" ++ py_str py_repr key
                           ++ "'. Aborting processing.") ;;;
             ret {| statusCode := 500;
                    body := json_dumps
                              (JObject [("error",
                                         JString ("Failed to retrieve S3 content: "
                                                  ++ py_str py_repr key))]) |}
         | Some content =>
             matching_cloudtrail_records <- process_s3_records content ;;
             match matching_cloudtrail_records with
             | [] =>
                 logger_info ("No matching events found in '" ++ py_str py_repr key ++ "'.")
             | _ =>
                 send_each matching_cloudtrail_records ;;;
                 logger_info ("Successfully processed '" ++ py_str py_repr key ++ "'. Sent "
                              ++ string_of_nat (List.length matching_cloudtrail_records)
                              ++ " matching events to SNS.")
             end ;;;
             ret {| statusCode := 200;
                    body := json_dumps
                              (JObject [("message",
                                         JString ("Successfully processed CloudTrail log: "
                                                  ++ py_str py_repr key ++ ". Sent "
                                                  ++ string_of_nat
                                                       (List.length matching_cloudtrail_records)
                                                  ++ " matching events to SNS."))]) |}
         end)
    (fun e =>
       logger_critical ("An unhandled exception occurred during processing: "
                        ++ exn_msg e) ;;;
       ret {| statusCode := 500;
              body := json_dumps
                        (JObject [("error",
                                   JString ("Error processing S3 event: " ++ exn_msg e))]) |}).

End Handler.
End Copy.


(* ================================================================== *)
(** * Vocabulary of the properties *)

(** The rule of the specification: the record carries an [eventName] and it
    is one of the four names. *)
Definition event_name_matches (record : json) : bool :=
  match record with
  | JObject d =>
      match dict_get d "eventName" with
      | Some (JString s) => existsb (String.eqb s) criteria_events
      | _ => false
      end
  | _ => false
  end.

Definition is_object (v : json) : bool :=
  match v with
  | JObject _ => true
  | _ => false
  end.

(** [d.get(k, default)] as a pure function. *)
Definition get_default (d : dict) (k : string) (default : json) : json :=
  match dict_get d k with
  | Some x => x
  | None => default
  end.

Definition or_none (o : option json) : json :=
  match o with
  | Some v => v
  | None => JNull
  end.

(** The calls to [s3.get_object] in a trace. *)
Definition s3_calls (t : trace) : list (json * json) :=
  flat_map (fun ev => match ev with
                      | S3GetObject b k => [(b, k)]
                      | _ => []
                      end) t.

(** The calls to [sns.publish] in a trace: topic, message, subject. *)
Definition sns_calls (t : trace) : list (string * string * string) :=
  flat_map (fun ev => match ev with
                      | SnsPublish topic m s => [(topic, m, s)]
                      | _ => []
                      end) t.

Definition message_of (call : string * string * string) : string := snd (fst call).

(** The log records of a given level in a trace. *)
Definition logged (lvl : level) (t : trace) : list string :=
  flat_map (fun ev => match ev, lvl with
                      | Log DEBUG m, DEBUG | Log INFO m, INFO
                      | Log WARNING m, WARNING | Log ERROR m, ERROR
                      | Log CRITICAL m, CRITICAL => [m]
                      | _, _ => []
                      end) t.

(** The [sns.publish] calls of [out] that failed, [pre] being the trace
    before [out]. *)
Fixpoint failed_publishes (w : world) (pre out : trace) : list (string * string * string) :=
  match out with
  | [] => []
  | ev :: rest =>
      (match ev with
       | SnsPublish topic m s =>
           match sns_publish w pre topic m s with
           | inl _ => [(topic, m, s)]
           | inr _ => []
           end
       | _ => []
       end ++ failed_publishes w (pre ++ [ev]) rest)%list
  end.

(** [x] occurs in [s]. *)
Definition occurs_in (x s : string) : Prop :=
  exists pre post : string, s = pre ++ x ++ post.

(** The text [json.dumps] writes for one entry of a dict. *)
Definition dumps_member (kv : string * json) : string :=
  dumps_string (fst kv) ++ ": " ++ json_dumps (snd kv).

Definition topic_of (w : world) : string :=
  match sns_topic_arn w with
  | Some s => s
  | None => ""
  end.

(** The record [send_to_sns] logs instead of publishing when no topic is
    configured. *)
Definition skipped_line : string := "SNS_TOPIC_ARN is not set. Cannot send to SNS.".

(** [d.get(k, {})] when the value under [k], if there is one, is a dict. *)
Definition child (d : dict) (k : string) : option dict :=
  match dict_get d k with
  | None => Some []
  | Some (JObject c) => Some c
  | Some _ => None
  end.

(** The shape of an S3 notification: the first of its records is a dict
    whose [s3], [s3.bucket] and [s3.object] entries, where present, are dicts.
    [bucket_name] and [object_key] are the entries [s3.bucket.name] and
    [s3.object.key], [None] when the field is missing. *)
Definition notification (event : json) (bucket_name object_key : option json) : Prop :=
  exists (ev first : dict) (rest : list json) (s3 b o : dict),
    event = JObject ev
    /\ dict_get ev "Records" = Some (JArray (JObject first :: rest))
    /\ child first "s3" = Some s3
    /\ child s3 "bucket" = Some b
    /\ child s3 "object" = Some o
    /\ dict_get b "name" = bucket_name
    /\ dict_get o "key" = object_key.

Section Vocabulary.

Variable gzip_decompress : list Byte.byte -> exn + list Byte.byte.
Variable decode_utf8 : list Byte.byte -> exn + string.
Variable json_loads : string -> exn + json.
Variable py_repr : json -> string.
Variable w : world.

(** The stored object decodes to the JSON value [v]. *)
Definition payload (bucket key : json) (v : json) : Prop :=
  exists (c raw : list Byte.byte) (text : string),
    s3_get_object w bucket key = inr c
    /\ gzip_decompress c = inr raw
    /\ decode_utf8 raw = inr text
    /\ json_loads text = inr v.

(** The download, the decompression (with its decoding to text) or the
    parsing of the stored object fails. *)
Definition payload_fails (bucket key : json) : Prop :=
  (exists e, s3_get_object w bucket key = inl e)
  \/ (exists c e, s3_get_object w bucket key = inr c /\ gzip_decompress c = inl e)
  \/ (exists c raw e, s3_get_object w bucket key = inr c /\ gzip_decompress c = inr raw
                      /\ decode_utf8 raw = inl e)
  \/ (exists c raw text e, s3_get_object w bucket key = inr c /\ gzip_decompress c = inr raw
                           /\ decode_utf8 raw = inr text /\ json_loads text = inl e).

(** The notification names a stored object with a truthy bucket and key,
    and the object is a gzip-compressed JSON document that decodes to the
    dict [log_data]. *)
Definition reads_log (event bucket key : json) (log_data : dict) : Prop :=
  notification event (Some bucket) (Some key)
  /\ py_bool bucket = true
  /\ py_bool key = true
  /\ payload bucket key (JObject log_data).

(** The subject line [send_to_sns] computes for a record. *)
Definition subject_of (d : dict) : string :=
  "CloudTrail Event: " ++ py_str py_repr (get_default d "eventName" (JString "Unknown")).

(** The [sns.publish] call made for a record when the topic is [arn]. *)
Definition publish_call (arn : string) (record : json) : string * string * string :=
  match record with
  | JObject d => (arn, json_dumps record, subject_of d)
  | _ => (arn, json_dumps record, "")
  end.

Definition invoked_line (event : json) : string :=
  "Lambda function invoked with event: " ++ py_str py_repr event.

Definition processing_line (bucket key : json) : string :=
  "Processing CloudTrail log file: '" ++ py_str py_repr key
  ++ "' from bucket: '" ++ py_str py_repr bucket ++ "'".

(** The record the handler logs after the loop. *)
Definition summary_line (key : json) (processed_count matching_count : nat) : string :=
  "Successfully processed " ++ string_of_nat processed_count
  ++ " records from '" ++ py_str py_repr key ++ "'. Found "
  ++ string_of_nat matching_count ++ " matching events.".

Definition response_no_records : response :=
  {| statusCode := 200;
     body := json_dumps (JObject [("message", JString "No S3 records to process.")]) |}.

Definition response_invalid : response :=
  {| statusCode := 400;
     body := json_dumps (JObject [("error", JString "Invalid S3 event format.")]) |}.

Definition response_fetch_failed (key : json) : response :=
  {| statusCode := 500;
     body := json_dumps
               (JObject [("error",
                          JString ("Failed to retrieve or process CloudTrail logs: "
                                   ++ py_str py_repr key))]) |}.

(** The success result: it names the file and the number of matches. *)
Definition response_processed (key : json) (matching_count : nat) : response :=
  {| statusCode := 200;
     body := json_dumps
               (JObject [("message",
                          JString ("Successfully processed CloudTrail log: "
                                   ++ py_str py_repr key ++ ". Found "
                                   ++ string_of_nat matching_count
                                   ++ " matching events."))]) |}.

End Vocabulary.

(* ================================================================== *)
(** * Reading a serialization back *)

(** The characters that follow a value in the output of [json.dumps]. *)
Definition is_delim (c : ascii) : bool :=
  (c =? ",")%char || (c =? "]")%char || (c =? "}")%char.

(** What may follow a serialized value: nothing, or a delimiter. *)
Definition ends_value (s : string) : bool :=
  match s with
  | EmptyString => true
  | String c _ => is_delim c
  end.

Fixpoint no_delim (s : string) : bool :=
  match s with
  | EmptyString => true
  | String c rest => negb (is_delim c) && no_delim rest
  end.

Definition is_digit (c : ascii) : bool :=
  let n := nat_of_ascii c in ((48 <=? n) && (n <=? 57))%nat.

(** Digits and the minus sign only: the spelling of an [int]. *)
Fixpoint int_like (s : string) : bool :=
  match s with
  | EmptyString => true
  | String c rest => (is_digit c || (c =? "-")%char) && int_like rest
  end.

(** The first character of a serialized value tells its kind. *)
Inductive head : Type :=
  HNull | HTrue | HFalse | HNumber | HString | HArray | HObject | HOther.

Definition head_of (s : string) : head :=
  match s with
  | EmptyString => HOther
  | String c _ =>
      if (c =? "n")%char then HNull
      else if (c =? "t")%char then HTrue
      else if (c =? "f")%char then HFalse
      else if (c =? dquote)%char then HString
      else if (c =? "[")%char then HArray
      else if (c =? "{")%char then HObject
      else if is_digit c || (c =? "-")%char || (c =? "N")%char || (c =? "I")%char
           then HNumber
      else HOther
  end.

Definition head_of_json (v : json) : head :=
  match v with
  | JNull => HNull
  | JBool true => HTrue
  | JBool false => HFalse
  | JInt _ | JFloat _ => HNumber
  | JString _ => HString
  | JArray _ => HArray
  | JObject _ => HObject
  end.

(** The [repr()] texts that stand for a float, such as [1.5], [1e+22],
    [-0.0], [inf] and [nan]: the encoder's output for them is a number token
    that is not the spelling of an int, and the text is not one of the three
    spellings the encoder substitutes. *)
Definition wf_float (r : string) : bool :=
  let p := dumps_float r in
  negb (String.eqb r "NaN" || String.eqb r "Infinity" || String.eqb r "-Infinity")
  && no_delim p && negb (int_like p)
  && match head_of p with HNumber => true | _ => false end.

(** The values in which every float is one: all the values [json.loads]
    produces. *)
Fixpoint wf_json (v : json) : bool :=
  match v with
  | JFloat r => wf_float r
  | JArray l => forallb wf_json l
  | JObject d => forallb (fun kv => wf_json (snd kv)) d
  | _ => true
  end.

Definition unhex (c : ascii) : option nat :=
  let n := nat_of_ascii c in
  if ((48 <=? n) && (n <=? 57))%nat then Some (n - 48)
  else if ((97 <=? n) && (n <=? 102))%nat then Some (n - 87)
  else None.

Definition prepend (c : ascii) (r : option (string * string)) : option (string * string) :=
  match r with
  | Some (s, rest) => Some (String c s, rest)
  | None => None
  end.

(** Reads the inside of a string literal written by [dumps_string], up to
    and including the closing quote: the text it stands for, and what
    follows the literal. *)
Fixpoint unescape (s : string) : option (string * string) :=
  match s with
  | EmptyString => None
  | String c rest =>
      if (c =? dquote)%char then Some (EmptyString, rest)
      else if (c =? backslash)%char then
        match rest with
        | String e rest' =>
            if (e =? dquote)%char then prepend dquote (unescape rest')
            else if (e =? backslash)%char then prepend backslash (unescape rest')
            else if (e =? "b")%char then prepend "008"%char (unescape rest')
            else if (e =? "f")%char then prepend "012"%char (unescape rest')
            else if (e =? "n")%char then prepend "010"%char (unescape rest')
            else if (e =? "r")%char then prepend "013"%char (unescape rest')
            else if (e =? "t")%char then prepend "009"%char (unescape rest')
            else if (e =? "u")%char then
              match rest' with
              | String _ (String _ (String h1 (String h2 rest''))) =>
                  match unhex h1, unhex h2 with
                  | Some a, Some b => prepend (ascii_of_nat (16 * a + b)) (unescape rest'')
                  | _, _ => None
                  end
              | _ => None
              end
            else None
        | EmptyString => None
        end
      else prepend c (unescape rest)
  end.

(** Induction on JSON values, with the hypothesis for every element of a
    list and every value of a dict. *)
Fixpoint json_nested_ind (P : json -> Prop)
    (Hnull : P JNull) (Hbool : forall b, P (JBool b)) (Hint : forall z, P (JInt z))
    (Hfloat : forall r, P (JFloat r)) (Hstring : forall s, P (JString s))
    (Harray : forall l, Forall P l -> P (JArray l))
    (Hobject : forall d, Forall (fun kv => P (snd kv)) d -> P (JObject d))
    (v : json) {struct v} : P v :=
  let IH := json_nested_ind P Hnull Hbool Hint Hfloat Hstring Harray Hobject in
  match v with
  | JNull => Hnull
  | JBool b => Hbool b
  | JInt z => Hint z
  | JFloat r => Hfloat r
  | JString s => Hstring s
  | JArray l =>
      Harray l ((fix items (l : list json) : Forall P l :=
                   match l with
                   | [] => Forall_nil P
                   | x :: rest => Forall_cons x (IH x) (items rest)
                   end) l)
  | JObject d =>
      Hobject d ((fix entries (d : list (string * json))
                    : Forall (fun kv => P (snd kv)) d :=
                    match d with
                    | [] => Forall_nil _
                    | kv :: rest => Forall_cons kv (IH (snd kv)) (entries rest)
                    end) d)
  end.

(** What follows an item of a joined list: the closing text, or a comma and
    the rest of the list. *)
Definition after_item (rest : list string) (close : string) : string :=
  match rest with
  | [] => close
  | _ => ", " ++ join_comma rest ++ close
  end.

(** An item of a joined list, written by [f], is told apart from what
    follows it; [W] is the well-formedness of items. *)
Definition item_prefix_code (A : Type) (f : A -> string) (W : A -> Prop) (a : A) : Prop :=
  forall a' y y', W a' -> ends_value y = true -> ends_value y' = true ->
                  f a ++ y = f a' ++ y' -> a = a' /\ y = y'.

(* ================================================================== *)
(** * Sample data *)

Module Sample.

(** Stand-ins for the library functions: the stored bytes are taken as they
    are, the parser yields a given document, and a list or dict is shown in
    log text by its JSON spelling. *)
Definition gunzip (c : list Byte.byte) : exn + list Byte.byte := inr c.
Definition decode (raw : list Byte.byte) : exn + string := inr (string_of_list_byte raw).
Definition loads (document : json) (text : string) : exn + json := inr document.
Definition repr (v : json) : string := json_dumps v.

Definition topic : string := "arn:aws:sns:us-east-1:123456789012:cloudtrail-alerts".

Definition bucket : json := JString "trail-bucket".
Definition key : json := JString "AWSLogs/123456789012/CloudTrail/log.json.gz".

Definition s3_record (name object_key : list (string * json)) : json :=
  JObject [("eventSource", JString "aws:s3");
           ("s3", JObject [("bucket", JObject name); ("object", JObject object_key)])].

Definition s3_event : json :=
  JObject [("Records", JArray [s3_record [("name", bucket)] [("key", key)]])].

Definition s3_event_no_records : json := JObject [("Records", JArray [])].

Definition s3_event_no_key : json :=
  JObject [("Records", JArray [s3_record [("name", bucket)] []])].

Definition s3_event_empty_bucket : json :=
  JObject [("Records", JArray [s3_record [("name", JString "")] [("key", key)]])].

Definition stop_logging : json :=
  JObject [("eventVersion", JString "1.08"); ("eventName", JString "StopLogging");
           ("eventID", JString "e-1"); ("awsRegion", JString "us-east-1");
           ("readOnly", JBool false);
           ("requestParameters", JObject [("name", JString "management-trail")]);
           ("responseElements", JNull)].
Definition get_object_event : json :=
  JObject [("eventName", JString "GetObject"); ("eventID", JString "e-2")].
Definition console_login : json :=
  JObject [("eventName", JString "ConsoleLogin"); ("eventID", JString "e-3");
           ("sourceIPAddress", JString "198.51.100.7")].

Definition records : list json := [stop_logging; get_object_event; console_login].

Definition log_data (rs : list json) : list (string * json) := [("Records", JArray rs)].

(** The first call to [sns.publish] of an invocation fails, the later ones
    succeed. *)
Definition first_publish_fails (history : trace) (topic message subject : string)
  : exn + string :=
  match sns_calls history with
  | [] => inl (mk_exn "ClientError" "An error occurred (InternalError)")
  | _ => inr "m-0001"
  end.

Definition world_with (arn : option string) : world :=
  {| sns_topic_arn := arn;
     s3_get_object := fun _ _ => inr [];
     sns_publish := first_publish_fails |}.

Definition world_s3_down : world :=
  {| sns_topic_arn := Some topic;
     s3_get_object := fun _ _ => inl (mk_exn "ClientError" "NoSuchKey");
     sns_publish := first_publish_fails |}.

End Sample.

(* ================================================================== *)
(** * Vocabulary of the further properties *)

(** [log_error] of the module: one error record.  Nothing calls it. *)
Definition log_error (message : string) : M unit := logger_error message.

(** [len(v)] is defined: a list, a str or a dict. *)
Definition sized (v : json) : bool :=
  match v with
  | JArray _ | JString _ | JObject _ => true
  | _ => false
  end.

(** The result of the outer [except] of the handler. *)
Definition response_unhandled (e : exn) : response :=
  {| statusCode := 500;
     body := json_dumps
               (JObject [("error", JString ("Error processing S3 event: " ++ exn_msg e))]) |}.

(** The records before the first that is not a dict, and that one. *)
Fixpoint leading_dicts (records : list json) : list json :=
  match records with
  | JObject d :: rest => JObject d :: leading_dicts rest
  | _ => []
  end.

Fixpoint first_non_dict (records : list json) : option json :=
  match records with
  | [] => None
  | JObject _ :: rest => first_non_dict rest
  | bad :: _ => Some bad
  end.

(** What the loop returns on a list of records, starting from the counters
    [p] and [m]: the counters at the end, or the exception raised by the
    first record that is not a dict. *)
Definition loop_result (records : list json) (p m : nat) : exn + nat * nat :=
  match first_non_dict records with
  | None => inr (p + List.length records,
                 m + List.length (filter event_name_matches records))
  | Some bad => inl (AttributeError bad "get")
  end.

(** What the handler emits for one record that is a dict, after the trace
    [t]: nothing for a record that does not match; for a match, the two INFO
    records and then either the skipped-attempt record or the call to
    [sns.publish] with the record of its outcome. *)
Definition record_trace (py_repr : json -> string) (w : world) (d : dict) (t : trace)
  : trace :=
  if event_name_matches (JObject d) then
    let found := Log INFO ("Found matching CloudTrail event: '"
                           ++ py_str py_repr (get_default d "eventName" JNull) ++ "'.") in
    let sending := Log INFO ("Found matching event: '"
                             ++ py_str py_repr (get_default d "eventName" JNull)
                             ++ "' (Event ID: '"
                             ++ py_str py_repr (get_default d "eventID" (JString "N/A"))
                             ++ "'). Sending to SNS.") in
    if topic_unset (sns_topic_arn w) then [found; sending; Log CRITICAL skipped_line]
    else
      [found; sending;
       SnsPublish (topic_of w) (json_dumps (JObject d)) (subject_of py_repr d);
       match sns_publish w (t ++ [found; sending])%list (topic_of w)
                         (json_dumps (JObject d)) (subject_of py_repr d) with
       | inr message_id => Log INFO ("Event sent to SNS. Message ID: " ++ message_id)
       | inl e => Log ERROR ("Error sending event to SNS: " ++ exn_msg e)
       end]
  else [].

(** What the loop emits for the records up to the first that is not a
    dict. *)
Fixpoint records_trace (py_repr : json -> string) (w : world) (records : list json)
         (t : trace) : trace :=
  match records with
  | JObject d :: rest =>
      (record_trace py_repr w d t
       ++ records_trace py_repr w rest (t ++ record_trace py_repr w d t))%list
  | _ => []
  end.

(** What a run of the handler may do to AWS: no call at all, or one download
    of a truthy bucket and key, with every publish after it. *)
Definition calls_in_order (out : trace) : Prop :=
  (s3_calls out = [] /\ sns_calls out = [])
  \/ exists (pre post : trace) (b k : json),
       out = (pre ++ S3GetObject b k :: post)%list
       /\ s3_calls pre = [] /\ sns_calls pre = [] /\ s3_calls post = []
       /\ py_bool b = true /\ py_bool k = true.

(** The INFO records the matcher emits for the matches among the records
    before the first that is not a dict. *)
Definition matching_trace (py_repr : json -> string) (records : list json) : trace :=
  flat_map (fun r => match r with
                     | JObject d =>
                         if event_name_matches r
                         then [Log INFO ("Found matching CloudTrail event: '"
                                         ++ py_str py_repr (get_default d "eventName" JNull)
                                         ++ "'.")]
                         else []
                     | _ => []
                     end) (leading_dicts records).

(** The results of the restructured variant. *)
Definition copy_response_fetch_failed (py_repr : json -> string) (key : json) : response :=
  {| statusCode := 500;
     body := json_dumps
               (JObject [("error",
                          JString ("Failed to retrieve S3 content: "
                                   ++ py_str py_repr key))]) |}.

Definition copy_response_processed (py_repr : json -> string) (key : json) (sent : nat)
  : response :=
  {| statusCode := 200;
     body := json_dumps
               (JObject [("message",
                          JString ("Successfully processed CloudTrail log: "
                                   ++ py_str py_repr key ++ ". Sent "
                                   ++ string_of_nat sent
                                   ++ " matching events to SNS."))]) |}.

(* ================================================================== *)
(** * The first version of the handler, [LambdCloudTrailProcess.py]

    It prints instead of logging and sends the matches to CloudWatch Logs
    instead of SNS.  The module has no [import time], though the function
    refers to [time]. *)

Module Legacy.

(** What an invocation does to the outside, oldest first. *)
Inductive action : Type :=
| Print (line : string)
| GetObject (bucket key : json)
| PutLogEvents (log_group : string) (timestamp : Z) (message : string).

Definition history := list action.

(** [log_group_name] is [os.environ.get('LOG_GROUP_NAME', ...)] with its
    default; the other fields are the outcomes of the calls to the two
    clients. *)
Record world : Type := {
  log_group_name : string;
  s3_get_object : json -> json -> exn + list Byte.byte;
  put_log_events : history -> string -> Z -> string -> exn + unit
}.

Definition M (A : Type) : Type := history -> (exn + A) * history.

Definition ret {A} (a : A) : M A := fun h => (inr a, h).
Definition raise {A} (e : exn) : M A := fun h => (inl e, h).
Definition bind {A B} (m : M A) (f : A -> M B) : M B :=
  fun h =>
    match m h with
    | (inr a, h') => f a h'
    | (inl e, h') => (inl e, h')
    end.

Definition try_except {A} (m : M A) (handle : exn -> M A) : M A :=
  fun h =>
    match m h with
    | (inr a, h') => (inr a, h')
    | (inl e, h') => handle e h'
    end.

Definition try_except_class {A} (c : exn -> bool) (m : M A) (handle : exn -> M A) : M A :=
  fun h =>
    match m h with
    | (inr a, h') => (inr a, h')
    | (inl e, h') => if c e then handle e h' else (inl e, h')
    end.

Definition lift {A} (r : exn + A) : M A :=
  match r with
  | inr a => ret a
  | inl e => raise e
  end.

Definition print (line : string) : M unit := fun h => (inr tt, (h ++ [Print line])%list).

Definition NameError (name : string) : exn :=
  mk_exn "NameError" ("name '" ++ name ++ "' is not defined").

(** [v[k]] for a str [k]. *)
Definition py_subscript (v : json) (k : string) : M json :=
  match v with
  | JObject d =>
      match dict_get d k with
      | Some x => ret x
      | None => raise (KeyError ("'" ++ k ++ "'"))
      end
  | JArray _ => raise (TypeError "list indices must be integers or slices, not str")
  | JString _ => raise (TypeError "string indices must be integers, not 'str'")
  | _ => raise (TypeError ("'" ++ py_type_name v ++ "' object is not subscriptable"))
  end.

(** [v[0]] *)
Definition py_first (v : json) : M json :=
  match v with
  | JArray l =>
      match l with
      | x :: _ => ret x
      | [] => raise (IndexError "list index out of range")
      end
  | JString s =>
      match s with
      | String c _ => ret (JString (String c ""))
      | EmptyString => raise (IndexError "string index out of range")
      end
  | JObject _ => raise (KeyError "0")
  | _ => raise (TypeError ("'" ++ py_type_name v ++ "' object is not subscriptable"))
  end.

(** [for x in v] *)
Definition py_iter (v : json) : M (list json) :=
  match v with
  | JArray l => ret l
  | JString s => ret (map (fun c => JString (String c "")) (list_ascii_of_string s))
  | JObject d => ret (map (fun kv => JString (fst kv)) d)
  | _ => raise (TypeError ("'" ++ py_type_name v ++ "' object is not iterable"))
  end.

(** [time.time()]: the name [time] is not bound in the module. *)
Definition time_time : M Z := raise (NameError "time").

(** [v.timestamp()]: no value decoded from JSON has the attribute. *)
Definition py_timestamp (v : json) : M Z :=
  raise (AttributeError v "timestamp").

Section Handler.

Variable gzip_decompress : list Byte.byte -> exn + list Byte.byte.
Variable decode_utf8 : list Byte.byte -> exn + string.
Variable json_loads : string -> exn + json.
Variable py_repr : json -> string.
Variable w : world.

Definition get_object (bucket key : json) : M (list Byte.byte) :=
  fun h => (s3_get_object w bucket key, (h ++ [GetObject bucket key])%list).

Definition put (timestamp : Z) (message : string) : M unit :=
  fun h => (put_log_events w h (log_group_name w) timestamp message,
            (h ++ [PutLogEvents (log_group_name w) timestamp message])%list).

(** The error report to CloudWatch Logs: its timestamp is computed from
    [time.time()] before the call. *)
Definition report (message : string) : M unit :=
  bind time_time (fun now => put (now * 1000) message).

(** The loop over the records. *)
Fixpoint for_each_record (records : list json) : M unit :=
  match records with
  | [] => ret tt
  | record :: rest =>
      bind (py_subscript record "eventName") (fun event_name =>
      bind (if py_in event_name ["StopLogging"; "UpdateTrail"; "DeleteTrail"] then
              bind (print ("Found matching event: " ++ py_str py_repr event_name)) (fun _ =>
              try_except
                (bind (py_subscript record "eventTime") (fun event_time =>
                 bind (py_timestamp event_time) (fun seconds =>
                 put (seconds * 1000) (json_dumps record))))
                (fun e => print ("Error sending log to CloudWatch: " ++ exn_msg e)))
            else ret tt) (fun _ =>
      for_each_record rest))
  end.

Definition lambda_handler (event : json) (context : string) : M unit :=
  try_except
    (bind (py_subscript event "Records") (fun records =>
     bind (py_first records) (fun first =>
     bind (py_subscript first "s3") (fun s3 =>
     bind (py_subscript s3 "bucket") (fun bucket_info =>
     bind (py_subscript bucket_info "name") (fun bucket =>
     bind (py_subscript event "Records") (fun records' =>
     bind (py_first records') (fun first' =>
     bind (py_subscript first' "s3") (fun s3' =>
     bind (py_subscript s3' "object") (fun object_info =>
     bind (py_subscript object_info "key") (fun key =>
     bind (print ("Processing CloudTrail log file: " ++ py_str py_repr key
                  ++ " from bucket: " ++ py_str py_repr bucket)) (fun _ =>
     bind (get_object bucket key) (fun compressed_content =>
     bind (try_except
             (bind (lift (gzip_decompress compressed_content)) (fun raw =>
              bind (lift (decode_utf8 raw)) (fun content => ret (Some content))))
             (fun e =>
                bind (print ("Error decompressing log file: " ++ exn_msg e)) (fun _ =>
                bind (report ("Error decompressing log file: " ++ exn_msg e)) (fun _ =>
                ret None)))) (fun decompressed =>
     match decompressed with
     | None => ret tt
     | Some content =>
         bind (try_except_class is_JSONDecodeError
                 (bind (lift (json_loads content)) (fun log_data => ret (Some log_data)))
                 (fun e =>
                    bind (print ("Error decoding JSON: " ++ exn_msg e)) (fun _ =>
                    bind (report ("Error decoding JSON: " ++ exn_msg e)) (fun _ =>
                    ret None)))) (fun parsed =>
         match parsed with
         | None => ret tt
         | Some log_data =>
             bind (py_subscript log_data "Records") (fun log_records =>
             bind (py_iter log_records) (fun items =>
             for_each_record items))
         end)
     end))))))))))))))
    (fun e =>
       bind (print ("Error processing S3 event: " ++ exn_msg e)) (fun _ =>
       report ("Error processing S3 event: " ++ exn_msg e))).

End Handler.

End Legacy.
(** The calls to [logs.put_log_events] and to [s3.get_object] in a history
    of the first version. *)
Definition legacy_puts (h : Legacy.history) : list (string * Z * string) :=
  flat_map (fun a => match a with
                     | Legacy.PutLogEvents g ts m => [(g, ts, m)]
                     | _ => []
                     end) h.

Definition legacy_gets (h : Legacy.history) : list (json * json) :=
  flat_map (fun a => match a with
                     | Legacy.GetObject b k => [(b, k)]
                     | _ => []
                     end) h.

Definition legacy_prints (h : Legacy.history) : list string :=
  flat_map (fun a => match a with
                     | Legacy.Print line => [line]
                     | _ => []
                     end) h.

(** The rule of the first version: three names, without [ConsoleLogin]. *)
Definition legacy_matches (record : json) : bool :=
  match record with
  | JObject d =>
      match dict_get d "eventName" with
      | Some (JString s) =>
          existsb (String.eqb s) ["StopLogging"; "UpdateTrail"; "DeleteTrail"]
      | _ => false
      end
  | _ => false
  end.

(** The exception raised when the first version builds the log event of a
    matching record. *)
Definition timestamp_error (d : dict) : exn :=
  match dict_get d "eventTime" with
  | Some v => AttributeError v "timestamp"
  | None => KeyError "'eventTime'"
  end.

(** The two lines the first version prints for a matching record. *)
Definition legacy_lines (py_repr : json -> string) (record : json) : list Legacy.action :=
  match record with
  | JObject d =>
      if legacy_matches record then
        [Legacy.Print ("Found matching event: "
                       ++ py_str py_repr (get_default d "eventName" JNull));
         Legacy.Print ("Error sending log to CloudWatch: " ++ exn_msg (timestamp_error d))]
      else []
  | _ => []
  end.

(** A record of the log file that has an [eventName]. *)
Definition has_event_name (record : json) : bool :=
  match record with
  | JObject d => match dict_get d "eventName" with Some _ => true | None => false end
  | _ => false
  end.

(** The notification carries [Records[0].s3.bucket.name] and
    [Records[0].s3.object.key]. *)
Definition legacy_notification (event bucket key : json) : Prop :=
  exists (ev first : dict) (rest : list json) (s3 b o : dict),
    event = JObject ev
    /\ dict_get ev "Records" = Some (JArray (JObject first :: rest))
    /\ dict_get first "s3" = Some (JObject s3)
    /\ dict_get s3 "bucket" = Some (JObject b)
    /\ dict_get s3 "object" = Some (JObject o)
    /\ dict_get b "name" = Some bucket
    /\ dict_get o "key" = Some key.

(** ** More sample data *)

Module Stored.

(** A bucket whose objects are not empty, and library stand-ins that fail. *)
Definition bytes : list Byte.byte := [Byte.x1f; Byte.x8b; Byte.x08].

Definition world_with (arn : option string) : world :=
  {| sns_topic_arn := arn;
     s3_get_object := fun _ _ => inr bytes;
     sns_publish := Sample.first_publish_fails |}.

Definition gunzip_fails (c : list Byte.byte) : exn + list Byte.byte :=
  inl (mk_exn "BadGzipFile" "Not a gzipped file").

Definition loads_fails (text : string) : exn + json :=
  inl (mk_exn "JSONDecodeError" "Expecting value: line 1 column 1 (char 0)").

Definition records_with_number : list json :=
  [Sample.stop_logging; Sample.get_object_event; JInt 5; Sample.console_login].

Definition legacy_world : Legacy.world :=
  {| Legacy.log_group_name := "/aws/lambda/your-lambda-function-name";
     Legacy.s3_get_object := fun _ _ => inr bytes;
     Legacy.put_log_events := fun _ _ _ _ => inr tt |}.

Definition legacy_world_s3_down : Legacy.world :=
  {| Legacy.log_group_name := "/aws/lambda/your-lambda-function-name";
     Legacy.s3_get_object := fun _ _ => inl (mk_exn "ClientError" "NoSuchKey");
     Legacy.put_log_events := fun _ _ _ _ => inr tt |}.

End Stored.

(* ================================================================== *)
(** * Strings and serialization *)

Lemma string_app_assoc (a b c : string) : (a ++ b) ++ c = a ++ b ++ c.
Proof. induction a as [|x a IH]; simpl; [reflexivity | now rewrite IH]. Qed.

Lemma string_app_nil (a : string) : a ++ "" = a.
Proof. induction a as [|x a IH]; simpl; [reflexivity | now rewrite IH]. Qed.

Lemma join_comma_occurs (x : string) (l : list string) :
  In x l -> occurs_in x (join_comma l).
Proof.
  induction l as [|y l IH]; intros Hin; [destruct Hin|].
  destruct Hin as [->|Hin].
  - destruct l as [|z l].
    + exists "", "". cbn [join_comma]. simpl. now rewrite string_app_nil.
    + exists "", (", " ++ join_comma (z :: l)). reflexivity.
  - destruct l as [|z l]; [destruct Hin|].
    destruct (IH Hin) as (pre & post & Heq).
    exists (y ++ ", " ++ pre), post.
    change (join_comma (y :: z :: l)) with (y ++ ", " ++ join_comma (z :: l)).
    rewrite Heq, !string_app_assoc. reflexivity.
Qed.

Lemma json_dumps_object (d : dict) :
  json_dumps (JObject d) = "{" ++ join_comma (map dumps_member d) ++ "}".
Proof. reflexivity. Qed.

Lemma unescape_escape_char (c : ascii) (tail : string) :
  unescape (escape_char c ++ tail) = prepend c (unescape tail).
Proof.
  destruct c as [[] [] [] [] [] [] [] []]; reflexivity.
Qed.

Lemma unescape_escape_string (s rest : string) :
  unescape (escape_string s ++ String dquote rest) = Some (s, rest).
Proof.
  induction s as [|c s IH]; [reflexivity|].
  cbn [escape_string]. rewrite string_app_assoc, unescape_escape_char, IH. reflexivity.
Qed.

Lemma dumps_string_injective (s s' x x' : string) :
  dumps_string s ++ x = dumps_string s' ++ x' -> s = s' /\ x = x'.
Proof.
  unfold dumps_string. cbn [String.append]. rewrite !string_app_assoc. cbn [String.append].
  intros H. injection H as H. apply (f_equal unescape) in H.
  rewrite !unescape_escape_string in H. injection H as -> ->. auto.
Qed.

(** Two tokens without delimiters, each followed by a delimiter or by
    nothing, are equal when the texts are. *)
Lemma token_unique (a a' s s' : string) :
  no_delim a = true -> no_delim a' = true ->
  ends_value s = true -> ends_value s' = true ->
  a ++ s = a' ++ s' -> a = a' /\ s = s'.
Proof.
  revert a'. induction a as [|c a IH]; intros [|c' a'] Ha Ha' Hs Hs' H; cbn in *.
  - auto.
  - subst s. cbn in Hs. apply andb_prop in Ha' as [Hc _]. now rewrite Hs in Hc.
  - subst s'. cbn in Hs'. apply andb_prop in Ha as [Hc _]. now rewrite Hs' in Hc.
  - injection H as -> H. apply andb_prop in Ha as [_ Ha]. apply andb_prop in Ha' as [_ Ha'].
    destruct (IH a' Ha Ha' Hs Hs' H) as [-> ->]. auto.
Qed.

Lemma int_like_no_delim (s : string) : int_like s = true -> no_delim s = true.
Proof.
  induction s as [|c s IH]; [reflexivity|]. cbn. intros H.
  apply andb_prop in H as [Hc Hs]. rewrite (IH Hs), andb_true_r.
  destruct c as [[] [] [] [] [] [] [] []]; try reflexivity; discriminate Hc.
Qed.

Lemma int_like_uint (d : Decimal.uint) :
  int_like (DecimalString.NilEmpty.string_of_uint d) = true.
Proof. induction d; cbn; auto. Qed.

Lemma int_like_nilzero_uint (d : Decimal.uint) :
  int_like (DecimalString.NilZero.string_of_uint d) = true.
Proof. destruct d; first [reflexivity | apply int_like_uint]. Qed.

Lemma int_like_string_of_Z (z : Z) : int_like (string_of_Z z) = true.
Proof.
  unfold string_of_Z, DecimalString.NilZero.string_of_int.
  destruct (Z.to_int z) as [d|d]; [apply int_like_nilzero_uint|].
  cbn [int_like]. rewrite int_like_nilzero_uint. reflexivity.
Qed.

Lemma string_of_Z_injective (z z' : Z) : string_of_Z z = string_of_Z z' -> z = z'.
Proof.
  assert (Hnn : forall x, Z.to_int x <> Decimal.Pos Decimal.Nil
                          /\ Z.to_int x <> Decimal.Neg Decimal.Nil).
  { intros [|p|p]; cbn; split; try discriminate; intros [= H];
      now apply DecimalPos.Unsigned.to_uint_nonnil in H. }
  unfold string_of_Z. intros H.
  apply (f_equal DecimalString.NilZero.int_of_string) in H.
  destruct (Hnn z) as [H1 H2], (Hnn z') as [H1' H2'].
  rewrite !DecimalString.NilZero.isi in H by assumption.
  injection H as H. now apply DecimalZ.to_int_inj.
Qed.

Lemma head_int_like (s x : string) :
  int_like s = true -> s <> "" -> head_of (s ++ x) = HNumber.
Proof.
  destruct s as [|c s]; [congruence|]. cbn [int_like String.append]. intros H _.
  apply andb_prop in H as [Hc _].
  destruct c as [[] [] [] [] [] [] [] []]; try reflexivity; discriminate Hc.
Qed.

Lemma string_of_Z_nonempty (z : Z) : string_of_Z z <> "".
Proof.
  unfold string_of_Z, DecimalString.NilZero.string_of_int, DecimalString.NilZero.string_of_uint.
  destruct (Z.to_int z) as [d|d]; destruct d; discriminate.
Qed.

Lemma head_of_app (p x : string) :
  p <> "" -> head_of (p ++ x) = head_of p.
Proof. destruct p; [congruence | reflexivity]. Qed.

(** The first character of a serialized value is that of its kind. *)
Lemma head_json_dumps (v : json) (x : string) :
  wf_json v = true -> head_of (json_dumps v ++ x) = head_of_json v.
Proof.
  destruct v as [|[]|z|r|s|l|d]; intros Hwf; try reflexivity.
  - apply head_int_like; [apply int_like_string_of_Z | apply string_of_Z_nonempty].
  - cbn [wf_json] in Hwf. unfold wf_float in Hwf. cbn [json_dumps head_of_json].
    apply andb_prop in Hwf as [Hwf Hhead]. apply andb_prop in Hwf as [_ Hint].
    rewrite head_of_app.
    + destruct (head_of (dumps_float r)); try discriminate Hhead; reflexivity.
    + intros E. rewrite E in Hint. discriminate Hint.
Qed.

Lemma dumps_float_injective (r r' : string) :
  wf_float r = true -> wf_float r' = true -> dumps_float r = dumps_float r' -> r = r'.
Proof.
  unfold wf_float. intros H H'.
  repeat (apply andb_prop in H as [H _]). repeat (apply andb_prop in H' as [H' _]).
  apply negb_true_iff in H, H'.
  apply orb_false_elim in H as [H H3]. apply orb_false_elim in H as [H1 H2].
  apply orb_false_elim in H' as [H' H3']. apply orb_false_elim in H' as [H1' H2'].
  apply String.eqb_neq in H1, H2, H3, H1', H2', H3'.
  unfold dumps_float.
  repeat match goal with
         | |- context [String.eqb ?a ?b] => destruct (String.eqb_spec a b)
         end; subst; congruence.
Qed.

Lemma join_comma_cons (a : string) (rest : list string) (close : string) :
  join_comma (a :: rest) ++ close = a ++ after_item rest close.
Proof.
  destruct rest as [|b rest]; [reflexivity|].
  change (join_comma (a :: b :: rest)) with (a ++ ", " ++ join_comma (b :: rest)).
  rewrite !string_app_assoc. reflexivity.
Qed.

Section JoinedItems.

Variable A : Type.
Variable f : A -> string.
Variable W : A -> Prop.
Variable close : ascii.
Hypothesis close_delim : is_delim close = true.
Hypothesis close_not_comma : close <> ","%char.
Hypothesis close_head : forall x, head_of (String close x) = HOther.
Hypothesis item_head : forall a y, W a -> head_of (f a ++ y) <> HOther.

Lemma after_item_ends (rest : list string) (x : string) :
  ends_value (after_item rest (String close x)) = true.
Proof. destruct rest; [exact close_delim | reflexivity]. Qed.

Lemma joined_items_prefix_code (l : list A) :
  Forall W l -> Forall (item_prefix_code A f W) l ->
  forall l' x x',
    Forall W l' ->
    join_comma (map f l) ++ String close x = join_comma (map f l') ++ String close x' ->
    l = l' /\ x = x'.
Proof.
  induction l as [|a l IH]; intros HW Hcode l' x x' HW' H.
  - destruct l' as [|a' l']; cbn [map] in H.
    + cbn in H. injection H as ->. auto.
    + rewrite join_comma_cons in H. apply (f_equal head_of) in H.
      cbn [join_comma String.append] in H. rewrite close_head in H.
      symmetry in H. inversion HW'; subst. now apply item_head in H.
  - inversion HW as [|? ? Wa Wl]; subst. inversion Hcode as [|? ? Ca Cl]; subst.
    destruct l' as [|a' l']; cbn [map] in H.
    + rewrite join_comma_cons in H. apply (f_equal head_of) in H.
      cbn [join_comma String.append] in H. rewrite close_head in H.
      now apply item_head in H.
    + inversion HW' as [|? ? Wa' Wl']; subst.
      rewrite !join_comma_cons in H.
      destruct (Ca a' _ _ Wa' (after_item_ends _ _) (after_item_ends _ _) H) as [<- Hrest].
      assert (Htail : join_comma (map f l) ++ String close x
                      = join_comma (map f l') ++ String close x').
      { destruct l as [|b l], l' as [|b' l']; cbn [map after_item] in Hrest.
        - exact Hrest.
        - cbn in Hrest. injection Hrest as E _. now apply close_not_comma in E.
        - cbn in Hrest. injection Hrest as E _. symmetry in E.
          now apply close_not_comma in E.
        - cbn [String.append] in Hrest. injection Hrest as Hrest. exact Hrest. }
      destruct (IH Wl Cl l' x x' Wl' Htail) as [-> ->]. auto.
Qed.

End JoinedItems.

Lemma head_of_json_not_other (v : json) : head_of_json v <> HOther.
Proof. destruct v as [|[]| | | | |]; discriminate. Qed.

Lemma forallb_Forall_wf (l : list json) :
  forallb wf_json l = true -> Forall (fun v => wf_json v = true) l.
Proof. intros H. apply Forall_forall. now apply forallb_forall. Qed.

Lemma forallb_Forall_wf_snd (d : dict) :
  forallb (fun kv => wf_json (snd kv)) d = true ->
  Forall (fun kv : string * json => wf_json (snd kv) = true) d.
Proof. intros H. apply Forall_forall. intros kv. now apply (proj1 (forallb_forall _ d) H). Qed.

Ltac by_head H :=
  apply (f_equal head_of) in H; rewrite !head_json_dumps in H by assumption;
  discriminate H.

(** The serialization of a value is told apart from whatever follows it:
    [json.dumps] writes a prefix code. *)
Lemma json_dumps_prefix_code (v : json) :
  wf_json v = true ->
  forall v' x x',
    wf_json v' = true -> ends_value x = true -> ends_value x' = true ->
    json_dumps v ++ x = json_dumps v' ++ x' -> v = v' /\ x = x'.
Proof.
  induction v as [|b|z|r|s|l IHl|d IHd] using json_nested_ind;
    intros Hwf v' x x' Hwf' Hx Hx' H.
  - destruct v' as [|[]|z'|r'|s'|l'|d']; try by_head H.
    cbn in H. injection H as ->. auto.
  - destruct b, v' as [|[]|z'|r'|s'|l'|d']; try by_head H;
      cbn in H; injection H as ->; auto.
  - destruct v' as [|[]|z'|r'|s'|l'|d']; try by_head H; cbn [json_dumps] in H.
    + apply token_unique in H; try assumption;
        try (apply int_like_no_delim, int_like_string_of_Z).
      destruct H as [H ->]. apply string_of_Z_injective in H. subst. auto.
    + cbn [wf_json] in Hwf'. unfold wf_float in Hwf'.
      apply andb_prop in Hwf' as [Hwf' _]. apply andb_prop in Hwf' as [Hwf' Hni].
      apply andb_prop in Hwf' as [_ Hnd].
      apply token_unique in H; try assumption;
        try (apply int_like_no_delim, int_like_string_of_Z).
      destruct H as [H _]. rewrite <- H, int_like_string_of_Z in Hni. discriminate Hni.
  - destruct v' as [|[]|z'|r'|s'|l'|d']; try by_head H; cbn [json_dumps] in H;
      cbn [wf_json] in Hwf; pose proof Hwf as Hwfr; unfold wf_float in Hwf;
      apply andb_prop in Hwf as [Hwf _]; apply andb_prop in Hwf as [Hwf Hni];
      apply andb_prop in Hwf as [_ Hnd].
    + apply token_unique in H; try assumption;
        try (apply int_like_no_delim, int_like_string_of_Z).
      destruct H as [H _]. rewrite H, int_like_string_of_Z in Hni. discriminate Hni.
    + cbn [wf_json] in Hwf'. pose proof Hwf' as Hwfr'. unfold wf_float in Hwf'.
      apply andb_prop in Hwf' as [Hwf' _]. apply andb_prop in Hwf' as [Hwf' _].
      apply andb_prop in Hwf' as [_ Hnd'].
      apply token_unique in H; try assumption.
      destruct H as [H ->]. apply dumps_float_injective in H; try assumption.
      subst. auto.
  - destruct v' as [|[]|z'|r'|s'|l'|d']; try by_head H. cbn [json_dumps] in H.
    apply dumps_string_injective in H as [-> ->]. auto.
  - destruct v' as [|[]|z'|r'|s'|l'|d']; try by_head H.
    change (json_dumps (JArray l)) with ("[" ++ join_comma (map json_dumps l) ++ "]") in H.
    change (json_dumps (JArray l')) with ("[" ++ join_comma (map json_dumps l') ++ "]") in H.
    rewrite !string_app_assoc in H. cbn [String.append] in H. injection H as H.
    cbn [wf_json] in Hwf, Hwf'.
    apply forallb_Forall_wf in Hwf, Hwf'.
    apply (joined_items_prefix_code json (json_dumps) (fun v => wf_json v = true) "]"%char)
      in H; try assumption; try reflexivity; try discriminate.
    + destruct H as [-> ->]. auto.
    + intros a y Ha E. rewrite head_json_dumps in E by assumption.
      now apply head_of_json_not_other in E.
    + clear - IHl Hwf. induction IHl as [|a l Pa _ IH]; constructor.
      * inversion Hwf; subst. intros a' y y'. now apply Pa.
      * inversion Hwf; subst. now apply IH.
  - destruct v' as [|[]|z'|r'|s'|l'|d']; try by_head H.
    rewrite !json_dumps_object in H.
    rewrite !string_app_assoc in H. cbn [String.append] in H. injection H as H.
    cbn [wf_json] in Hwf, Hwf'.
    apply forallb_Forall_wf_snd in Hwf, Hwf'.
    apply (joined_items_prefix_code (string * json) dumps_member
             (fun kv => wf_json (snd kv) = true) "}"%char)
      in H; try assumption; try reflexivity; try discriminate.
    + destruct H as [-> ->]. auto.
    + clear - IHd Hwf. induction IHd as [|[k a] d Pa _ IH]; constructor.
      * inversion Hwf; subst. intros [k' a'] y y' Wa' Hy Hy' E.
        unfold dumps_member in E. cbn [fst snd] in *.
        rewrite !string_app_assoc in E.
        apply dumps_string_injective in E as [-> E].
        cbn [String.append] in E. injection E as E.
        destruct (Pa H1 a' y y' Wa' Hy Hy' E) as [-> ->]. auto.
      * inversion Hwf; subst. now apply IH.
Qed.

(** A record can be read back from its serialization: different values
    never have the same text. *)
Lemma json_dumps_injective (v v' : json) :
  wf_json v = true -> wf_json v' = true -> json_dumps v = json_dumps v' -> v = v'.
Proof.
  intros Hwf Hwf' H.
  apply (json_dumps_prefix_code v Hwf v' "" "" Hwf' eq_refl eq_refl).
  now rewrite !string_app_nil.
Qed.

(* ================================================================== *)
(** * Running the code *)

#[local] Arguments String.append : simpl never.
#[local] Arguments json_dumps : simpl never.
#[local] Arguments string_of_nat : simpl never.

Ltac run :=
  cbv [bind ret raise try_except try_except_class lift emit py_get
       logger_debug logger_info logger_warning logger_error logger_critical].

Lemma s3_calls_app (t u : trace) : s3_calls (t ++ u)%list = (s3_calls t ++ s3_calls u)%list.
Proof. apply flat_map_app. Qed.

Lemma sns_calls_app (t u : trace) : sns_calls (t ++ u)%list = (sns_calls t ++ sns_calls u)%list.
Proof. apply flat_map_app. Qed.

Lemma logged_app lvl (t u : trace) : logged lvl (t ++ u)%list = (logged lvl t ++ logged lvl u)%list.
Proof. apply flat_map_app. Qed.

Lemma failed_publishes_app (w : world) (out1 out2 pre : trace) :
  failed_publishes w pre (out1 ++ out2)%list =
  (failed_publishes w pre out1 ++ failed_publishes w (pre ++ out1) out2)%list.
Proof.
  revert pre; induction out1 as [|ev out1 IH]; intros pre; simpl.
  - now rewrite app_nil_r.
  - rewrite IH, <- !app_assoc. reflexivity.
Qed.

Lemma failed_publishes_incl (w : world) (pre out : trace) :
  incl (failed_publishes w pre out) (sns_calls out).
Proof.
  revert pre; induction out as [|ev out IH]; intros pre; cbn [failed_publishes].
  - apply incl_refl.
  - change (sns_calls (ev :: out))
      with (match ev with
            | SnsPublish topic m s => [(topic, m, s)]
            | _ => []
            end ++ sns_calls out)%list.
    apply incl_app_app; [|apply IH].
    destruct ev as [lvl msg|b k|topic m s]; try apply incl_refl.
    destruct (sns_publish w pre topic m s); [apply incl_refl | apply incl_nil_l].
Qed.

Lemma child_get (d c : dict) (k : string) :
  child d k = Some c ->
  match dict_get d k with Some x => x | None => JObject [] end = JObject c.
Proof.
  unfold child. destruct (dict_get d k) as [[]|]; intros H; inversion H; reflexivity.
Qed.

Section Matcher.

Variable py_repr : json -> string.

Lemma process_cloudtrail_event_object (d : dict) (t : trace) :
  process_cloudtrail_event py_repr (JObject d) t =
  (inr (event_name_matches (JObject d)),
   (t ++ if event_name_matches (JObject d)
         then [Log INFO ("Found matching CloudTrail event: '"
                        ++ py_str py_repr (get_default d "eventName" JNull) ++ "'.")]
         else [])%list).
Proof.
  unfold process_cloudtrail_event, get_default, event_name_matches. run.
  destruct (dict_get d "eventName") as [v|];
    [destruct v|]; cbn [py_in existsb py_eq_str]; rewrite ?app_nil_r; try reflexivity.
  unfold criteria_events; cbn [existsb].
  destruct (_ || _); rewrite ?app_nil_r; reflexivity.
Qed.

Lemma matching_rule_object (d : dict) (t : trace) :
  Copy.matching_rule py_repr (JObject d) t =
  process_cloudtrail_event py_repr (JObject d) t.
Proof. reflexivity. Qed.

(** A value that is not a dict has no [get]: the matcher raises. *)
Lemma process_cloudtrail_event_not_object (record : json) (t : trace) :
  is_object record = false ->
  process_cloudtrail_event py_repr record t = (inl (AttributeError record "get"), t).
Proof. destruct record; intros H; try discriminate H; reflexivity. Qed.

Lemma event_name_matches_iff (d : dict) :
  event_name_matches (JObject d) = true <->
  exists s, dict_get d "eventName" = Some (JString s) /\ In s criteria_events.
Proof.
  unfold event_name_matches. split.
  - destruct (dict_get d "eventName") as [[]|]; try discriminate.
    intros H. apply existsb_exists in H as (x & Hin & Heq).
    apply String.eqb_eq in Heq. subst x. eauto.
  - intros (s & -> & Hin). apply existsb_exists. exists s. split; [assumption|].
    apply String.eqb_refl.
Qed.

End Matcher.

Section Publisher.

Variable py_repr : json -> string.
Variable w : world.

Lemma send_to_sns_unset (record : json) (t : trace) :
  topic_unset (sns_topic_arn w) = true ->
  send_to_sns py_repr w record t = (inr tt, (t ++ [Log CRITICAL skipped_line])%list).
Proof. intros H. unfold send_to_sns. rewrite H. reflexivity. Qed.

Lemma send_to_sns_set (d : dict) (t : trace) :
  topic_unset (sns_topic_arn w) = false ->
  send_to_sns py_repr w (JObject d) t =
  (inr tt,
   (t ++ [SnsPublish (topic_of w) (json_dumps (JObject d)) (subject_of py_repr d);
          match sns_publish w t (topic_of w) (json_dumps (JObject d))
                            (subject_of py_repr d) with
          | inr message_id => Log INFO ("Event sent to SNS. Message ID: " ++ message_id)
          | inl e => Log ERROR ("Error sending event to SNS: " ++ exn_msg e)
          end])%list).
Proof.
  intros H. unfold send_to_sns. rewrite H. run. unfold publish.
  fold (get_default d "eventName" (JString "Unknown")). fold (subject_of py_repr d).
  fold (topic_of w).
  destruct (sns_publish w t _ _ _); rewrite <- app_assoc; reflexivity.
Qed.

End Publisher.

Section Loop.

Variable py_repr : json -> string.
Variable w : world.

Lemma for_each_record_objects (records : list json) :
  forallb is_object records = true ->
  forall (p m : nat) (t : trace),
  exists out : trace,
    for_each_record py_repr w records p m t =
      (inr (p + List.length records,
            m + List.length (filter event_name_matches records)), (t ++ out)%list)
    /\ s3_calls out = []
    /\ sns_calls out =
         (if topic_unset (sns_topic_arn w) then []
          else map (publish_call py_repr (topic_of w)) (filter event_name_matches records))
    /\ logged CRITICAL out =
         (if topic_unset (sns_topic_arn w)
          then map (fun _ => skipped_line) (filter event_name_matches records)
          else [])
    /\ List.length (logged ERROR out) = List.length (failed_publishes w t out).
Proof.
  induction records as [|record rest IH]; intros Hobj p m t.
  - exists []. cbn. rewrite app_nil_r, !Nat.add_0_r.
    destruct (topic_unset _); repeat split; reflexivity.
  - cbn [forallb] in Hobj. apply andb_prop in Hobj as [Hrec Hrest].
    destruct record as [| | | | | |d]; try discriminate Hrec.
    specialize (IH Hrest).
    cbn [for_each_record]. unfold bind at 1.
    rewrite process_cloudtrail_event_object.
    cbn [filter List.length].
    destruct (event_name_matches (JObject d)) eqn:Hm.
    + run. unfold bind.
      match goal with
      | |- context [send_to_sns _ _ _ ((?t0 ++ [?a]) ++ [?b])%list] =>
          set (ev1 := a); set (ev2 := b); set (t1 := ((t0 ++ [ev1]) ++ [ev2])%list)
      end.
      assert (Hlog1 : exists s, ev1 = Log INFO s) by (eexists; reflexivity).
      assert (Hlog2 : exists s, ev2 = Log INFO s) by (eexists; reflexivity).
      destruct Hlog1 as [s1 Hs1], Hlog2 as [s2 Hs2].
      assert (Ht1 : t1 = ((t ++ [ev1]) ++ [ev2])%list) by reflexivity.
      clearbody ev1 ev2 t1. subst ev1 ev2.
      destruct (topic_unset (sns_topic_arn w)) eqn:Htopic.
      * rewrite send_to_sns_unset by assumption.
        destruct (IH (p + 1) (m + 1) (t1 ++ [Log CRITICAL skipped_line])%list)
          as (out & Hrun & Hs3 & Hsns & Hcrit & Herr).
        rewrite Hrun.
        exists ([Log INFO s1] ++ [Log INFO s2] ++ [Log CRITICAL skipped_line] ++ out)%list.
        split.
        { subst t1. rewrite <- !app_assoc. cbn [List.length].
          replace (p + 1 + List.length rest) with (p + S (List.length rest)) by lia.
          replace (m + 1 + List.length (filter event_name_matches rest))
            with (m + S (List.length (filter event_name_matches rest))) by lia.
          reflexivity. }
        rewrite !s3_calls_app, !sns_calls_app, !logged_app, !failed_publishes_app,
          Hs3, Hsns, Hcrit, <- Ht1.
        cbn. repeat split; try reflexivity. exact Herr.
      * rewrite send_to_sns_set by assumption.
        set (call := SnsPublish (topic_of w) (json_dumps (JObject d)) (subject_of py_repr d)).
        destruct (sns_publish w t1 (topic_of w) (json_dumps (JObject d)) (subject_of py_repr d))
          as [e|message_id] eqn:Hpub.
        -- set (ev3 := Log ERROR ("Error sending event to SNS: " ++ exn_msg e)).
           destruct (IH (p + 1) (m + 1) (t1 ++ [call; ev3])%list)
             as (out & Hrun & Hs3 & Hsns & Hcrit & Herr).
           rewrite Hrun.
           exists ([Log INFO s1] ++ [Log INFO s2] ++ [call; ev3] ++ out)%list.
           split.
           { subst t1. rewrite <- !app_assoc. cbn [List.length].
             replace (p + 1 + List.length rest) with (p + S (List.length rest)) by lia.
             replace (m + 1 + List.length (filter event_name_matches rest))
               with (m + S (List.length (filter event_name_matches rest))) by lia.
             reflexivity. }
           rewrite !s3_calls_app, !sns_calls_app, !logged_app, !failed_publishes_app,
             Hs3, Hsns, Hcrit, <- Ht1.
           cbn. rewrite Hpub. cbn. repeat split; try reflexivity. now rewrite Herr.
        -- set (ev3 := Log INFO ("Event sent to SNS. Message ID: " ++ message_id)).
           destruct (IH (p + 1) (m + 1) (t1 ++ [call; ev3])%list)
             as (out & Hrun & Hs3 & Hsns & Hcrit & Herr).
           rewrite Hrun.
           exists ([Log INFO s1] ++ [Log INFO s2] ++ [call; ev3] ++ out)%list.
           split.
           { subst t1. rewrite <- !app_assoc. cbn [List.length].
             replace (p + 1 + List.length rest) with (p + S (List.length rest)) by lia.
             replace (m + 1 + List.length (filter event_name_matches rest))
               with (m + S (List.length (filter event_name_matches rest))) by lia.
             reflexivity. }
           rewrite !s3_calls_app, !sns_calls_app, !logged_app, !failed_publishes_app,
             Hs3, Hsns, Hcrit, <- Ht1.
           cbn. rewrite Hpub. cbn. repeat split; try reflexivity. now rewrite Herr.
    + rewrite app_nil_r.
      destruct (IH (p + 1) m t) as (out & Hrun & Hs3 & Hsns & Hcrit & Herr).
      exists out. rewrite Hrun. repeat split; try assumption.
      replace (p + 1 + List.length rest) with (p + S (List.length rest)) by lia.
      reflexivity.
Qed.

End Loop.

Section Runs.

Variable gzip_decompress : list Byte.byte -> exn + list Byte.byte.
Variable decode_utf8 : list Byte.byte -> exn + string.
Variable json_loads : string -> exn + json.
Variable py_repr : json -> string.
Variable w : world.

#[local] Abbreviation fetch :=
  (fetch_cloudtrail_log gzip_decompress decode_utf8 json_loads py_repr w).
#[local] Abbreviation handler :=
  (lambda_handler gzip_decompress decode_utf8 json_loads py_repr w).

Lemma fetch_fails (bucket key : json) (t : trace) :
  payload_fails gzip_decompress decode_utf8 json_loads w bucket key ->
  exists lvl msg,
    fetch bucket key t = (inr JNull, (t ++ [S3GetObject bucket key; Log lvl msg])%list)
    /\ (lvl = WARNING \/ lvl = ERROR).
Proof.
  unfold fetch_cloudtrail_log, get_object. run.
  intros [(e & H1)|[(c & e & H1 & H2)|[(c & raw & e & H1 & H2 & H3)
                                      |(c & raw & text & e & H1 & H2 & H3 & H4)]]];
    rewrite H1; try rewrite H2; try rewrite H3; try rewrite H4;
    try destruct (is_JSONDecodeError e);
    rewrite <- app_assoc; do 2 eexists; (split; [reflexivity|]); auto.
Qed.

Lemma fetch_object (bucket key : json) (d : dict) (records : list json) (t : trace) :
  payload gzip_decompress decode_utf8 json_loads w bucket key (JObject d) ->
  get_default d "Records" (JArray []) = JArray records ->
  fetch bucket key t = (inr (JObject d), (t ++ [S3GetObject bucket key])%list).
Proof.
  intros (c & raw & text & H1 & H2 & H3 & H4) Hrec.
  unfold fetch_cloudtrail_log, get_object. run.
  rewrite H1, H2, H3, H4. fold (get_default d "Records" (JArray [])). rewrite Hrec.
  reflexivity.
Qed.

(** The download never raises and never publishes. *)
Lemma fetch_total (bucket key : json) (t : trace) :
  exists v out,
    fetch bucket key t = (inr v, (t ++ out)%list)
    /\ s3_calls out = [(bucket, key)] /\ sns_calls out = [].
Proof.
  unfold fetch_cloudtrail_log, get_object. run.
  destruct (s3_get_object w bucket key) as [e|c].
  { do 2 eexists. rewrite <- app_assoc. split; [reflexivity|]. split; reflexivity. }
  destruct (gzip_decompress c) as [e|raw].
  { do 2 eexists. rewrite <- app_assoc. split; [reflexivity|]. split; reflexivity. }
  destruct (decode_utf8 raw) as [e|text].
  { do 2 eexists. rewrite <- app_assoc. split; [reflexivity|]. split; reflexivity. }
  destruct (json_loads text) as [e|v].
  { destruct (is_JSONDecodeError e);
      do 2 eexists; rewrite <- app_assoc; (split; [reflexivity|]); split; reflexivity. }
  destruct v; cbn;
    try (do 2 eexists; rewrite <- app_assoc; (split; [reflexivity|]); split; reflexivity).
  destruct (match dict_get d "Records" with Some x => x | None => JArray [] end); cbn;
    do 2 eexists; rewrite <- ?app_assoc; (split; [reflexivity|]); split; reflexivity.
Qed.

Lemma handler_no_records (ev : dict) (context : string) (t : trace) :
  py_bool (get_default ev "Records" (JArray [])) = false ->
  handler (JObject ev) context t =
  (inr response_no_records,
   (t ++ [Log INFO (invoked_line py_repr (JObject ev));
          Log WARNING "No S3 records found in the event."])%list).
Proof.
  intros H. unfold lambda_handler. run.
  fold (get_default ev "Records" (JArray [])). rewrite H. cbn [negb].
  rewrite <- app_assoc. reflexivity.
Qed.

Lemma handler_invalid (event : json) (bn ok : option json) (context : string) (t : trace) :
  notification event bn ok ->
  py_bool (or_none bn) = false \/ py_bool (or_none ok) = false ->
  handler event context t =
  (inr response_invalid,
   (t ++ [Log INFO (invoked_line py_repr event);
          Log ERROR ("Could not extract bucket name or key from the S3 event: "
                     ++ py_str py_repr event)])%list).
Proof.
  intros (ev & first & rest & s3 & b & o & -> & Hrec & Hs3 & Hb & Ho & Hbn & Hok) Hfalsy.
  unfold lambda_handler. run. rewrite Hrec. cbn [py_bool negb py_getitem0].
  run. rewrite (child_get _ _ _ Hs3), (child_get _ _ _ Hb), (child_get _ _ _ Ho).
  rewrite Hbn, Hok. fold (or_none bn) (or_none ok).
  assert (Hc : negb (py_bool (or_none bn)) || negb (py_bool (or_none ok)) = true).
  { destruct Hfalsy as [H|H]; rewrite H; cbn [negb orb]; auto using orb_true_r. }
  rewrite Hc. rewrite <- app_assoc. reflexivity.
Qed.

Lemma handler_fetch_failed (event bucket key : json) (context : string) (t t2 : trace) :
  notification event (Some bucket) (Some key) ->
  py_bool bucket = true -> py_bool key = true ->
  fetch bucket key (t ++ [Log INFO (invoked_line py_repr event);
                          Log INFO (processing_line py_repr bucket key)])%list
    = (inr JNull, t2) ->
  handler event context t =
  (inr (response_fetch_failed py_repr key),
   (t2 ++ [Log ERROR ("Failed to fetch or process CloudTrail log from S3. "
                      ++ "Exiting processing for '" ++ py_str py_repr key ++ "'.")])%list).
Proof.
  intros (ev & first & rest & s3 & b & o & -> & Hrec & Hs3 & Hb & Ho & Hbn & Hok)
         Hbt Hkt Hfetch.
  unfold lambda_handler. run. rewrite Hrec. cbn [py_bool negb py_getitem0].
  run. rewrite (child_get _ _ _ Hs3), (child_get _ _ _ Hb), (child_get _ _ _ Ho).
  rewrite Hbn, Hok, Hbt, Hkt. cbn [negb orb].
  unfold invoked_line, processing_line in Hfetch. rewrite <- app_assoc. change ([?x] ++ ?l)%list with (x :: l).
  rewrite Hfetch. reflexivity.
Qed.

Lemma handler_processed (event bucket key : json) (d : dict) (records : list json)
      (context : string) (t t2 : trace) :
  notification event (Some bucket) (Some key) ->
  py_bool bucket = true -> py_bool key = true ->
  fetch bucket key (t ++ [Log INFO (invoked_line py_repr event);
                          Log INFO (processing_line py_repr bucket key)])%list
    = (inr (JObject d), t2) ->
  get_default d "Records" (JArray []) = JArray records ->
  forallb is_object records = true ->
  exists out : trace,
    handler event context t =
      (inr (response_processed py_repr key
              (List.length (filter event_name_matches records))),
       (t2 ++ out
           ++ [Log INFO (summary_line py_repr key (List.length records)
                           (List.length (filter event_name_matches records)))])%list)
    /\ s3_calls out = []
    /\ sns_calls out =
         (if topic_unset (sns_topic_arn w) then []
          else map (publish_call py_repr (topic_of w)) (filter event_name_matches records))
    /\ logged CRITICAL out =
         (if topic_unset (sns_topic_arn w)
          then map (fun _ => skipped_line) (filter event_name_matches records)
          else [])
    /\ List.length (logged ERROR out) = List.length (failed_publishes w t2 out).
Proof.
  intros (ev & first & rest & s3 & b & o & -> & Hrec & Hs3 & Hb & Ho & Hbn & Hok)
         Hbt Hkt Hfetch Hrecords Hobj.
  destruct (for_each_record_objects py_repr w records Hobj 0 0 t2)
    as (out & Hrun & Hfacts).
  exists out. split; [|exact Hfacts].
  unfold lambda_handler. run. rewrite Hrec. cbn [py_bool negb py_getitem0].
  run. rewrite (child_get _ _ _ Hs3), (child_get _ _ _ Hb), (child_get _ _ _ Ho).
  rewrite Hbn, Hok, Hbt, Hkt. cbn [negb orb].
  unfold invoked_line, processing_line in Hfetch. rewrite <- app_assoc. change ([?x] ++ ?l)%list with (x :: l).
  rewrite Hfetch. fold (get_default d "Records" (JArray [])). rewrite Hrecords.
  cbn [py_iter]. run. rewrite Hrun. cbn [fst snd Nat.add].
  rewrite <- app_assoc. reflexivity.
Qed.

End Runs.

(** Every entry of a dict is written out in its serialization. *)
Lemma json_dumps_keeps_members (d : dict) (kv : string * json) :
  In kv d -> occurs_in (dumps_member kv) (json_dumps (JObject d)).
Proof.
  intros Hin. rewrite json_dumps_object.
  destruct (join_comma_occurs (dumps_member kv) (map dumps_member d)) as (pre & post & Heq).
  { now apply in_map. }
  exists ("{" ++ pre), (post ++ "}"). rewrite Heq, !string_app_assoc. reflexivity.
Qed.

Lemma filter_objects (records : list json) :
  forallb is_object records = true ->
  forall r, In r (filter event_name_matches records) -> exists d, r = JObject d.
Proof.
  intros Hobj r Hin. apply filter_In in Hin as [Hin _].
  rewrite forallb_forall in Hobj. specialize (Hobj r Hin).
  destruct r; try discriminate Hobj. eauto.
Qed.

Section Invocations.

Variable gzip_decompress : list Byte.byte -> exn + list Byte.byte.
Variable decode_utf8 : list Byte.byte -> exn + string.
Variable json_loads : string -> exn + json.
Variable py_repr : json -> string.
Variable w : world.

#[local] Abbreviation handler :=
  (lambda_handler gzip_decompress decode_utf8 json_loads py_repr w).
#[local] Abbreviation copy_handler :=
  (Copy.lambda_handler gzip_decompress decode_utf8 json_loads py_repr w).

(** The handler catches every exception: it always returns a result. *)
Lemma lambda_handler_returns (event : json) (context : string) (t : trace) :
  exists (r : response) (t' : trace), handler event context t = (inr r, t').
Proof.
  unfold lambda_handler, logger_info, logger_debug, emit, ret.
  unfold bind at 1 2. unfold try_except.
  match goal with
  | |- context [let (_, _) := ?m ?t0 in _] => destruct (m t0) as [[e|r] t']
  end; run; eauto.
Qed.

Lemma copy_handler_invalid (event : json) (bn ok : option json) (context : string)
      (t : trace) :
  notification event bn ok ->
  py_bool (or_none bn) = false \/ py_bool (or_none ok) = false ->
  copy_handler event context t =
  (inr response_invalid,
   (t ++ [Log INFO (invoked_line py_repr event);
          Log ERROR ("Could not extract bucket name or key from the S3 event: "
                     ++ py_str py_repr event)])%list).
Proof.
  intros (ev & first & rest & s3 & b & o & -> & Hrec & Hs3 & Hb & Ho & Hbn & Hok) Hfalsy.
  unfold Copy.lambda_handler. run. rewrite Hrec. cbn [py_bool negb py_getitem0].
  run. rewrite (child_get _ _ _ Hs3), (child_get _ _ _ Hb), (child_get _ _ _ Ho).
  rewrite Hbn, Hok. fold (or_none bn) (or_none ok).
  assert (Hc : negb (py_bool (or_none bn)) || negb (py_bool (or_none ok)) = true).
  { destruct Hfalsy as [H|H]; rewrite H; cbn [negb orb]; auto using orb_true_r. }
  rewrite Hc. rewrite <- app_assoc. reflexivity.
Qed.

(** The run of the handler on a log file whose records are dicts. *)
Lemma handler_reads_log (event bucket key : json) (d : dict) (records : list json)
      (context : string) (t : trace) :
  reads_log gzip_decompress decode_utf8 json_loads w event bucket key d ->
  get_default d "Records" (JArray []) = JArray records ->
  forallb is_object records = true ->
  exists out : trace,
    handler event context t =
      (inr (response_processed py_repr key
              (List.length (filter event_name_matches records))), (t ++ out)%list)
    /\ s3_calls out = [(bucket, key)]
    /\ sns_calls out =
         (if topic_unset (sns_topic_arn w) then []
          else map (publish_call py_repr (topic_of w)) (filter event_name_matches records))
    /\ logged CRITICAL out =
         (if topic_unset (sns_topic_arn w)
          then map (fun _ => skipped_line) (filter event_name_matches records)
          else [])
    /\ List.length (logged ERROR out) = List.length (failed_publishes w t out)
    /\ In (summary_line py_repr key (List.length records)
             (List.length (filter event_name_matches records))) (logged INFO out).
Proof.
  intros (Hnote & Hb & Hk & Hpay) Hrecords Hobj.
  pose proof (fetch_object gzip_decompress decode_utf8 json_loads py_repr w
                bucket key d records
                (t ++ [Log INFO (invoked_line py_repr event);
                       Log INFO (processing_line py_repr bucket key)])%list
                Hpay Hrecords) as Hfetch.
  destruct (handler_processed gzip_decompress decode_utf8 json_loads py_repr w
              event bucket key d records context t _ Hnote Hb Hk Hfetch Hrecords Hobj)
    as (out & Hrun & Hs3 & Hsns & Hcrit & Herr).
  set (summary := summary_line py_repr key (List.length records)
                    (List.length (filter event_name_matches records))) in *.
  exists ([Log INFO (invoked_line py_repr event);
           Log INFO (processing_line py_repr bucket key);
           S3GetObject bucket key] ++ out ++ [Log INFO summary])%list.
  split.
  { rewrite Hrun. f_equal. rewrite <- !app_assoc. reflexivity. }
  rewrite !s3_calls_app, !sns_calls_app, !logged_app, !failed_publishes_app, Hs3, Hsns, Hcrit.
  replace (t ++ [Log INFO (invoked_line py_repr event);
                 Log INFO (processing_line py_repr bucket key);
                 S3GetObject bucket key])%list
    with ((t ++ [Log INFO (invoked_line py_repr event);
                 Log INFO (processing_line py_repr bucket key)])
            ++ [S3GetObject bucket key])%list
    by (rewrite <- app_assoc; reflexivity).
  cbn. rewrite !app_nil_r.
  repeat split; try reflexivity.
  - exact Herr.
  - right. right. apply in_or_app. right. left. reflexivity.
Qed.

End Invocations.

(* ================================================================== *)
(** * Properties of the handler *)

Section HandlerProperties.

Variable gzip_decompress : list Byte.byte -> exn + list Byte.byte.
Variable decode_utf8 : list Byte.byte -> exn + string.
Variable json_loads : string -> exn + json.
Variable py_repr : json -> string.
Variable w : world.

#[local] Abbreviation handler :=
  (lambda_handler gzip_decompress decode_utf8 json_loads py_repr w).
#[local] Abbreviation copy_handler :=
  (Copy.lambda_handler gzip_decompress decode_utf8 json_loads py_repr w).
#[local] Abbreviation reads :=
  (reads_log gzip_decompress decode_utf8 json_loads w).

(** C1, as amended.  When the stored object is a gzip-compressed JSON
    document whose [Records] is a list of [N] dicts of which [M] carry one
    of the four event names, the handler returns the 200 result whose body
    reports [M] matches; it downloads the object once; with a topic
    configured it calls [sns.publish] exactly once per matching record, in
    the order of the list, and without a topic it makes no call and logs
    one critical record per matching record.  [N] is written to the INFO
    log only: the returned result does not carry it. *)
Theorem handler_publishes_matches_in_order
        (event bucket key : json) (d : dict) (records : list json)
        (context : string) (t : trace) :
  reads event bucket key d ->
  get_default d "Records" (JArray []) = JArray records ->
  forallb is_object records = true ->
  let matched := filter event_name_matches records in
  exists out : trace,
    handler event context t =
      (inr (response_processed py_repr key (List.length matched)), (t ++ out)%list)
    /\ statusCode (response_processed py_repr key (List.length matched)) = 200%Z
    /\ s3_calls out = [(bucket, key)]
    /\ (topic_unset (sns_topic_arn w) = false ->
        sns_calls out = map (publish_call py_repr (topic_of w)) matched)
    /\ (topic_unset (sns_topic_arn w) = true ->
        sns_calls out = [] /\ logged CRITICAL out = map (fun _ => skipped_line) matched)
    /\ In (summary_line py_repr key (List.length records) (List.length matched))
          (logged INFO out).
Proof.
  intros Hreads Hrecords Hobj matched.
  destruct (handler_reads_log _ _ _ py_repr _ _ _ _ _ _ context t Hreads Hrecords Hobj)
    as (out & Hrun & Hs3 & Hsns & Hcrit & _ & Hsum).
  exists out. fold matched in Hrun, Hsns, Hcrit, Hsum.
  repeat split; try assumption.
  - intros Hset. now rewrite Hset in Hsns.
  - now rewrite H in Hsns.
  - now rewrite H in Hcrit.
Qed.

(** C2.  On a record (a dict) both matchers return normally, and they
    return [True] exactly when the record has an [eventName] whose value
    is one of [StopLogging], [UpdateTrail], [ConsoleLogin], [DeleteTrail];
    a record without [eventName] is not matched. *)
Theorem matcher_accepts_exactly_criteria_events (d : dict) (t : trace) :
  exists (b : bool) (out : trace),
    process_cloudtrail_event py_repr (JObject d) t = (inr b, (t ++ out)%list)
    /\ Copy.matching_rule py_repr (JObject d) t = (inr b, (t ++ out)%list)
    /\ (b = true <->
        exists s, dict_get d "eventName" = Some (JString s)
                  /\ In s ["StopLogging"; "UpdateTrail"; "ConsoleLogin"; "DeleteTrail"])
    /\ (dict_get d "eventName" = None -> b = false).
Proof.
  eexists. eexists. split; [|split; [|split]].
  - apply process_cloudtrail_event_object.
  - rewrite matching_rule_object. apply process_cloudtrail_event_object.
  - apply event_name_matches_iff.
  - intros H. unfold event_name_matches. now rewrite H.
Qed.

(** C3.  When the notification names an object and the download, the gzip
    decompression (or the decoding of its output) or the JSON parsing
    fails, the handler returns the 500 result and neither publishes nor
    reaches the point of publishing. *)
Theorem retrieval_failure_gives_500_without_publish
        (event bucket key : json) (context : string) (t : trace) :
  notification event (Some bucket) (Some key) ->
  py_bool bucket = true ->
  py_bool key = true ->
  payload_fails gzip_decompress decode_utf8 json_loads w bucket key ->
  exists out : trace,
    handler event context t = (inr (response_fetch_failed py_repr key), (t ++ out)%list)
    /\ statusCode (response_fetch_failed py_repr key) = 500%Z
    /\ sns_calls out = []
    /\ logged CRITICAL out = [].
Proof.
  intros Hnote Hb Hk Hfail.
  destruct (fetch_fails gzip_decompress decode_utf8 json_loads py_repr w bucket key
              (t ++ [Log INFO (invoked_line py_repr event);
                     Log INFO (processing_line py_repr bucket key)])%list Hfail)
    as (lvl & msg & Hfetch & Hlvl).
  rewrite (handler_fetch_failed _ _ _ _ _ _ _ _ context t _ Hnote Hb Hk Hfetch).
  eexists. split; [rewrite <- !app_assoc; reflexivity|].
  cbn. destruct Hlvl as [->| ->]; repeat split; reflexivity.
Qed.

(** C4.  Without a configured topic ([SnsArn] unset or empty) the handler
    still returns the 200 result reporting the [M] matches; it makes no
    call to [sns.publish], and each of the [M] attempts is logged as
    skipped. *)
Theorem unset_topic_still_succeeds
        (event bucket key : json) (d : dict) (records : list json)
        (context : string) (t : trace) :
  reads event bucket key d ->
  get_default d "Records" (JArray []) = JArray records ->
  forallb is_object records = true ->
  topic_unset (sns_topic_arn w) = true ->
  let matched := filter event_name_matches records in
  exists out : trace,
    handler event context t =
      (inr (response_processed py_repr key (List.length matched)), (t ++ out)%list)
    /\ statusCode (response_processed py_repr key (List.length matched)) = 200%Z
    /\ sns_calls out = []
    /\ logged CRITICAL out = map (fun _ => skipped_line) matched.
Proof.
  intros Hreads Hrecords Hobj Hunset matched.
  destruct (handler_reads_log _ _ _ py_repr _ _ _ _ _ _ context t Hreads Hrecords Hobj)
    as (out & Hrun & _ & Hsns & Hcrit & _).
  rewrite Hunset in Hsns, Hcrit.
  exists out. repeat split; assumption.
Qed.

(** C5.  When the first record of the notification is a dict whose [s3],
    [s3.bucket] and [s3.object] entries, where present, are dicts, and it
    has no bucket name or no object key, the handler returns the 400 result
    and never calls [s3.get_object]. *)
Theorem missing_bucket_or_key_is_invalid_input
        (event : json) (bucket_name object_key : option json)
        (context : string) (t : trace) :
  notification event bucket_name object_key ->
  bucket_name = None \/ object_key = None ->
  exists out : trace,
    handler event context t = (inr response_invalid, (t ++ out)%list)
    /\ statusCode response_invalid = 400%Z
    /\ s3_calls out = []
    /\ sns_calls out = [].
Proof.
  intros Hnote Hmissing.
  rewrite (handler_invalid _ _ _ py_repr w event bucket_name object_key context t Hnote).
  - eexists. repeat split; reflexivity.
  - destruct Hmissing as [-> | ->]; [left | right]; reflexivity.
Qed.

(** C6.  When the notification has no [Records] entry or an empty one,
    the handler returns the 200 result "No S3 records to process." and
    calls neither [s3.get_object] nor [sns.publish]. *)
Theorem no_records_is_success_without_calls
        (ev : dict) (context : string) (t : trace) :
  dict_get ev "Records" = None \/ dict_get ev "Records" = Some (JArray []) ->
  exists out : trace,
    handler (JObject ev) context t = (inr response_no_records, (t ++ out)%list)
    /\ statusCode response_no_records = 200%Z
    /\ s3_calls out = []
    /\ sns_calls out = [].
Proof.
  intros Hnone.
  rewrite handler_no_records.
  - eexists. repeat split; reflexivity.
  - unfold get_default. destruct Hnone as [-> | ->]; reflexivity.
Qed.

(** C7.  When the stored object is a valid gzip-compressed JSON document
    without a [Records] entry, or with an empty one, the handler returns
    the 200 result reporting zero matches, and no publish is attempted. *)
Theorem missing_or_empty_records_is_success
        (event bucket key : json) (d : dict) (context : string) (t : trace) :
  reads event bucket key d ->
  dict_get d "Records" = None \/ dict_get d "Records" = Some (JArray []) ->
  exists out : trace,
    handler event context t = (inr (response_processed py_repr key 0), (t ++ out)%list)
    /\ statusCode (response_processed py_repr key 0) = 200%Z
    /\ sns_calls out = []
    /\ logged CRITICAL out = [].
Proof.
  intros Hreads Hnone.
  assert (Hrecords : get_default d "Records" (JArray []) = JArray []).
  { unfold get_default. destruct Hnone as [-> | ->]; reflexivity. }
  destruct (handler_reads_log _ _ _ py_repr _ _ _ _ _ _ context t Hreads Hrecords eq_refl)
    as (out & Hrun & _ & Hsns & Hcrit & _).
  exists out. cbn [filter List.length map] in *.
  repeat split; try assumption.
  - destruct (topic_unset _); assumption.
  - destruct (topic_unset _); assumption.
Qed.

(** C8.  With a topic configured, whichever calls to [sns.publish] fail,
    the handler makes the call for every matching record, in order, and
    returns the same 200 result; every failed call is caught and logged
    as one error record. *)
Theorem publish_failures_are_isolated
        (event bucket key : json) (d : dict) (records : list json)
        (context : string) (t : trace) :
  reads event bucket key d ->
  get_default d "Records" (JArray []) = JArray records ->
  forallb is_object records = true ->
  topic_unset (sns_topic_arn w) = false ->
  let matched := filter event_name_matches records in
  exists out : trace,
    handler event context t =
      (inr (response_processed py_repr key (List.length matched)), (t ++ out)%list)
    /\ statusCode (response_processed py_repr key (List.length matched)) = 200%Z
    /\ sns_calls out = map (publish_call py_repr (topic_of w)) matched
    /\ incl (failed_publishes w t out) (sns_calls out)
    /\ List.length (logged ERROR out) = List.length (failed_publishes w t out).
Proof.
  intros Hreads Hrecords Hobj Hset matched.
  destruct (handler_reads_log _ _ _ py_repr _ _ _ _ _ _ context t Hreads Hrecords Hobj)
    as (out & Hrun & _ & Hsns & _ & Herr & _).
  rewrite Hset in Hsns.
  exists out. repeat split; try assumption.
  apply failed_publishes_incl.
Qed.

(** C9.  The code only reads a record: the embedding passes it by value.
    Every message handed to [sns.publish] is the serialization of a matching
    record as it was parsed from the log file, one message per matching
    record and in their order.  That serialization writes out every entry
    of the record, not only [eventName], and it determines the record: no
    other value has the same text. *)
Theorem published_message_preserves_record
        (event bucket key : json) (d : dict) (records : list json)
        (context : string) (t : trace) :
  reads event bucket key d ->
  get_default d "Records" (JArray []) = JArray records ->
  forallb is_object records = true ->
  topic_unset (sns_topic_arn w) = false ->
  let matched := filter event_name_matches records in
  exists out : trace,
    snd (handler event context t) = (t ++ out)%list
    /\ map message_of (sns_calls out) = map json_dumps matched
    /\ (forall record, In record matched ->
        exists fields, record = JObject fields
          /\ forall kv, In kv fields -> occurs_in (dumps_member kv) (json_dumps record))
    /\ (forall record other, In record matched ->
        wf_json record = true -> wf_json other = true ->
        json_dumps other = json_dumps record -> other = record).
Proof.
  intros Hreads Hrecords Hobj Hset matched.
  destruct (handler_reads_log _ _ _ py_repr _ _ _ _ _ _ context t Hreads Hrecords Hobj)
    as (out & Hrun & _ & Hsns & _).
  rewrite Hset in Hsns.
  exists out. split; [now rewrite Hrun|]. split; [|split].
  - rewrite Hsns, map_map. apply map_ext. intros [] ; reflexivity.
  - intros record Hin.
    destruct (filter_objects records Hobj record Hin) as (fields & ->).
    exists fields. split; [reflexivity|].
    intros kv Hkv. now apply json_dumps_keeps_members.
  - intros record other _ Hwf Hwf' Heq. now apply json_dumps_injective.
Qed.

(** C10.  When the first record of the notification is a dict whose [s3],
    [s3.bucket] and [s3.object] entries, where present, are dicts, and its
    bucket name or its object key is the empty string, both variants of the
    handler return the 400 result, the same result as for a missing field,
    and never call [s3.get_object]. *)
Theorem empty_bucket_or_key_is_invalid_input
        (event : json) (bucket_name object_key : option json)
        (context : string) (t : trace) :
  notification event bucket_name object_key ->
  bucket_name = Some (JString "") \/ object_key = Some (JString "") ->
  exists out : trace,
    handler event context t = (inr response_invalid, (t ++ out)%list)
    /\ copy_handler event context t = (inr response_invalid, (t ++ out)%list)
    /\ statusCode response_invalid = 400%Z
    /\ s3_calls out = []
    /\ (forall event' bucket_name' object_key',
        notification event' bucket_name' object_key' ->
        bucket_name' = None \/ object_key' = None ->
        fst (handler event' context t) = fst (handler event context t)).
Proof.
  intros Hnote Hempty.
  assert (Hfalsy : py_bool (or_none bucket_name) = false
                   \/ py_bool (or_none object_key) = false).
  { destruct Hempty as [-> | ->]; [left | right]; reflexivity. }
  rewrite (handler_invalid _ _ _ py_repr w event _ _ context t Hnote Hfalsy).
  rewrite (copy_handler_invalid _ _ _ py_repr w event _ _ context t Hnote Hfalsy).
  eexists. repeat split; try reflexivity.
  intros event' bn' ok' Hnote' Hmissing. cbn [fst].
  rewrite (handler_invalid _ _ _ py_repr w event' bn' ok' context t Hnote').
  - reflexivity.
  - destruct Hmissing as [-> | ->]; [left | right]; reflexivity.
Qed.

End HandlerProperties.

(* ================================================================== *)
(** * The properties on the sample data *)

Lemma sample_notification :
  notification Sample.s3_event (Some Sample.bucket) (Some Sample.key).
Proof. do 6 eexists. repeat split; reflexivity. Defined.

Lemma sample_reads_log (arn : option string) (rs : list json) :
  reads_log Sample.gunzip Sample.decode (Sample.loads (JObject (Sample.log_data rs)))
            (Sample.world_with arn) Sample.s3_event Sample.bucket Sample.key
            (Sample.log_data rs).
Proof.
  split; [exact sample_notification|]. repeat split.
  exists [], [], "". repeat split; reflexivity.
Defined.

(** Counterexample to C1 as stated: a log file with one record and a log
    file with none produce the same result, a body that names the file and
    the number of matches only. *)
Lemma result_does_not_report_records_seen :
  let run rs :=
    fst (lambda_handler Sample.gunzip Sample.decode
           (Sample.loads (JObject (Sample.log_data rs))) Sample.repr
           (Sample.world_with (Some Sample.topic)) Sample.s3_event "" []) in
  run [Sample.get_object_event] =
    inr {| statusCode := 200;
           body := json_dumps
                     (JObject
                        [("message",
                          JString ("Successfully processed CloudTrail log: "
                                   ++ "AWSLogs/123456789012/CloudTrail/log.json.gz"
                                   ++ ". Found 0 matching events."))]) |}
  /\ run [] = run [Sample.get_object_event]
  /\ List.length (@nil json) <> List.length [Sample.get_object_event].
Proof.
  cbv zeta. split; [vm_compute; reflexivity|].
  split; [vm_compute; reflexivity | discriminate].
Qed.

Lemma handler_publishes_matches_in_order_witness :
  exists out : trace,
    lambda_handler Sample.gunzip Sample.decode
      (Sample.loads (JObject (Sample.log_data Sample.records))) Sample.repr
      (Sample.world_with (Some Sample.topic)) Sample.s3_event "" [] =
      (inr (response_processed Sample.repr Sample.key 2), out)
    /\ map message_of (sns_calls out) =
         [json_dumps Sample.stop_logging; json_dumps Sample.console_login]
    /\ In (summary_line Sample.repr Sample.key 3 2) (logged INFO out).
Proof.
  destruct (handler_publishes_matches_in_order
              Sample.gunzip Sample.decode
              (Sample.loads (JObject (Sample.log_data Sample.records))) Sample.repr
              (Sample.world_with (Some Sample.topic))
              Sample.s3_event Sample.bucket Sample.key
              (Sample.log_data Sample.records) Sample.records "" []
              (sample_reads_log _ _) eq_refl eq_refl)
    as (out & Hrun & _ & _ & Hsns & _ & Hsum).
  exists out. split; [exact Hrun|]. split; [|exact Hsum].
  rewrite (Hsns eq_refl). reflexivity.
Defined.

Lemma retrieval_failure_gives_500_without_publish_witness :
  exists out : trace,
    lambda_handler Sample.gunzip Sample.decode
      (Sample.loads (JObject (Sample.log_data Sample.records))) Sample.repr
      Sample.world_s3_down Sample.s3_event "" [] =
      (inr (response_fetch_failed Sample.repr Sample.key), out)
    /\ sns_calls out = [].
Proof.
  destruct (retrieval_failure_gives_500_without_publish
              Sample.gunzip Sample.decode
              (Sample.loads (JObject (Sample.log_data Sample.records))) Sample.repr
              Sample.world_s3_down Sample.s3_event Sample.bucket Sample.key "" []
              sample_notification eq_refl eq_refl
              (or_introl (ex_intro _ _ eq_refl)))
    as (out & Hrun & _ & Hsns & _).
  exists out. split; [exact Hrun | exact Hsns].
Defined.

Lemma unset_topic_still_succeeds_witness :
  exists out : trace,
    lambda_handler Sample.gunzip Sample.decode
      (Sample.loads (JObject (Sample.log_data Sample.records))) Sample.repr
      (Sample.world_with None) Sample.s3_event "" [] =
      (inr (response_processed Sample.repr Sample.key 2), out)
    /\ sns_calls out = []
    /\ logged CRITICAL out = [skipped_line; skipped_line].
Proof.
  destruct (unset_topic_still_succeeds
              Sample.gunzip Sample.decode
              (Sample.loads (JObject (Sample.log_data Sample.records))) Sample.repr
              (Sample.world_with None) Sample.s3_event Sample.bucket Sample.key
              (Sample.log_data Sample.records) Sample.records "" []
              (sample_reads_log _ _) eq_refl eq_refl eq_refl)
    as (out & Hrun & _ & Hsns & Hcrit).
  exists out. split; [exact Hrun|]. split; [exact Hsns | exact Hcrit].
Defined.

Lemma missing_bucket_or_key_is_invalid_input_witness :
  exists out : trace,
    lambda_handler Sample.gunzip Sample.decode
      (Sample.loads (JObject (Sample.log_data Sample.records))) Sample.repr
      (Sample.world_with (Some Sample.topic)) Sample.s3_event_no_key "" [] =
      (inr response_invalid, out)
    /\ s3_calls out = [].
Proof.
  assert (Hnote : notification Sample.s3_event_no_key (Some Sample.bucket) None).
  { do 6 eexists. repeat split; reflexivity. }
  destruct (missing_bucket_or_key_is_invalid_input
              Sample.gunzip Sample.decode
              (Sample.loads (JObject (Sample.log_data Sample.records))) Sample.repr
              (Sample.world_with (Some Sample.topic)) Sample.s3_event_no_key
              (Some Sample.bucket) None "" [] Hnote (or_intror eq_refl))
    as (out & Hrun & _ & Hs3 & _).
  exists out. split; [exact Hrun | exact Hs3].
Defined.

Lemma no_records_is_success_without_calls_witness :
  exists out : trace,
    lambda_handler Sample.gunzip Sample.decode
      (Sample.loads (JObject (Sample.log_data Sample.records))) Sample.repr
      (Sample.world_with (Some Sample.topic)) Sample.s3_event_no_records "" [] =
      (inr response_no_records, out)
    /\ s3_calls out = [] /\ sns_calls out = [].
Proof.
  destruct (no_records_is_success_without_calls
              Sample.gunzip Sample.decode
              (Sample.loads (JObject (Sample.log_data Sample.records))) Sample.repr
              (Sample.world_with (Some Sample.topic))
              [("Records", JArray [])] "" [] (or_intror eq_refl))
    as (out & Hrun & _ & Hs3 & Hsns).
  exists out. split; [exact Hrun|]. split; [exact Hs3 | exact Hsns].
Defined.

Lemma missing_or_empty_records_is_success_witness :
  exists out : trace,
    lambda_handler Sample.gunzip Sample.decode
      (Sample.loads (JObject [("eventVersion", JString "1.0")])) Sample.repr
      (Sample.world_with (Some Sample.topic)) Sample.s3_event "" [] =
      (inr (response_processed Sample.repr Sample.key 0), out)
    /\ sns_calls out = [].
Proof.
  assert (Hreads : reads_log Sample.gunzip Sample.decode
                     (Sample.loads (JObject [("eventVersion", JString "1.0")]))
                     (Sample.world_with (Some Sample.topic))
                     Sample.s3_event Sample.bucket Sample.key
                     [("eventVersion", JString "1.0")]).
  { split; [exact sample_notification|]. repeat split.
    exists [], [], "". repeat split; reflexivity. }
  destruct (missing_or_empty_records_is_success
              Sample.gunzip Sample.decode
              (Sample.loads (JObject [("eventVersion", JString "1.0")])) Sample.repr
              (Sample.world_with (Some Sample.topic))
              Sample.s3_event Sample.bucket Sample.key
              [("eventVersion", JString "1.0")] "" [] Hreads (or_introl eq_refl))
    as (out & Hrun & _ & Hsns & _).
  exists out. split; [exact Hrun | exact Hsns].
Defined.

(** In the sample world the first call to [sns.publish] fails: the second
    matching record is published all the same. *)
Lemma publish_failures_are_isolated_witness :
  exists out : trace,
    lambda_handler Sample.gunzip Sample.decode
      (Sample.loads (JObject (Sample.log_data Sample.records))) Sample.repr
      (Sample.world_with (Some Sample.topic)) Sample.s3_event "" [] =
      (inr (response_processed Sample.repr Sample.key 2), out)
    /\ sns_calls out =
         [publish_call Sample.repr Sample.topic Sample.stop_logging;
          publish_call Sample.repr Sample.topic Sample.console_login]
    /\ failed_publishes (Sample.world_with (Some Sample.topic)) [] out =
         [publish_call Sample.repr Sample.topic Sample.stop_logging].
Proof.
  destruct (publish_failures_are_isolated
              Sample.gunzip Sample.decode
              (Sample.loads (JObject (Sample.log_data Sample.records))) Sample.repr
              (Sample.world_with (Some Sample.topic))
              Sample.s3_event Sample.bucket Sample.key
              (Sample.log_data Sample.records) Sample.records "" []
              (sample_reads_log _ _) eq_refl eq_refl eq_refl)
    as (out & Hrun & _ & Hsns & _ & _).
  exists out. split; [exact Hrun|]. split; [exact Hsns|].
  cbn [Datatypes.app] in Hrun. apply (f_equal snd) in Hrun. cbn [snd] in Hrun.
  rewrite <- Hrun. vm_compute. reflexivity.
Defined.

Lemma published_message_preserves_record_witness :
  exists out : trace,
    snd (lambda_handler Sample.gunzip Sample.decode
           (Sample.loads (JObject (Sample.log_data Sample.records))) Sample.repr
           (Sample.world_with (Some Sample.topic)) Sample.s3_event "" []) = out
    /\ map message_of (sns_calls out) =
         [json_dumps Sample.stop_logging; json_dumps Sample.console_login]
    /\ occurs_in (dumps_member ("sourceIPAddress", JString "198.51.100.7"))
                 (json_dumps Sample.console_login).
Proof.
  destruct (published_message_preserves_record
              Sample.gunzip Sample.decode
              (Sample.loads (JObject (Sample.log_data Sample.records))) Sample.repr
              (Sample.world_with (Some Sample.topic))
              Sample.s3_event Sample.bucket Sample.key
              (Sample.log_data Sample.records) Sample.records "" []
              (sample_reads_log _ _) eq_refl eq_refl eq_refl)
    as (out & Hrun & Hmsg & Hkeep & _).
  exists out. split; [exact Hrun|]. split; [exact Hmsg|].
  destruct (Hkeep Sample.console_login) as (fields & Heq & Hfields).
  { right. left. reflexivity. }
  apply Hfields. injection Heq as <-. right. right. left. reflexivity.
Defined.

Lemma empty_bucket_or_key_is_invalid_input_witness :
  exists out : trace,
    lambda_handler Sample.gunzip Sample.decode
      (Sample.loads (JObject (Sample.log_data Sample.records))) Sample.repr
      (Sample.world_with (Some Sample.topic)) Sample.s3_event_empty_bucket "" [] =
      (inr response_invalid, out)
    /\ Copy.lambda_handler Sample.gunzip Sample.decode
         (Sample.loads (JObject (Sample.log_data Sample.records))) Sample.repr
         (Sample.world_with (Some Sample.topic)) Sample.s3_event_empty_bucket "" [] =
         (inr response_invalid, out)
    /\ s3_calls out = [].
Proof.
  assert (Hnote : notification Sample.s3_event_empty_bucket
                    (Some (JString "")) (Some Sample.key)).
  { do 6 eexists. repeat split; reflexivity. }
  destruct (empty_bucket_or_key_is_invalid_input
              Sample.gunzip Sample.decode
              (Sample.loads (JObject (Sample.log_data Sample.records))) Sample.repr
              (Sample.world_with (Some Sample.topic)) Sample.s3_event_empty_bucket
              (Some (JString "")) (Some Sample.key) "" [] Hnote (or_introl eq_refl))
    as (out & Hrun & Hcopy & _ & Hs3 & _).
  exists out. split; [exact Hrun|]. split; [exact Hcopy | exact Hs3].
Defined.

(** Counterexample to C5 as stated: the first record has an [s3] entry that
    is [null], so it has no bucket name and no object key; the lookup on the
    entry raises, and the handler answers the 500 of its outer handler, not
    the 400, though still without a download. *)
Lemma null_s3_entry_is_answered_500 :
  let first := [("s3", JNull)] in
  let event := JObject [("Records", JArray [JObject first])] in
  let run :=
    lambda_handler Sample.gunzip Sample.decode
      (Sample.loads (JObject (Sample.log_data Sample.records))) Sample.repr
      (Sample.world_with (Some Sample.topic)) event "" [] in
  dict_get first "s3" = Some JNull
  /\ fst run =
       inr {| statusCode := 500;
              body := json_dumps
                        (JObject
                           [("error",
                             JString ("Error processing S3 event: "
                                      ++ "'NoneType' object has no attribute 'get'"))]) |}
  /\ fst run <> inr response_invalid
  /\ s3_calls (snd run) = [].
Proof.
  cbv zeta. split; [reflexivity|]. split; [vm_compute; reflexivity|].
  split; [vm_compute; discriminate | vm_compute; reflexivity].
Qed.

(** Counterexample to C10 as stated: the bucket name of the first record is
    the empty string, but its [object] entry is [null]; the lookup of the
    key raises, and both variants answer the 500 of their outer handler, not
    the 400 of a missing field. *)
Lemma empty_name_beside_null_object_is_answered_500 :
  let bucket := [("name", JString "")] in
  let s3 := [("bucket", JObject bucket); ("object", JNull)] in
  let event := JObject [("Records", JArray [JObject [("s3", JObject s3)]])] in
  let unhandled :=
    {| statusCode := 500;
       body := json_dumps
                 (JObject
                    [("error",
                      JString ("Error processing S3 event: "
                               ++ "'NoneType' object has no attribute 'get'"))]) |} in
  dict_get bucket "name" = Some (JString "")
  /\ fst (lambda_handler Sample.gunzip Sample.decode
            (Sample.loads (JObject (Sample.log_data Sample.records))) Sample.repr
            (Sample.world_with (Some Sample.topic)) event "" []) = inr unhandled
  /\ fst (Copy.lambda_handler Sample.gunzip Sample.decode
            (Sample.loads (JObject (Sample.log_data Sample.records))) Sample.repr
            (Sample.world_with (Some Sample.topic)) event "" []) = inr unhandled
  /\ unhandled <> response_invalid.
Proof.
  cbv zeta. split; [reflexivity|]. split; [vm_compute; reflexivity|].
  split; [vm_compute; reflexivity | vm_compute; discriminate].
Qed.

(** ** Inputs outside the domain of the properties *)

(** An element of [Records] that is not a dict has no [get]: the exception
    reaches the outer handler. *)
Lemma non_dict_record_is_unhandled :
  fst (lambda_handler Sample.gunzip Sample.decode
         (Sample.loads (JObject (Sample.log_data [JInt 5]))) Sample.repr
         (Sample.world_with (Some Sample.topic)) Sample.s3_event "" []) =
  inr {| statusCode := 500;
         body := json_dumps
                   (JObject
                      [("error",
                        JString ("Error processing S3 event: "
                                 ++ "'int' object has no attribute 'get'"))]) |}.
Proof. vm_compute. reflexivity. Qed.

(** A document that is not a dict makes the download fail, at the point
    where the number of its records is formatted. *)
Lemma non_dict_document_is_a_failed_download :
  fst (lambda_handler Sample.gunzip Sample.decode
         (Sample.loads (JArray [])) Sample.repr
         (Sample.world_with (Some Sample.topic)) Sample.s3_event "" []) =
  inr (response_fetch_failed Sample.repr Sample.key).
Proof. vm_compute. reflexivity. Qed.

(** A first record whose [s3] entry is not a dict is not an S3 notification:
    the lookup raises and the result is the 500 of the outer handler. *)
Lemma non_dict_s3_entry_is_unhandled :
  fst (lambda_handler Sample.gunzip Sample.decode
         (Sample.loads (JObject (Sample.log_data Sample.records))) Sample.repr
         (Sample.world_with (Some Sample.topic))
         (JObject [("Records", JArray [JObject [("s3", JNull)]])]) "" []) =
  inr {| statusCode := 500;
         body := json_dumps
                   (JObject
                      [("error",
                        JString ("Error processing S3 event: "
                                 ++ "'NoneType' object has no attribute 'get'"))]) |}.
Proof. vm_compute. reflexivity. Qed.

(* ================================================================== *)
(** * Further properties of the three versions *)

Lemma AttributeError_class (v : json) (a : string) :
  is_JSONDecodeError (AttributeError v a) = false.
Proof. reflexivity. Qed.

Lemma TypeError_class (m : string) : is_JSONDecodeError (TypeError m) = false.
Proof. reflexivity. Qed.

Ltac none_case :=
  do 2 eexists; rewrite <- ?app_assoc;
  split; [reflexivity|]; split; [reflexivity|]; split; [reflexivity|];
  left; split; [reflexivity|]; do 2 eexists; split; [reflexivity|]; auto.

Section FetchProperties.
Variable gzip_decompress : list Byte.byte -> exn + list Byte.byte.
Variable decode_utf8 : list Byte.byte -> exn + string.
Variable json_loads : string -> exn + json.
Variable py_repr : json -> string.
Variable w : world.

#[local] Abbreviation fetch :=
  (fetch_cloudtrail_log gzip_decompress decode_utf8 json_loads py_repr w).

(** X1.  When the object downloads, decompresses, decodes and parses to a
    dict whose [Records] entry (the empty list when absent) has a length,
    [fetch_cloudtrail_log] returns that dict as it is, after one call to
    [s3.get_object] and without a record at level INFO or above. *)
Theorem fetch_returns_document (bucket key : json) (d : dict) (t : trace) :
  payload gzip_decompress decode_utf8 json_loads w bucket key (JObject d) ->
  sized (get_default d "Records" (JArray [])) = true ->
  fetch bucket key t = (inr (JObject d), (t ++ [S3GetObject bucket key])%list).
Proof.
  intros (c & raw & text & H1 & H2 & H3 & H4) Hsized.
  unfold fetch_cloudtrail_log, get_object. run.
  rewrite H1, H2, H3, H4. fold (get_default d "Records" (JArray [])).
  destruct (get_default d "Records" (JArray [])); try discriminate Hsized; reflexivity.
Qed.

(** X2.  When [s3.get_object] raises, [fetch_cloudtrail_log] returns [None]
    and logs the exception as one error record that names the key. *)
Theorem fetch_download_error (bucket key : json) (e : exn) (t : trace) :
  s3_get_object w bucket key = inl e ->
  fetch bucket key t =
  (inr JNull,
   (t ++ [S3GetObject bucket key;
          Log ERROR ("Error fetching CloudTrail log from S3 for '" ++ py_str py_repr key
                     ++ "': " ++ exn_msg e)])%list).
Proof.
  intros H. unfold fetch_cloudtrail_log, get_object. run. rewrite H.
  rewrite <- app_assoc. reflexivity.
Qed.

(** X3.  When [gzip.decompress] or the UTF-8 decoding of its result raises,
    [fetch_cloudtrail_log] returns [None] and logs the exception as one
    warning that names the key. *)
Theorem fetch_decompression_error (bucket key : json) (c : list Byte.byte) (e : exn)
        (t : trace) :
  s3_get_object w bucket key = inr c ->
  gzip_decompress c = inl e
  \/ (exists raw, gzip_decompress c = inr raw /\ decode_utf8 raw = inl e) ->
  fetch bucket key t =
  (inr JNull,
   (t ++ [S3GetObject bucket key;
          Log WARNING ("Error decompressing log file '" ++ py_str py_repr key
                       ++ "': " ++ exn_msg e)])%list).
Proof.
  intros H1 [H2|(raw & H2 & H3)]; unfold fetch_cloudtrail_log, get_object; run;
    rewrite H1, H2; try rewrite H3; rewrite <- app_assoc; reflexivity.
Qed.

(** X4.  When [json.loads] raises, [fetch_cloudtrail_log] returns [None]
    after one error record: "Error decoding JSON" for a [JSONDecodeError],
    and the message of the outer handler, "Error fetching CloudTrail log
    from S3", for any other exception. *)
Theorem fetch_json_error (bucket key : json) (c raw : list Byte.byte) (text : string)
        (e : exn) (t : trace) :
  s3_get_object w bucket key = inr c ->
  gzip_decompress c = inr raw ->
  decode_utf8 raw = inr text ->
  json_loads text = inl e ->
  fetch bucket key t =
  (inr JNull,
   (t ++ [S3GetObject bucket key;
          Log ERROR (if is_JSONDecodeError e
                     then "Error decoding JSON for file '" ++ py_str py_repr key
                          ++ "': " ++ exn_msg e
                     else "Error fetching CloudTrail log from S3 for '"
                          ++ py_str py_repr key ++ "': " ++ exn_msg e)])%list).
Proof.
  intros H1 H2 H3 H4. unfold fetch_cloudtrail_log, get_object. run.
  rewrite H1, H2, H3, H4. destruct (is_JSONDecodeError e); rewrite <- app_assoc; reflexivity.
Qed.

(** X5.  A file that parses to a value that is not a dict, or to a dict
    whose [Records] has no length (a number, a bool, [None]), is not
    returned: the [get] or the [len] of the debug line raises inside the
    [try], and [fetch_cloudtrail_log] returns [None] after the error record
    of a failed download. *)
Theorem fetch_rejects_other_documents (bucket key v : json) (t : trace) :
  payload gzip_decompress decode_utf8 json_loads w bucket key v ->
  (is_object v = false
   \/ exists d, v = JObject d /\ sized (get_default d "Records" (JArray [])) = false) ->
  let e := match v with
           | JObject d =>
               TypeError ("object of type '"
                          ++ py_type_name (get_default d "Records" (JArray []))
                          ++ "' has no len()")
           | _ => AttributeError v "get"
           end in
  fetch bucket key t =
  (inr JNull,
   (t ++ [S3GetObject bucket key;
          Log ERROR ("Error fetching CloudTrail log from S3 for '" ++ py_str py_repr key
                     ++ "': " ++ exn_msg e)])%list).
Proof.
  intros (c & raw & text & H1 & H2 & H3 & H4) Hbad e. subst e.
  unfold fetch_cloudtrail_log, get_object. run. rewrite H1, H2, H3, H4.
  destruct Hbad as [Hno|(d & -> & Hunsized)].
  - destruct v; try discriminate Hno;
      rewrite AttributeError_class, <- app_assoc; reflexivity.
  - fold (get_default d "Records" (JArray [])).
    destruct (get_default d "Records" (JArray [])); try discriminate Hunsized;
      cbn [py_len]; run; rewrite TypeError_class, <- app_assoc; reflexivity.
Qed.

Lemma fetch_outcomes (bucket key : json) (t : trace) :
  exists (v : json) (out : trace),
    fetch bucket key t = (inr v, (t ++ out)%list)
    /\ s3_calls out = [(bucket, key)]
    /\ sns_calls out = []
    /\ ((v = JNull /\ exists lvl msg, out = [S3GetObject bucket key; Log lvl msg]
                                      /\ (lvl = WARNING \/ lvl = ERROR))
        \/ (exists d, v = JObject d
                      /\ sized (get_default d "Records" (JArray [])) = true
                      /\ out = [S3GetObject bucket key])).
Proof.
  unfold fetch_cloudtrail_log, get_object. run.
  destruct (s3_get_object w bucket key) as [e|c]; [none_case|].
  destruct (gzip_decompress c) as [e|raw]; [none_case|].
  destruct (decode_utf8 raw) as [e|text]; [none_case|].
  destruct (json_loads text) as [e|v].
  { destruct (is_JSONDecodeError e); none_case. }
  destruct v; try (rewrite AttributeError_class; none_case).
  fold (get_default d "Records" (JArray [])).
  destruct (get_default d "Records" (JArray [])) eqn:E; cbn [py_len]; run;
    try (rewrite TypeError_class; none_case);
    (do 2 eexists; split; [reflexivity|]; split; [reflexivity|]; split; [reflexivity|];
     right; exists d; rewrite E; repeat split).
Qed.

(** X6.  Whatever is stored, [fetch_cloudtrail_log] returns and does not
    raise: [None] after one warning or error record, or a dict whose
    [Records] has a length, after no record at all; it calls [s3.get_object]
    once and never publishes. *)
Theorem fetch_never_raises (bucket key : json) (t : trace) :
  exists (v : json) (out : trace),
    fetch bucket key t = (inr v, (t ++ out)%list)
    /\ s3_calls out = [(bucket, key)]
    /\ sns_calls out = []
    /\ ((v = JNull /\ exists lvl msg, out = [S3GetObject bucket key; Log lvl msg]
                                      /\ (lvl = WARNING \/ lvl = ERROR))
        \/ (exists d, v = JObject d
                      /\ sized (get_default d "Records" (JArray [])) = true
                      /\ out = [S3GetObject bucket key])).
Proof. exact (fetch_outcomes bucket key t). Qed.

End FetchProperties.

Section LoopTrace.
Variable py_repr : json -> string.
Variable w : world.

Lemma for_each_record_dict (d : dict) (rest : list json) (p m : nat) (t : trace) :
  for_each_record py_repr w (JObject d :: rest) p m t =
  for_each_record py_repr w rest (p + 1)
    (if event_name_matches (JObject d) then m + 1 else m)
    (t ++ record_trace py_repr w d t)%list.
Proof.
  cbn [for_each_record]. unfold bind at 1. rewrite process_cloudtrail_event_object.
  unfold record_trace.
  destruct (event_name_matches (JObject d)); [|now rewrite app_nil_r].
  run. unfold bind. fold (get_default d "eventName" JNull).
  fold (get_default d "eventID" (JString "N/A")).
  destruct (topic_unset (sns_topic_arn w)) eqn:Htopic.
  - rewrite send_to_sns_unset by assumption. rewrite <- !app_assoc. reflexivity.
  - rewrite send_to_sns_set by assumption. rewrite <- !app_assoc. reflexivity.
Qed.

Lemma for_each_record_not_dict (bad : json) (rest : list json) (p m : nat) (t : trace) :
  is_object bad = false ->
  for_each_record py_repr w (bad :: rest) p m t = (inl (AttributeError bad "get"), t).
Proof.
  intros H. cbn [for_each_record]. unfold bind at 1.
  now rewrite process_cloudtrail_event_not_object.
Qed.

(** The loop goes through the leading dicts and carries on with the rest. *)
Lemma for_each_record_leading_dicts (objs tail : list json) :
  forallb is_object objs = true ->
  forall (p m : nat) (t : trace),
    for_each_record py_repr w (objs ++ tail) p m t =
    for_each_record py_repr w tail (p + List.length objs)
      (m + List.length (filter event_name_matches objs))
      (t ++ records_trace py_repr w objs t)%list.
Proof.
  induction objs as [|r objs IH]; intros Hobj p m t.
  - cbn. now rewrite app_nil_r, !Nat.add_0_r.
  - cbn [forallb] in Hobj. apply andb_prop in Hobj as [Hr Hobj].
    destruct r as [| | | | | |d]; try discriminate Hr.
    change ((JObject d :: objs) ++ tail)%list with (JObject d :: (objs ++ tail))%list.
    rewrite for_each_record_dict, (IH Hobj).
    cbn [records_trace filter List.length]. rewrite <- app_assoc.
    replace (p + 1 + List.length objs) with (p + S (List.length objs)) by lia.
    destruct (event_name_matches (JObject d)); cbn [List.length]; [|reflexivity].
    replace (m + 1 + List.length (filter event_name_matches objs))
      with (m + S (List.length (filter event_name_matches objs))) by lia.
    reflexivity.
Qed.

Lemma records_trace_calls (objs : list json) :
  forallb is_object objs = true ->
  forall t : trace,
    s3_calls (records_trace py_repr w objs t) = []
    /\ sns_calls (records_trace py_repr w objs t) =
         (if topic_unset (sns_topic_arn w) then []
          else map (publish_call py_repr (topic_of w)) (filter event_name_matches objs))
    /\ logged CRITICAL (records_trace py_repr w objs t) =
         (if topic_unset (sns_topic_arn w)
          then map (fun _ => skipped_line) (filter event_name_matches objs)
          else []).
Proof.
  induction objs as [|r objs IH]; intros Hobj t.
  - cbn. destruct (topic_unset _); auto.
  - cbn [forallb] in Hobj. apply andb_prop in Hobj as [Hr Hobj].
    destruct r as [| | | | | |d]; try discriminate Hr.
    cbn [records_trace filter].
    destruct (IH Hobj (t ++ record_trace py_repr w d t)%list) as (H1 & H2 & H3).
    rewrite s3_calls_app, sns_calls_app, logged_app, H1, H2, H3.
    unfold record_trace.
    destruct (event_name_matches (JObject d)); [|destruct (topic_unset _); auto].
    destruct (topic_unset (sns_topic_arn w)); [repeat split; reflexivity|].
    destruct (sns_publish w _ _ _ _); repeat split; reflexivity.
Qed.

End LoopTrace.

Section LoopProperties.
Variable py_repr : json -> string.
Variable w : world.

Theorem for_each_record_runs (records : list json) (p m : nat) (t : trace) :
  for_each_record py_repr w records p m t =
  (loop_result records p m, (t ++ records_trace py_repr w records t)%list).
Proof.
  revert p m t. induction records as [|r records IH]; intros p m t.
  - cbn. unfold loop_result. cbn. now rewrite app_nil_r, !Nat.add_0_r.
  - destruct r as [| | | | | |d];
      try (rewrite for_each_record_not_dict by reflexivity; cbn;
           now rewrite app_nil_r).
    rewrite for_each_record_dict, IH. cbn [records_trace]. rewrite <- app_assoc.
    f_equal. unfold loop_result. cbn [first_non_dict filter List.length].
    destruct (first_non_dict records); [reflexivity|].
    replace (p + 1 + List.length records) with (p + S (List.length records)) by lia.
    destruct (event_name_matches (JObject d)); cbn [List.length]; [|reflexivity].
    replace (m + 1 + List.length (filter event_name_matches records))
      with (m + S (List.length (filter event_name_matches records))) by lia.
    reflexivity.
Qed.

Theorem records_trace_publishes_leading_matches (records : list json) (t : trace) :
  s3_calls (records_trace py_repr w records t) = []
  /\ sns_calls (records_trace py_repr w records t) =
       (if topic_unset (sns_topic_arn w) then []
        else map (publish_call py_repr (topic_of w))
                 (filter event_name_matches (leading_dicts records)))
  /\ logged CRITICAL (records_trace py_repr w records t) =
       (if topic_unset (sns_topic_arn w)
        then map (fun _ => skipped_line) (filter event_name_matches (leading_dicts records))
        else []).
Proof.
  revert t. induction records as [|r records IH]; intros t.
  - cbn. destruct (topic_unset _); auto.
  - destruct r as [| | | | | |d]; try (cbn; destruct (topic_unset _); auto; fail).
    cbn [records_trace leading_dicts filter].
    destruct (IH (t ++ record_trace py_repr w d t)%list) as (H1 & H2 & H3).
    rewrite s3_calls_app, sns_calls_app, logged_app, H1, H2, H3.
    unfold record_trace.
    destruct (event_name_matches (JObject d)); [|destruct (topic_unset _); auto].
    destruct (topic_unset (sns_topic_arn w)); [repeat split; reflexivity|].
    destruct (sns_publish w _ _ _ _); repeat split; reflexivity.
Qed.

Lemma send_to_sns_outcome (record : json) (t : trace) :
  exists out : trace,
    send_to_sns py_repr w record t = (inr tt, (t ++ out)%list)
    /\ s3_calls out = []
    /\ sns_calls out =
         (if topic_unset (sns_topic_arn w) || negb (is_object record) then []
          else [publish_call py_repr (topic_of w) record]).
Proof.
  destruct (topic_unset (sns_topic_arn w)) eqn:Htopic.
  - rewrite send_to_sns_unset by assumption. eexists. repeat split.
  - destruct record as [| | | | | |d];
      try (unfold send_to_sns; rewrite Htopic; run; eexists; repeat split; fail).
    rewrite send_to_sns_set by assumption. eexists. split; [reflexivity|].
    destruct (sns_publish w t _ _ _); repeat split.
Qed.

(** X7.  [send_to_sns] never raises and calls [sns.publish] at most once:
    not at all without a topic, nor for a value that is not a dict, whose
    [get] fails before the call. *)
Theorem send_to_sns_never_raises (record : json) (t : trace) :
  exists out : trace,
    send_to_sns py_repr w record t = (inr tt, (t ++ out)%list)
    /\ s3_calls out = []
    /\ sns_calls out =
         (if topic_unset (sns_topic_arn w) || negb (is_object record) then []
          else [publish_call py_repr (topic_of w) record]).
Proof. exact (send_to_sns_outcome record t). Qed.

End LoopProperties.

Section AnyRecords.
Variable gzip_decompress : list Byte.byte -> exn + list Byte.byte.
Variable decode_utf8 : list Byte.byte -> exn + string.
Variable json_loads : string -> exn + json.
Variable py_repr : json -> string.
Variable w : world.

#[local] Abbreviation fetch :=
  (fetch_cloudtrail_log gzip_decompress decode_utf8 json_loads py_repr w).
#[local] Abbreviation handler :=
  (lambda_handler gzip_decompress decode_utf8 json_loads py_repr w).

(** X8.  The handler on a log file whose [Records] is any list: the records
    are handled in order up to the first that is not a dict.  Without such a
    record the result is the 200 reporting the matches; with one, the
    invocation ends in the 500 of the outer handler, the matches before it
    having been published already and the records after it never looked
    at. *)
Theorem handler_stops_at_first_non_dict
        (event bucket key : json) (d : dict) (records : list json)
        (context : string) (t : trace) :
  reads_log gzip_decompress decode_utf8 json_loads w event bucket key d ->
  get_default d "Records" (JArray []) = JArray records ->
  exists out : trace,
    handler event context t =
      (inr match first_non_dict records with
           | None => response_processed py_repr key
                       (List.length (filter event_name_matches records))
           | Some bad => response_unhandled (AttributeError bad "get")
           end, (t ++ out)%list)
    /\ s3_calls out = [(bucket, key)]
    /\ sns_calls out =
         (if topic_unset (sns_topic_arn w) then []
          else map (publish_call py_repr (topic_of w))
                   (filter event_name_matches (leading_dicts records))).
Proof.
  intros ((ev & first & rest & s3 & b & o & -> & Hrec & Hs3 & Hb & Ho & Hbn & Hok)
          & Hbt & Hkt & Hpay) Hrecords.
  pose proof (fetch_object gzip_decompress decode_utf8 json_loads py_repr w
                bucket key d records
                (t ++ [Log INFO (invoked_line py_repr (JObject ev));
                       Log INFO (processing_line py_repr bucket key)])%list
                Hpay Hrecords) as Hfetch.
  unfold lambda_handler. run. rewrite Hrec. cbn [py_bool negb py_getitem0].
  run. rewrite (child_get _ _ _ Hs3), (child_get _ _ _ Hb), (child_get _ _ _ Ho).
  rewrite Hbn, Hok, Hbt, Hkt. cbn [negb orb].
  unfold invoked_line, processing_line in Hfetch. rewrite <- app_assoc.
  change ([?x] ++ ?l)%list with (x :: l).
  rewrite Hfetch. fold (get_default d "Records" (JArray [])). rewrite Hrecords.
  cbn [py_iter]. run. rewrite for_each_record_runs. unfold loop_result.
  fold (invoked_line py_repr (JObject ev)) (processing_line py_repr bucket key).
  match goal with
  | |- context [records_trace _ _ _ ?T] =>
      destruct (records_trace_publishes_leading_matches py_repr w records T)
        as (H1 & H2 & _);
      set (R := records_trace py_repr w records T) in *; clearbody R
  end.
  destruct (first_non_dict records) as [bad|];
    (eexists; split; [rewrite <- !app_assoc; reflexivity|]);
    rewrite !s3_calls_app, !sns_calls_app, H1, H2; cbn; rewrite ?app_nil_r;
    split; reflexivity.
Qed.

(** X9.  An event that is not a dict has no [get]: the handler answers 500
    after one critical record, without calling AWS. *)
Theorem handler_rejects_non_dict_event (event : json) (context : string) (t : trace) :
  is_object event = false ->
  handler event context t =
  (inr (response_unhandled (AttributeError event "get")),
   (t ++ [Log INFO (invoked_line py_repr event);
          Log CRITICAL ("An unhandled exception occurred during processing: "
                        ++ exn_msg (AttributeError event "get"))])%list).
Proof.
  intros H. destruct event; try discriminate H;
    unfold lambda_handler; run; rewrite <- app_assoc; reflexivity.
Qed.

End AnyRecords.

Lemma py_get_cases (v : json) (k : string) (default : json) (t : trace) :
  (exists x, py_get v k default t = (inr x, t))
  \/ py_get v k default t = (inl (AttributeError v "get"), t).
Proof. destruct v; try (right; reflexivity); left; eexists; reflexivity. Qed.

Lemma py_getitem0_cases (v : json) (t : trace) :
  (exists x, py_getitem0 v t = (inr x, t)) \/ (exists e, py_getitem0 v t = (inl e, t)).
Proof.
  destruct v as [| | | |s|l|d]; try (right; eexists; reflexivity).
  - destruct s; [right | left]; eexists; reflexivity.
  - destruct l; [right | left]; eexists; reflexivity.
Qed.

Lemma py_iter_sized (v : json) (t : trace) :
  sized v = true -> exists items, py_iter v t = (inr items, t).
Proof. destruct v; intros H; try discriminate H; eexists; reflexivity. Qed.

Section Safety.
Variable gzip_decompress : list Byte.byte -> exn + list Byte.byte.
Variable decode_utf8 : list Byte.byte -> exn + string.
Variable json_loads : string -> exn + json.
Variable py_repr : json -> string.
Variable w : world.

#[local] Abbreviation fetch :=
  (fetch_cloudtrail_log gzip_decompress decode_utf8 json_loads py_repr w).
#[local] Abbreviation handler :=
  (lambda_handler gzip_decompress decode_utf8 json_loads py_repr w).

Ltac answered :=
  do 2 eexists; rewrite <- ?app_assoc; split; [reflexivity|];
  split; [cbn; auto|]; split; [left; split; reflexivity|]; intros; reflexivity.

(** X10.  Whatever the event and whatever is stored, the handler returns a
    result with status 200, 400 or 500 and never raises.  It downloads at
    most one object, and only with a truthy bucket and key; it publishes
    only after that download; a 400 is answered without a download. *)
Theorem handler_always_answers (event : json) (context : string) (t : trace) :
  exists (r : response) (out : trace),
    handler event context t = (inr r, (t ++ out)%list)
    /\ In (statusCode r) [200; 400; 500]%Z
    /\ calls_in_order out
    /\ (statusCode r = 400%Z -> s3_calls out = []).
Proof.
  unfold lambda_handler.
  cbv [bind ret raise try_except logger_info logger_debug logger_warning logger_error
       logger_critical emit].
  set (t0 := (t ++ [Log INFO ("Lambda function invoked with event: "
                              ++ py_str py_repr event)])%list).
  destruct (py_get_cases event "Records" (JArray []) t0) as [(records & ->)| ->];
    [|subst t0; answered].
  destruct (py_bool records); cbn [negb]; [|subst t0; answered].
  destruct (py_getitem0_cases records t0) as [(first & ->)|(e & ->)];
    [|subst t0; answered].
  destruct (py_get_cases first "s3" (JObject []) t0) as [(s3_info & ->)| ->];
    [|subst t0; answered].
  destruct (py_get_cases s3_info "bucket" (JObject []) t0) as [(bucket_info & ->)| ->];
    [|subst t0; answered].
  destruct (py_get_cases s3_info "object" (JObject []) t0) as [(object_info & ->)| ->];
    [|subst t0; answered].
  destruct (py_get_cases bucket_info "name" JNull t0) as [(bucket & ->)| ->];
    [|subst t0; answered].
  destruct (py_get_cases object_info "key" JNull t0) as [(key & ->)| ->];
    [|subst t0; answered].
  destruct (py_bool bucket) eqn:Hb; cbn [negb orb]; [|subst t0; answered].
  destruct (py_bool key) eqn:Hk; cbn [negb orb]; [|subst t0; answered].
  match goal with
  | |- context [fetch bucket key ?T] =>
      destruct (fetch_outcomes gzip_decompress decode_utf8 json_loads py_repr w
                  bucket key T)
        as (v & fout & -> & Hs3 & Hsns & Hv)
  end.
  assert (Hcalls : forall (afterwards : trace),
             s3_calls afterwards = [] ->
             calls_in_order
               ([Log INFO ("Lambda function invoked with event: " ++ py_str py_repr event);
                 Log INFO ("Processing CloudTrail log file: '" ++ py_str py_repr key
                           ++ "' from bucket: '" ++ py_str py_repr bucket ++ "'")]
                  ++ S3GetObject bucket key :: afterwards)%list).
  { intros afterwards Hafter. right. do 4 eexists. split; [reflexivity|].
    repeat split; assumption. }
  destruct Hv as [(-> & lvl & msg & -> & _)|(d & -> & Hsized & ->)].
  - do 2 eexists. subst t0. rewrite <- !app_assoc.
    split; [reflexivity|]. split; [cbn; auto|]. split.
    + apply (Hcalls [_; _]). reflexivity.
    + discriminate.
  - cbn [py_get]. fold (get_default d "Records" (JArray [])). cbv beta iota delta [ret].
    match goal with
    | |- context [py_iter _ ?T] =>
        destruct (py_iter_sized _ T Hsized) as (items & ->)
    end.
    rewrite for_each_record_runs.
    match goal with
    | |- context [records_trace _ _ _ ?T] =>
        destruct (records_trace_publishes_leading_matches py_repr w items T)
          as (H1 & _);
        set (R := records_trace py_repr w items T) in *; clearbody R
    end.
    destruct (loop_result items 0 0) as [e|counts];
      do 2 eexists; subst t0; rewrite <- !app_assoc;
      (split; [reflexivity|]); (split; [cbn; auto|]);
      (split; [apply (Hcalls (R ++ [_])%list); rewrite s3_calls_app, H1; reflexivity
              | discriminate]).
Qed.

End Safety.

Ltac unhandled :=
  eexists; (split; [|cbv zeta; rewrite <- ?app_assoc; split; reflexivity]); reflexivity.

Section EdgeInputs.
Variable gzip_decompress : list Byte.byte -> exn + list Byte.byte.
Variable decode_utf8 : list Byte.byte -> exn + string.
Variable json_loads : string -> exn + json.
Variable py_repr : json -> string.
Variable w : world.

#[local] Abbreviation handler :=
  (lambda_handler gzip_decompress decode_utf8 json_loads py_repr w).
#[local] Abbreviation copy_handler :=
  (Copy.lambda_handler gzip_decompress decode_utf8 json_loads py_repr w).

(** X11.  Any falsy [Records] ([None], [0], [False], an empty str, list or
    dict) counts as no records: both variants answer the 200 "No S3 records
    to process." after one warning, without calling AWS. *)
Theorem falsy_records_is_nothing_to_process (ev : dict) (context : string) (t : trace) :
  py_bool (get_default ev "Records" (JArray [])) = false ->
  let out := [Log INFO (invoked_line py_repr (JObject ev));
              Log WARNING "No S3 records found in the event."] in
  handler (JObject ev) context t = (inr response_no_records, (t ++ out)%list)
  /\ copy_handler (JObject ev) context t = (inr response_no_records, (t ++ out)%list).
Proof.
  intros H out. split.
  - now apply handler_no_records.
  - unfold Copy.lambda_handler. run.
    fold (get_default ev "Records" (JArray [])). rewrite H. cbn [negb].
    rewrite <- app_assoc. reflexivity.
Qed.

(** X12.  Any falsy bucket name or object key ([None], [0], [False], an
    empty str, list or dict) is refused like a missing one: both variants
    answer 400 after one error record, without calling AWS. *)
Theorem falsy_bucket_or_key_is_invalid_input
        (event : json) (bucket_name object_key : option json)
        (context : string) (t : trace) :
  notification event bucket_name object_key ->
  py_bool (or_none bucket_name) = false \/ py_bool (or_none object_key) = false ->
  let out := [Log INFO (invoked_line py_repr event);
              Log ERROR ("Could not extract bucket name or key from the S3 event: "
                         ++ py_str py_repr event)] in
  handler event context t = (inr response_invalid, (t ++ out)%list)
  /\ copy_handler event context t = (inr response_invalid, (t ++ out)%list).
Proof.
  intros Hnote Hfalsy out. split.
  - now apply (handler_invalid _ _ _ py_repr w event bucket_name object_key).
  - now apply (copy_handler_invalid _ _ _ py_repr w event bucket_name object_key).
Qed.

(** X13.  A first record whose [s3], [s3.bucket] or [s3.object] entry is
    present but is not a dict is not refused with 400: the lookup on it
    raises, and both variants answer the 500 of the outer handler, without
    calling AWS. *)
Theorem non_dict_entry_is_unhandled
        (ev first : dict) (rest : list json) (context : string) (t : trace) :
  dict_get ev "Records" = Some (JArray (JObject first :: rest)) ->
  child first "s3" = None
  \/ (exists s3, child first "s3" = Some s3
                 /\ (child s3 "bucket" = None \/ child s3 "object" = None)) ->
  exists v : json,
    is_object v = false
    /\ let out := [Log INFO (invoked_line py_repr (JObject ev));
                   Log CRITICAL ("An unhandled exception occurred during processing: "
                                 ++ exn_msg (AttributeError v "get"))] in
       handler (JObject ev) context t =
         (inr (response_unhandled (AttributeError v "get")), (t ++ out)%list)
       /\ copy_handler (JObject ev) context t =
            (inr (response_unhandled (AttributeError v "get")), (t ++ out)%list).
Proof.
  intros Hrec Hbad.
  unfold lambda_handler, Copy.lambda_handler. run. rewrite Hrec.
  cbn [py_bool negb py_getitem0]. run. unfold child in Hbad.
  destruct Hbad as [Hs3|(s3 & Hs3 & Hbo)].
  - destruct (dict_get first "s3") as [[]|]; try discriminate Hs3; unhandled.
  - destruct (dict_get first "s3") as [[]|]; try discriminate Hs3;
      injection Hs3 as <-; [|destruct Hbo as [Hbo|Hbo]; discriminate Hbo].
    destruct Hbo as [Hb|Ho].
    + destruct (dict_get d "bucket") as [[]|]; try discriminate Hb; unhandled.
    + destruct (dict_get d "object") as [[]|]; try discriminate Ho;
        destruct (dict_get d "bucket") as [[]|]; unhandled.
Qed.

End EdgeInputs.

Section CopyParts.
Variable gzip_decompress : list Byte.byte -> exn + list Byte.byte.
Variable decode_utf8 : list Byte.byte -> exn + string.
Variable json_loads : string -> exn + json.
Variable py_repr : json -> string.
Variable w : world.

Lemma fetch_s3_cases (bucket key : json) (t : trace) :
  Copy.fetch_s3 gzip_decompress py_repr w bucket key t =
  match s3_get_object w bucket key with
  | inl e =>
      (inr None,
       (t ++ [S3GetObject bucket key;
              Log ERROR ("Error fetching file from S3 for '" ++ py_str py_repr key
                         ++ "': " ++ exn_msg e)])%list)
  | inr c =>
      match gzip_decompress c with
      | inl e =>
          (inr None,
           (t ++ [S3GetObject bucket key;
                  Log WARNING ("Error decompressing file '" ++ py_str py_repr key
                               ++ "': " ++ exn_msg e)])%list)
      | inr raw => (inr (Some raw), (t ++ [S3GetObject bucket key])%list)
      end
  end.
Proof.
  unfold Copy.fetch_s3, get_object. run.
  destruct (s3_get_object w bucket key) as [e|c]; [now rewrite <- app_assoc|].
  destruct (gzip_decompress c) as [e|raw]; [now rewrite <- app_assoc|reflexivity].
Qed.

(** X14.  [fetch_s3] never raises: it returns the decompressed bytes, as
    they are, when the download and the decompression succeed, and [None]
    after one error record (download) or one warning (decompression)
    otherwise.  It calls [s3.get_object] once. *)
Theorem fetch_s3_result (bucket key : json) (t : trace) :
  Copy.fetch_s3 gzip_decompress py_repr w bucket key t =
  match s3_get_object w bucket key with
  | inl e =>
      (inr None,
       (t ++ [S3GetObject bucket key;
              Log ERROR ("Error fetching file from S3 for '" ++ py_str py_repr key
                         ++ "': " ++ exn_msg e)])%list)
  | inr c =>
      match gzip_decompress c with
      | inl e =>
          (inr None,
           (t ++ [S3GetObject bucket key;
                  Log WARNING ("Error decompressing file '" ++ py_str py_repr key
                               ++ "': " ++ exn_msg e)])%list)
      | inr raw => (inr (Some raw), (t ++ [S3GetObject bucket key])%list)
      end
  end.
Proof. exact (fetch_s3_cases bucket key t). Qed.

Lemma matching_rule_not_dict (record : json) (t : trace) :
  is_object record = false ->
  Copy.matching_rule py_repr record t = (inl (AttributeError record "get"), t).
Proof. destruct record; intros H; try discriminate H; reflexivity. Qed.

(** The filter of the restructured variant: it keeps the matching records in
    order, and raises at the first record that is not a dict. *)
Theorem collect_matching_runs (records acc : list json) (t : trace) :
  Copy.collect_matching py_repr records acc t =
  (match first_non_dict records with
   | None => inr (acc ++ filter event_name_matches records)%list
   | Some bad => inl (AttributeError bad "get")
   end, (t ++ matching_trace py_repr records)%list).
Proof.
  revert acc t. induction records as [|r records IH]; intros acc t.
  - cbn. unfold matching_trace. cbn. now rewrite !app_nil_r.
  - destruct r as [| | | | | |d];
      try (cbn [Copy.collect_matching]; unfold bind;
           rewrite matching_rule_not_dict by reflexivity;
           unfold matching_trace; cbn; now rewrite app_nil_r).
    cbn [Copy.collect_matching]. unfold bind at 1.
    rewrite matching_rule_object, process_cloudtrail_event_object.
    unfold matching_trace. cbn [leading_dicts flat_map first_non_dict filter].
    fold (matching_trace py_repr records).
    destruct (event_name_matches (JObject d)); rewrite IH, <- !app_assoc; cbn [Datatypes.app];
      destruct (first_non_dict records); reflexivity.
Qed.

End CopyParts.

Lemma matching_trace_calls (py_repr : json -> string) (records : list json) :
  s3_calls (matching_trace py_repr records) = []
  /\ sns_calls (matching_trace py_repr records) = [].
Proof.
  unfold matching_trace.
  induction (leading_dicts records) as [|r l [IH1 IH2]]; [split; reflexivity|].
  cbn [flat_map]. rewrite s3_calls_app, sns_calls_app, IH1, IH2.
  destruct r; try (split; reflexivity).
  destruct (event_name_matches (JObject d)); split; reflexivity.
Qed.

Lemma filter_matches_all (records : list json) :
  forallb event_name_matches (filter event_name_matches records) = true.
Proof. apply forallb_forall. intros r Hin. now apply filter_In in Hin. Qed.

Lemma py_len_cases (v : json) (t : trace) :
  (exists n, py_len v t = (inr n, t))
  \/ (exists e, py_len v t = (inl e, t) /\ is_JSONDecodeError e = false).
Proof.
  destruct v; try (right; eexists; split; reflexivity); left; eexists; reflexivity.
Qed.

Lemma py_iter_cases (v : json) (t : trace) :
  (exists items, py_iter v t = (inr items, t))
  \/ (exists e, py_iter v t = (inl e, t) /\ is_JSONDecodeError e = false).
Proof.
  destruct v; try (right; eexists; split; reflexivity); left; eexists; reflexivity.
Qed.

Section CopyProcessing.
Variable gzip_decompress : list Byte.byte -> exn + list Byte.byte.
Variable decode_utf8 : list Byte.byte -> exn + string.
Variable json_loads : string -> exn + json.
Variable py_repr : json -> string.
Variable w : world.

#[local] Abbreviation process := (Copy.process_s3_records decode_utf8 json_loads py_repr).

Lemma process_s3_records_on_list
        (content : list Byte.byte) (text : string) (d : dict) (records : list json)
        (t : trace) :
  content <> [] ->
  decode_utf8 content = inr text ->
  json_loads text = inr (JObject d) ->
  get_default d "Records" (JArray []) = JArray records ->
  process content t =
  match first_non_dict records with
  | None => (inr (filter event_name_matches records),
             (t ++ matching_trace py_repr records)%list)
  | Some bad =>
      (inr [],
       (t ++ matching_trace py_repr records
          ++ [Log ERROR ("An unexpected error occurred during processing S3 records: "
                         ++ exn_msg (AttributeError bad "get"))])%list)
  end.
Proof.
  intros Hne Hdec Hloads Hrecords.
  unfold Copy.process_s3_records. destruct content as [|b content]; [congruence|].
  run. rewrite Hdec, Hloads. fold (get_default d "Records" (JArray [])). rewrite Hrecords.
  cbn [py_len py_iter]. run. rewrite collect_matching_runs.
  destruct (first_non_dict records); [|reflexivity].
  rewrite AttributeError_class, <- app_assoc. reflexivity.
Qed.

(** X15.  On a document whose [Records] is a list, [process_s3_records]
    returns the matching records in order; but if any record is not a dict,
    the exception it raises is swallowed and the result is the empty list,
    the matches before it included. *)
Theorem process_s3_records_result
        (content : list Byte.byte) (text : string) (d : dict) (records : list json)
        (t : trace) :
  content <> [] ->
  decode_utf8 content = inr text ->
  json_loads text = inr (JObject d) ->
  get_default d "Records" (JArray []) = JArray records ->
  process content t =
  match first_non_dict records with
  | None => (inr (filter event_name_matches records),
             (t ++ matching_trace py_repr records)%list)
  | Some bad =>
      (inr [],
       (t ++ matching_trace py_repr records
          ++ [Log ERROR ("An unexpected error occurred during processing S3 records: "
                         ++ exn_msg (AttributeError bad "get"))])%list)
  end.
Proof. exact (process_s3_records_on_list content text d records t). Qed.

Lemma process_s3_records_outcome (content : list Byte.byte) (t : trace) :
  exists (matching : list json) (out : trace),
    process content t = (inr matching, (t ++ out)%list)
    /\ s3_calls out = [] /\ sns_calls out = []
    /\ forallb event_name_matches matching = true.
Proof.
  unfold Copy.process_s3_records. destruct content as [|b content].
  { run. do 2 eexists. repeat split. }
  cbv [bind ret raise try_except try_except_class lift emit
       logger_debug logger_info logger_warning logger_error logger_critical].
  destruct (decode_utf8 (b :: content)) as [e|text].
  { destruct (is_JSONDecodeError e); do 2 eexists; repeat split. }
  destruct (json_loads text) as [e|v].
  { destruct (is_JSONDecodeError e); do 2 eexists; repeat split. }
  destruct (py_get_cases v "Records" (JArray []) t) as [(records & ->)| ->].
  2: { rewrite AttributeError_class. do 2 eexists. repeat split. }
  destruct (py_len_cases records t) as [(n & ->)|(e & -> & ->)].
  2: { do 2 eexists. repeat split. }
  destruct (py_iter_cases records t) as [(items & ->)|(e & -> & ->)].
  2: { do 2 eexists. repeat split. }
  rewrite collect_matching_runs.
  destruct (matching_trace_calls py_repr items) as [H1 H2].
  destruct (first_non_dict items) as [bad|].
  - rewrite AttributeError_class. do 2 eexists. rewrite <- app_assoc.
    split; [reflexivity|]. rewrite s3_calls_app, sns_calls_app, H1, H2. repeat split.
  - do 2 eexists. split; [reflexivity|]. rewrite H1, H2. repeat split.
    apply filter_matches_all.
Qed.

(** X16.  [process_s3_records] never raises and never calls AWS; what it
    returns are records that match. *)
Theorem process_s3_records_never_raises (content : list Byte.byte) (t : trace) :
  exists (matching : list json) (out : trace),
    process content t = (inr matching, (t ++ out)%list)
    /\ s3_calls out = [] /\ sns_calls out = []
    /\ forallb event_name_matches matching = true.
Proof. exact (process_s3_records_outcome content t). Qed.

Lemma matches_is_object (r : json) : event_name_matches r = true -> is_object r = true.
Proof. destruct r; intros H; try discriminate H; reflexivity. Qed.

(** The publishing loop of the restructured variant, on records that match:
    one attempt per record, in order, and no exception. *)
Theorem send_each_runs (records : list json) :
  forallb event_name_matches records = true ->
  forall t : trace,
  exists out : trace,
    Copy.send_each py_repr w records t = (inr tt, (t ++ out)%list)
    /\ s3_calls out = []
    /\ sns_calls out =
         (if topic_unset (sns_topic_arn w) then []
          else map (publish_call py_repr (topic_of w)) records).
Proof.
  induction records as [|r records IH]; intros Hall t.
  - exists []. cbn. rewrite app_nil_r. destruct (topic_unset _); repeat split.
  - cbn [forallb] in Hall. apply andb_prop in Hall as [Hr Hall].
    pose proof (matches_is_object r Hr) as Hobj.
    destruct r as [| | | | | |d]; try discriminate Hobj.
    cbn [Copy.send_each]. run. unfold bind.
    change (Copy.send_sns py_repr w) with (send_to_sns py_repr w).
    match goal with
    | |- context [send_to_sns _ _ _ ?T] =>
        destruct (send_to_sns_outcome py_repr w (JObject d) T)
          as (o1 & -> & Hs1 & Hn1)
    end.
    match goal with
    | |- context [Copy.send_each _ _ _ ?T] =>
        destruct (IH Hall T) as (o2 & -> & Hs2 & Hn2)
    end.
    eexists. split; [rewrite <- !app_assoc; reflexivity|].
    rewrite !s3_calls_app, !sns_calls_app, Hs1, Hs2, Hn1, Hn2.
    cbn [is_object negb orb]. rewrite orb_false_r.
    destruct (topic_unset (sns_topic_arn w)); split; reflexivity.
Qed.

End CopyProcessing.

Section CopyHandler.
Variable gzip_decompress : list Byte.byte -> exn + list Byte.byte.
Variable decode_utf8 : list Byte.byte -> exn + string.
Variable json_loads : string -> exn + json.
Variable py_repr : json -> string.
Variable w : world.

#[local] Abbreviation process := (Copy.process_s3_records decode_utf8 json_loads py_repr).
#[local] Abbreviation handler :=
  (lambda_handler gzip_decompress decode_utf8 json_loads py_repr w).
#[local] Abbreviation copy_handler :=
  (Copy.lambda_handler gzip_decompress decode_utf8 json_loads py_repr w).

Lemma copy_handler_downloaded
      (event bucket key : json) (c raw : list Byte.byte) (matching : list json)
      (pout : trace) (context : string) (t : trace) :
  notification event (Some bucket) (Some key) ->
  py_bool bucket = true -> py_bool key = true ->
  s3_get_object w bucket key = inr c ->
  gzip_decompress c = inr raw ->
  process raw (t ++ [Log INFO (invoked_line py_repr event);
                     Log INFO (processing_line py_repr bucket key);
                     S3GetObject bucket key])%list
    = (inr matching,
       ((t ++ [Log INFO (invoked_line py_repr event);
               Log INFO (processing_line py_repr bucket key);
               S3GetObject bucket key]) ++ pout)%list) ->
  forallb event_name_matches matching = true ->
  s3_calls pout = [] -> sns_calls pout = [] ->
  exists out : trace,
    copy_handler event context t =
      (inr (copy_response_processed py_repr key (List.length matching)), (t ++ out)%list)
    /\ s3_calls out = [(bucket, key)]
    /\ sns_calls out =
         (if topic_unset (sns_topic_arn w) then []
          else map (publish_call py_repr (topic_of w)) matching).
Proof.
  intros (ev & first & rest & s3 & b & o & -> & Hrec & Hs3 & Hb & Ho & Hbn & Hok)
         Hbt Hkt Hget Hgz Hproc Hall Hp1 Hp2.
  unfold Copy.lambda_handler. run. rewrite Hrec. cbn [py_bool negb py_getitem0].
  run. rewrite (child_get _ _ _ Hs3), (child_get _ _ _ Hb), (child_get _ _ _ Ho).
  rewrite Hbn, Hok, Hbt, Hkt. cbn [negb orb].
  rewrite fetch_s3_cases, Hget, Hgz.
  fold (invoked_line py_repr (JObject ev)) (processing_line py_repr bucket key).
  rewrite <- !app_assoc. cbn [Datatypes.app].
  rewrite Hproc.
  destruct matching as [|r matching].
  - eexists. split; [rewrite <- !app_assoc; reflexivity|].
    rewrite !s3_calls_app, !sns_calls_app, Hp1, Hp2.
    destruct (topic_unset _); split; reflexivity.
  - match goal with
    | |- context [Copy.send_each _ _ _ ?T] =>
        destruct (send_each_runs py_repr w (r :: matching) Hall T)
          as (sout & -> & Hs & Hn)
    end.
    eexists. split; [rewrite <- !app_assoc; reflexivity|].
    rewrite !s3_calls_app, !sns_calls_app, Hp1, Hp2, Hs, Hn. cbn.
    rewrite !app_nil_r. split; reflexivity.
Qed.

Lemma copy_handler_on_records
        (event bucket key : json) (c raw : list Byte.byte) (text : string)
        (d : dict) (records : list json) (context : string) (t : trace) :
  notification event (Some bucket) (Some key) ->
  py_bool bucket = true -> py_bool key = true ->
  s3_get_object w bucket key = inr c ->
  gzip_decompress c = inr raw ->
  raw <> [] ->
  decode_utf8 raw = inr text ->
  json_loads text = inr (JObject d) ->
  get_default d "Records" (JArray []) = JArray records ->
  let matching := match first_non_dict records with
                  | None => filter event_name_matches records
                  | Some _ => []
                  end in
  exists out : trace,
    copy_handler event context t =
      (inr (copy_response_processed py_repr key (List.length matching)), (t ++ out)%list)
    /\ s3_calls out = [(bucket, key)]
    /\ sns_calls out =
         (if topic_unset (sns_topic_arn w) then []
          else map (publish_call py_repr (topic_of w)) matching).
Proof.
  intros Hnote Hbt Hkt Hget Hgz Hne Hdec Hloads Hrecords matching.
  destruct (matching_trace_calls py_repr records) as [H1 H2].
  pose proof (process_s3_records_on_list decode_utf8 json_loads py_repr raw text d records
                (t ++ [Log INFO (invoked_line py_repr event);
                       Log INFO (processing_line py_repr bucket key);
                       S3GetObject bucket key])%list Hne Hdec Hloads Hrecords) as Hproc.
  subst matching. destruct (first_non_dict records) as [bad|].
  - eapply copy_handler_downloaded; eauto.
    rewrite s3_calls_app, H1. reflexivity.
    rewrite sns_calls_app, H2. reflexivity.
  - eapply copy_handler_downloaded; eauto using filter_matches_all.
Qed.

(** X17.  The restructured variant on a log file whose [Records] is a list:
    the matching records are published in order and the 200 result reports
    their number; but if any record is not a dict, nothing is published and
    the 200 result reports zero. *)
Theorem copy_handler_publishes_matches
        (event bucket key : json) (c raw : list Byte.byte) (text : string)
        (d : dict) (records : list json) (context : string) (t : trace) :
  notification event (Some bucket) (Some key) ->
  py_bool bucket = true -> py_bool key = true ->
  s3_get_object w bucket key = inr c ->
  gzip_decompress c = inr raw ->
  raw <> [] ->
  decode_utf8 raw = inr text ->
  json_loads text = inr (JObject d) ->
  get_default d "Records" (JArray []) = JArray records ->
  let matching := match first_non_dict records with
                  | None => filter event_name_matches records
                  | Some _ => []
                  end in
  exists out : trace,
    copy_handler event context t =
      (inr (copy_response_processed py_repr key (List.length matching)), (t ++ out)%list)
    /\ s3_calls out = [(bucket, key)]
    /\ sns_calls out =
         (if topic_unset (sns_topic_arn w) then []
          else map (publish_call py_repr (topic_of w)) matching).
Proof. exact (copy_handler_on_records event bucket key c raw text d records context t). Qed.

(** X18.  In the restructured variant a downloaded file that is empty, is
    not UTF-8 or is not valid JSON does not fail the invocation: the error
    is logged once and the result is the 200 reporting zero events, with
    nothing published. *)
Theorem copy_handler_swallows_parse_errors
        (event bucket key : json) (c raw : list Byte.byte)
        (context : string) (t : trace) :
  notification event (Some bucket) (Some key) ->
  py_bool bucket = true -> py_bool key = true ->
  s3_get_object w bucket key = inr c ->
  gzip_decompress c = inr raw ->
  raw = []
  \/ (exists e, decode_utf8 raw = inl e)
  \/ (exists text e, decode_utf8 raw = inr text /\ json_loads text = inl e) ->
  exists out : trace,
    copy_handler event context t =
      (inr (copy_response_processed py_repr key 0), (t ++ out)%list)
    /\ statusCode (copy_response_processed py_repr key 0) = 200%Z
    /\ s3_calls out = [(bucket, key)]
    /\ sns_calls out = []
    /\ List.length (logged WARNING out ++ logged ERROR out) = 1.
Proof.
  intros Hnote Hbt Hkt Hget Hgz Hbad.
  assert (Hproc : forall T, exists lvl msg,
             process raw T = (inr [], (T ++ [Log lvl msg])%list)
             /\ (lvl = WARNING \/ lvl = ERROR)).
  { intros T. unfold Copy.process_s3_records.
    destruct Hbad as [-> |[(e & He)|(text & e & Hd & He)]].
    - do 2 eexists. split; [reflexivity|auto].
    - destruct raw as [|b raw]; [do 2 eexists; split; [reflexivity|auto]|].
      run. rewrite He. destruct (is_JSONDecodeError e); do 2 eexists; split;
        try reflexivity; auto.
    - destruct raw as [|b raw]; [do 2 eexists; split; [reflexivity|auto]|].
      run. rewrite Hd, He. destruct (is_JSONDecodeError e); do 2 eexists; split;
        try reflexivity; auto. }
  destruct (Hproc (t ++ [Log INFO (invoked_line py_repr event);
                         Log INFO (processing_line py_repr bucket key);
                         S3GetObject bucket key])%list) as (lvl & msg & Hp & Hlvl).
  destruct (copy_handler_downloaded event bucket key c raw [] [Log lvl msg] context t
              Hnote Hbt Hkt Hget Hgz Hp eq_refl eq_refl eq_refl)
    as (out & Hrun & Hs3 & Hsns).
  exists out. split; [exact Hrun|]. split; [reflexivity|]. split; [exact Hs3|].
  split; [destruct (topic_unset _); exact Hsns|].
  revert Hrun. destruct Hnote as (ev & first & rest & s3 & b & o & -> & Hrec & Hs3' & Hb & Ho & Hbn & Hok).
  unfold Copy.lambda_handler. run. rewrite Hrec. cbn [py_bool negb py_getitem0].
  run. rewrite (child_get _ _ _ Hs3'), (child_get _ _ _ Hb), (child_get _ _ _ Ho).
  rewrite Hbn, Hok, Hbt, Hkt. cbn [negb orb].
  rewrite fetch_s3_cases, Hget, Hgz.
  fold (invoked_line py_repr (JObject ev)) (processing_line py_repr bucket key).
  rewrite <- !app_assoc. cbn [Datatypes.app].
  rewrite Hp. rewrite <- !app_assoc. intros Hrun. injection Hrun as Hout.
  apply app_inv_head in Hout. subst out.
  destruct Hlvl as [-> | ->]; reflexivity.
Qed.

(** X19.  In the restructured variant a failed download or decompression is
    answered 500, without parsing or publishing. *)
Theorem copy_handler_fetch_failure
        (event bucket key : json) (context : string) (t : trace) :
  notification event (Some bucket) (Some key) ->
  py_bool bucket = true -> py_bool key = true ->
  (exists e, s3_get_object w bucket key = inl e)
  \/ (exists c e, s3_get_object w bucket key = inr c /\ gzip_decompress c = inl e) ->
  exists out : trace,
    copy_handler event context t =
      (inr (copy_response_fetch_failed py_repr key), (t ++ out)%list)
    /\ statusCode (copy_response_fetch_failed py_repr key) = 500%Z
    /\ s3_calls out = [(bucket, key)]
    /\ sns_calls out = [].
Proof.
  intros (ev & first & rest & s3 & b & o & -> & Hrec & Hs3 & Hb & Ho & Hbn & Hok)
         Hbt Hkt Hfail.
  unfold Copy.lambda_handler. run. rewrite Hrec. cbn [py_bool negb py_getitem0].
  run. rewrite (child_get _ _ _ Hs3), (child_get _ _ _ Hb), (child_get _ _ _ Ho).
  rewrite Hbn, Hok, Hbt, Hkt. cbn [negb orb]. rewrite fetch_s3_cases.
  destruct Hfail as [(e & ->)|(c & e & -> & ->)];
    (eexists; split; [rewrite <- !app_assoc; reflexivity|]); repeat split.
Qed.

(** X20.  On a log file whose records are all dicts, the two variants make
    the same calls to [sns.publish], in the same order, and the same call to
    [s3.get_object], and both answer 200 with the same number of matches. *)
Theorem variants_publish_the_same
        (event bucket key : json) (c raw : list Byte.byte) (text : string)
        (d : dict) (records : list json) (context : string) (t : trace) :
  notification event (Some bucket) (Some key) ->
  py_bool bucket = true -> py_bool key = true ->
  s3_get_object w bucket key = inr c ->
  gzip_decompress c = inr raw ->
  raw <> [] ->
  decode_utf8 raw = inr text ->
  json_loads text = inr (JObject d) ->
  get_default d "Records" (JArray []) = JArray records ->
  forallb is_object records = true ->
  let matched := List.length (filter event_name_matches records) in
  exists out out' : trace,
    handler event context t = (inr (response_processed py_repr key matched), (t ++ out)%list)
    /\ copy_handler event context t =
         (inr (copy_response_processed py_repr key matched), (t ++ out')%list)
    /\ sns_calls out = sns_calls out'
    /\ s3_calls out = s3_calls out'.
Proof.
  intros Hnote Hbt Hkt Hget Hgz Hne Hdec Hloads Hrecords Hobj matched.
  assert (Hreads : reads_log gzip_decompress decode_utf8 json_loads w event bucket key d).
  { repeat split; try assumption. exists c, raw, text. auto. }
  destruct (handler_reads_log _ _ _ py_repr _ _ _ _ _ _ context t Hreads Hrecords Hobj)
    as (out & Hrun & Hs3 & Hsns & _).
  destruct (copy_handler_on_records event bucket key c raw text d records context t
              Hnote Hbt Hkt Hget Hgz Hne Hdec Hloads Hrecords)
    as (out' & Hrun' & Hs3' & Hsns').
  assert (Hnone : first_non_dict records = None).
  { clear - Hobj. induction records as [|r records IH]; [reflexivity|].
    cbn [forallb] in Hobj. apply andb_prop in Hobj as [Hr Hobj].
    destruct r; try discriminate Hr. now apply IH. }
  rewrite Hnone in Hrun', Hsns'.
  exists out, out'. repeat split; try assumption; congruence.
Qed.

End CopyHandler.

Section CopySafety.
Variable gzip_decompress : list Byte.byte -> exn + list Byte.byte.
Variable decode_utf8 : list Byte.byte -> exn + string.
Variable json_loads : string -> exn + json.
Variable py_repr : json -> string.
Variable w : world.

#[local] Abbreviation copy_handler :=
  (Copy.lambda_handler gzip_decompress decode_utf8 json_loads py_repr w).

Ltac answered :=
  do 2 eexists; rewrite <- ?app_assoc; split; [reflexivity|];
  split; [cbn; auto|]; split; [left; split; reflexivity|]; intros; reflexivity.

(** X21.  The restructured variant, too, always returns a result with status
    200, 400 or 500 and never raises; it downloads at most one object, with
    a truthy bucket and key, and publishes only after that download. *)
Theorem copy_handler_always_answers (event : json) (context : string) (t : trace) :
  exists (r : response) (out : trace),
    copy_handler event context t = (inr r, (t ++ out)%list)
    /\ In (statusCode r) [200; 400; 500]%Z
    /\ calls_in_order out
    /\ (statusCode r = 400%Z -> s3_calls out = []).
Proof.
  unfold Copy.lambda_handler.
  cbv [bind ret raise try_except logger_info logger_debug logger_warning logger_error
       logger_critical emit].
  set (t0 := (t ++ [Log INFO ("Lambda function invoked with event: "
                              ++ py_str py_repr event)])%list).
  destruct (py_get_cases event "Records" (JArray []) t0) as [(records & ->)| ->];
    [|subst t0; answered].
  destruct (py_bool records); cbn [negb]; [|subst t0; answered].
  destruct (py_getitem0_cases records t0) as [(first & ->)|(e & ->)];
    [|subst t0; answered].
  destruct (py_get_cases first "s3" (JObject []) t0) as [(s3_info & Hs3)| Hs3];
    rewrite Hs3; [|subst t0; answered].
  destruct (py_get_cases s3_info "bucket" (JObject []) t0) as [(bucket_info & ->)| ->];
    [|subst t0; answered].
  destruct (py_get_cases bucket_info "name" JNull t0) as [(bucket & ->)| ->];
    [|subst t0; answered].
  rewrite Hs3.
  destruct (py_get_cases s3_info "object" (JObject []) t0) as [(object_info & ->)| ->];
    [|subst t0; answered].
  destruct (py_get_cases object_info "key" JNull t0) as [(key & ->)| ->];
    [|subst t0; answered].
  destruct (py_bool bucket) eqn:Hb; cbn [negb orb]; [|subst t0; answered].
  destruct (py_bool key) eqn:Hk; cbn [negb orb]; [|subst t0; answered].
  rewrite fetch_s3_cases.
  assert (Hcalls : forall (afterwards : trace),
             s3_calls afterwards = [] ->
             calls_in_order
               ([Log INFO ("Lambda function invoked with event: " ++ py_str py_repr event);
                 Log INFO ("Processing CloudTrail log file: '" ++ py_str py_repr key
                           ++ "' from bucket: '" ++ py_str py_repr bucket ++ "'")]
                  ++ S3GetObject bucket key :: afterwards)%list).
  { intros afterwards Hafter. right. do 4 eexists. split; [reflexivity|].
    repeat split; assumption. }
  destruct (s3_get_object w bucket key) as [e|c].
  { do 2 eexists. subst t0. rewrite <- !app_assoc.
    split; [reflexivity|]. split; [cbn; auto|].
    split; [apply (Hcalls [_; _]); reflexivity | discriminate]. }
  destruct (gzip_decompress c) as [e|raw].
  { do 2 eexists. subst t0. rewrite <- !app_assoc.
    split; [reflexivity|]. split; [cbn; auto|].
    split; [apply (Hcalls [_; _]); reflexivity | discriminate]. }
  match goal with
  | |- context [Copy.process_s3_records _ _ _ raw ?T] =>
      destruct (process_s3_records_outcome decode_utf8 json_loads py_repr raw T)
        as (matching & pout & -> & Hp1 & _ & Hall)
  end.
  destruct matching as [|r matching].
  - do 2 eexists. subst t0. rewrite <- !app_assoc.
    split; [reflexivity|]. split; [cbn; auto|].
    split; [|discriminate].
    apply (Hcalls (pout ++ [_])%list). rewrite s3_calls_app, Hp1. reflexivity.
  - match goal with
    | |- context [Copy.send_each _ _ _ ?T] =>
        destruct (send_each_runs py_repr w (r :: matching) Hall T) as (sout & -> & Hs & _)
    end.
    do 2 eexists. subst t0. rewrite <- !app_assoc.
    split; [reflexivity|]. split; [cbn; auto|].
    split; [|discriminate].
    apply (Hcalls (pout ++ sout ++ [_])%list).
    rewrite !s3_calls_app, Hp1, Hs. reflexivity.
Qed.

End CopySafety.

Lemma legacy_puts_app (h h' : Legacy.history) :
  legacy_puts (h ++ h')%list = (legacy_puts h ++ legacy_puts h')%list.
Proof. apply flat_map_app. Qed.

Lemma legacy_gets_app (h h' : Legacy.history) :
  legacy_gets (h ++ h')%list = (legacy_gets h ++ legacy_gets h')%list.
Proof. apply flat_map_app. Qed.

Lemma legacy_subscript_cases (v : json) (k : string) (h : Legacy.history) :
  (exists x, Legacy.py_subscript v k h = (inr x, h))
  \/ (exists e, Legacy.py_subscript v k h = (inl e, h)).
Proof.
  destruct v; try (right; eexists; reflexivity).
  cbn. destruct (dict_get d k); [left | right]; eexists; reflexivity.
Qed.

Lemma legacy_first_cases (v : json) (h : Legacy.history) :
  (exists x, Legacy.py_first v h = (inr x, h))
  \/ (exists e, Legacy.py_first v h = (inl e, h)).
Proof.
  destruct v as [| | | |s|l|d]; try (right; eexists; reflexivity).
  - destruct s; [right | left]; eexists; reflexivity.
  - destruct l; [right | left]; eexists; reflexivity.
Qed.

Lemma legacy_iter_cases (v : json) (h : Legacy.history) :
  (exists items, Legacy.py_iter v h = (inr items, h))
  \/ (exists e, Legacy.py_iter v h = (inl e, h)).
Proof.
  destruct v; try (right; eexists; reflexivity); left; eexists; reflexivity.
Qed.

Ltac legacy_run :=
  cbv [Legacy.bind Legacy.ret Legacy.raise Legacy.try_except Legacy.try_except_class
       Legacy.lift Legacy.print Legacy.report Legacy.time_time Legacy.py_timestamp
       Legacy.get_object].

Ltac legacy_step :=
  do 3 (cbn [Legacy.py_first Legacy.py_subscript Legacy.py_iter]; legacy_run).

Section LegacyProperties.
Variable gzip_decompress : list Byte.byte -> exn + list Byte.byte.
Variable decode_utf8 : list Byte.byte -> exn + string.
Variable json_loads : string -> exn + json.
Variable py_repr : json -> string.
Variable w : Legacy.world.

#[local] Abbreviation legacy_handler :=
  (Legacy.lambda_handler gzip_decompress decode_utf8 json_loads py_repr w).

(** The loop of the first version never reaches [put_log_events]: building
    the timestamp of the log event always raises, and that exception is
    printed. *)
Lemma legacy_loop_never_puts (items : list json) (h : Legacy.history) :
  exists (res : exn + unit) (out : Legacy.history),
    Legacy.for_each_record py_repr w items h = (res, (h ++ out)%list)
    /\ legacy_puts out = [] /\ legacy_gets out = [].
Proof.
  revert h. induction items as [|record items IH]; intros h.
  - exists (inr tt), []. cbn. rewrite app_nil_r. repeat split.
  - cbn [Legacy.for_each_record]. unfold Legacy.bind at 1.
    destruct (legacy_subscript_cases record "eventName" h) as [(name & ->)|(e & ->)].
    2: { exists (inl e), []. rewrite app_nil_r. repeat split. }
    unfold Legacy.bind at 1.
    destruct (py_in name ["StopLogging"; "UpdateTrail"; "DeleteTrail"]).
    + legacy_run.
      destruct (legacy_subscript_cases record "eventTime"
                  (h ++ [Legacy.Print ("Found matching event: " ++ py_str py_repr name)])%list)
        as [(v & ->)|(e & ->)].
      * match goal with
        | |- context [Legacy.for_each_record _ _ _ ?H] =>
            destruct (IH H) as (res & out & -> & Hp & Hg)
        end.
        do 2 eexists. rewrite <- !app_assoc. split; [reflexivity|].
        rewrite !legacy_puts_app, !legacy_gets_app, Hp, Hg. split; reflexivity.
      * match goal with
        | |- context [Legacy.for_each_record _ _ _ ?H] =>
            destruct (IH H) as (res & out & -> & Hp & Hg)
        end.
        do 2 eexists. rewrite <- !app_assoc. split; [reflexivity|].
        rewrite !legacy_puts_app, !legacy_gets_app, Hp, Hg. split; reflexivity.
    + legacy_run. destruct (IH h) as (res & out & -> & Hp & Hg).
      do 2 eexists. split; [reflexivity|]. split; assumption.
Qed.

Ltac legacy_stop :=
  first [ eexists; exists []; rewrite app_nil_r; (split; [reflexivity|]); cbn; auto
        | do 2 eexists; rewrite <- ?app_assoc; (split; [reflexivity|]);
          rewrite ?legacy_puts_app, ?legacy_gets_app; cbn; auto ].

(** X22.  Whatever the event and whatever is stored, the first version never
    reaches [put_log_events].  It returns [None], or it ends in the uncaught
    [NameError] of its own error report, after printing "Error processing S3
    event".  It downloads at most one object. *)
Theorem legacy_handler_never_reports (event : json) (context : string)
        (h : Legacy.history) :
  exists (res : exn + unit) (out : Legacy.history),
    legacy_handler event context h = (res, (h ++ out)%list)
    /\ legacy_puts out = []
    /\ List.length (legacy_gets out) <= 1
    /\ (res = inr tt
        \/ (res = inl (Legacy.NameError "time")
            /\ exists e, In ("Error processing S3 event: " ++ exn_msg e) (legacy_prints out))).
Proof.
  unfold Legacy.lambda_handler, Legacy.try_except.
  match goal with
  | |- context [match ?B with pair _ _ => _ end] =>
      assert (Hbody : exists res out,
                 B = (res, (h ++ out)%list)
                 /\ legacy_puts out = [] /\ List.length (legacy_gets out) <= 1)
  end.
  { unfold Legacy.bind at 1.
    destruct (legacy_subscript_cases event "Records" h) as [(records & ->)|(e & ->)];
      [|legacy_stop].
    unfold Legacy.bind at 1.
    destruct (legacy_first_cases records h) as [(first & ->)|(e & ->)]; [|legacy_stop].
    unfold Legacy.bind at 1.
    destruct (legacy_subscript_cases first "s3" h) as [(s3 & ->)|(e & ->)]; [|legacy_stop].
    unfold Legacy.bind at 1.
    destruct (legacy_subscript_cases s3 "bucket" h) as [(bi & ->)|(e & ->)]; [|legacy_stop].
    unfold Legacy.bind at 1.
    destruct (legacy_subscript_cases bi "name" h) as [(bucket & ->)|(e & ->)]; [|legacy_stop].
    unfold Legacy.bind at 1.
    destruct (legacy_subscript_cases event "Records" h) as [(records' & ->)|(e & ->)];
      [|legacy_stop].
    unfold Legacy.bind at 1.
    destruct (legacy_first_cases records' h) as [(first' & ->)|(e & ->)]; [|legacy_stop].
    unfold Legacy.bind at 1.
    destruct (legacy_subscript_cases first' "s3" h) as [(s3' & ->)|(e & ->)]; [|legacy_stop].
    unfold Legacy.bind at 1.
    destruct (legacy_subscript_cases s3' "object" h) as [(oi & ->)|(e & ->)]; [|legacy_stop].
    unfold Legacy.bind at 1.
    destruct (legacy_subscript_cases oi "key" h) as [(key & ->)|(e & ->)]; [|legacy_stop].
    legacy_run.
    destruct (Legacy.s3_get_object w bucket key) as [e|c]; [legacy_stop|].
    destruct (gzip_decompress c) as [e|raw]; [legacy_stop|].
    destruct (decode_utf8 raw) as [e|content]; [legacy_stop|].
    destruct (json_loads content) as [e|log_data].
    { destruct (is_JSONDecodeError e); legacy_stop. }
    match goal with
    | |- context [Legacy.py_subscript log_data "Records" ?H] =>
        destruct (legacy_subscript_cases log_data "Records" H) as [(lr & ->)|(e & ->)];
        [|legacy_stop];
        destruct (legacy_iter_cases lr H) as [(items & ->)|(e & ->)]; [|legacy_stop];
        destruct (legacy_loop_never_puts items H) as (res & out & -> & Hp & Hg)
    end.
    do 2 eexists. rewrite <- !app_assoc. split; [reflexivity|].
    rewrite !legacy_puts_app, !legacy_gets_app, Hp, Hg. cbn. auto. }
  destruct Hbody as (res & out & -> & Hp & Hg).
  destruct res as [e|[]].
  - legacy_run. do 2 eexists. rewrite <- !app_assoc. split; [reflexivity|].
    rewrite !legacy_puts_app, !legacy_gets_app, Hp. cbn. rewrite ?app_nil_r.
    repeat split; try assumption. right. split; [reflexivity|].
    exists e. unfold legacy_prints. rewrite flat_map_app. apply in_or_app. right.
    left. reflexivity.
  - exists (inr tt), out. repeat split; auto.
Qed.

Lemma legacy_loop_prints (records : list json) :
  forallb has_event_name records = true ->
  forall h : Legacy.history,
    Legacy.for_each_record py_repr w records h =
    (inr tt, (h ++ flat_map (legacy_lines py_repr) records)%list).
Proof.
  induction records as [|r records IH]; intros Hall h.
  - cbn. now rewrite app_nil_r.
  - cbn [forallb] in Hall. apply andb_prop in Hall as [Hr Hall].
    destruct r as [| | | | | |d]; try discriminate Hr.
    cbn [has_event_name] in Hr.
    cbn [Legacy.for_each_record flat_map legacy_lines legacy_matches].
    unfold Legacy.bind at 1. cbn [Legacy.py_subscript]. unfold get_default, timestamp_error.
    destruct (dict_get d "eventName") as [name|]; [|discriminate Hr].
    legacy_run.
    destruct name as [| | | |s| |]; cbn [py_in existsb py_eq_str orb];
      try (rewrite (IH Hall); reflexivity).
    destruct (existsb (String.eqb s) ["StopLogging"; "UpdateTrail"; "DeleteTrail"]) eqn:E;
      cbn [existsb] in E; rewrite E.
    + cbn [Legacy.py_subscript]. legacy_run.
      destruct (dict_get d "eventTime"); rewrite (IH Hall), <- !app_assoc; reflexivity.
    + rewrite (IH Hall). reflexivity.
Qed.

(** X23.  On a well-formed notification and a log file whose records all
    have an [eventName], the first version returns [None] after one
    download; for every record whose name is one of its three, it prints the
    match and then the failure to build the log event, and sends nothing. *)
Theorem legacy_handler_only_prints
        (event bucket key : json) (c raw : list Byte.byte) (text : string)
        (d : dict) (records : list json) (context : string) (h : Legacy.history) :
  legacy_notification event bucket key ->
  Legacy.s3_get_object w bucket key = inr c ->
  gzip_decompress c = inr raw ->
  decode_utf8 raw = inr text ->
  json_loads text = inr (JObject d) ->
  dict_get d "Records" = Some (JArray records) ->
  forallb has_event_name records = true ->
  legacy_handler event context h =
  (inr tt,
   (h ++ [Legacy.Print ("Processing CloudTrail log file: " ++ py_str py_repr key
                        ++ " from bucket: " ++ py_str py_repr bucket);
          Legacy.GetObject bucket key]
      ++ flat_map (legacy_lines py_repr) records)%list).
Proof.
  intros (ev & first & rest & s3 & b & o & -> & Hrec & Hs3 & Hb & Ho & Hbn & Hok)
         Hget Hgz Hdec Hloads Hrecords Hall.
  unfold Legacy.lambda_handler. legacy_step.
  rewrite Hrec. legacy_step. rewrite Hs3. legacy_step. rewrite Hb. legacy_step.
  rewrite Hbn. legacy_step. rewrite Ho. legacy_step.
  rewrite Hok. legacy_step. rewrite Hget, Hgz, Hdec, Hloads. legacy_step.
  rewrite Hrecords. legacy_step.
  rewrite (legacy_loop_prints records Hall), <- !app_assoc. reflexivity.
Qed.

(** X24.  When the decompression or the decoding fails, or [json.loads]
    raises a [JSONDecodeError], the first version prints the error, fails to
    report it because [time] is not defined, and its outer handler prints
    that [NameError] and fails in the same way.  When [json.loads] raises
    any other exception, the inner handler does not catch it: the outer
    handler prints it and fails.  In every case the invocation ends in an
    uncaught [NameError], after one download. *)
Theorem legacy_error_report_fails
        (event bucket key : json) (c : list Byte.byte) (e : exn)
        (context : string) (h : Legacy.history) :
  legacy_notification event bucket key ->
  Legacy.s3_get_object w bucket key = inr c ->
  forall lines : list string,
  (lines = ["Error decompressing log file: " ++ exn_msg e;
            "Error processing S3 event: " ++ exn_msg (Legacy.NameError "time")]
   /\ (gzip_decompress c = inl e
       \/ exists raw, gzip_decompress c = inr raw /\ decode_utf8 raw = inl e))
  \/ (lines = (if is_JSONDecodeError e
               then ["Error decoding JSON: " ++ exn_msg e;
                     "Error processing S3 event: " ++ exn_msg (Legacy.NameError "time")]
               else ["Error processing S3 event: " ++ exn_msg e])
      /\ exists raw text, gzip_decompress c = inr raw /\ decode_utf8 raw = inr text
                          /\ json_loads text = inl e) ->
  legacy_handler event context h =
  (inl (Legacy.NameError "time"),
   (h ++ [Legacy.Print ("Processing CloudTrail log file: " ++ py_str py_repr key
                        ++ " from bucket: " ++ py_str py_repr bucket);
          Legacy.GetObject bucket key]
      ++ map Legacy.Print lines)%list).
Proof.
  intros (ev & first & rest & s3 & b & o & -> & Hrec & Hs3 & Hb & Ho & Hbn & Hok)
         Hget lines Hfail.
  unfold Legacy.lambda_handler. legacy_step.
  rewrite Hrec. legacy_step. rewrite Hs3. legacy_step. rewrite Hb. legacy_step.
  rewrite Hbn. legacy_step. rewrite Ho. legacy_step.
  rewrite Hok. legacy_step. rewrite Hget.
  destruct Hfail as [(-> & [Hgz|(raw & Hgz & Hdec)])|(-> & raw & text & Hgz & Hdec & Hl)];
    rewrite Hgz; try rewrite Hdec; try rewrite Hl;
    try destruct (is_JSONDecodeError e);
    rewrite <- !app_assoc; reflexivity.
Qed.

(** X25.  When the download fails, the outer handler of the first version
    prints the error and then fails itself, [time] not being defined: the
    invocation ends in an uncaught [NameError]. *)
Theorem legacy_download_failure_raises
        (event bucket key : json) (e : exn) (context : string) (h : Legacy.history) :
  legacy_notification event bucket key ->
  Legacy.s3_get_object w bucket key = inl e ->
  legacy_handler event context h =
  (inl (Legacy.NameError "time"),
   (h ++ [Legacy.Print ("Processing CloudTrail log file: " ++ py_str py_repr key
                        ++ " from bucket: " ++ py_str py_repr bucket);
          Legacy.GetObject bucket key;
          Legacy.Print ("Error processing S3 event: " ++ exn_msg e)])%list).
Proof.
  intros (ev & first & rest & s3 & b & o & -> & Hrec & Hs3 & Hb & Ho & Hbn & Hok) Hget.
  unfold Legacy.lambda_handler. legacy_step.
  rewrite Hrec. legacy_step. rewrite Hs3. legacy_step. rewrite Hb. legacy_step.
  rewrite Hbn. legacy_step. rewrite Ho. legacy_step.
  rewrite Hok. legacy_step. rewrite Hget. rewrite <- !app_assoc. reflexivity.
Qed.

End LegacyProperties.

(** * The further properties on the sample data *)

Lemma sample_payload (arn : option string) (document : json) :
  payload Sample.gunzip Sample.decode (Sample.loads document) (Sample.world_with arn)
          Sample.bucket Sample.key document.
Proof. exists [], [], "". repeat split; reflexivity. Defined.

Lemma fetch_returns_document_witness :
  fetch_cloudtrail_log Sample.gunzip Sample.decode
    (Sample.loads (JObject (Sample.log_data Sample.records))) Sample.repr
    (Sample.world_with None) Sample.bucket Sample.key [] =
  (inr (JObject (Sample.log_data Sample.records)),
   [S3GetObject Sample.bucket Sample.key]).
Proof.
  exact (fetch_returns_document Sample.gunzip Sample.decode
           (Sample.loads (JObject (Sample.log_data Sample.records))) Sample.repr
           (Sample.world_with None) Sample.bucket Sample.key
           (Sample.log_data Sample.records) []
           (sample_payload None _) eq_refl).
Defined.

Lemma fetch_download_error_witness :
  fetch_cloudtrail_log Sample.gunzip Sample.decode
    (Sample.loads JNull) Sample.repr Sample.world_s3_down Sample.bucket Sample.key [] =
  (inr JNull,
   [S3GetObject Sample.bucket Sample.key;
    Log ERROR ("Error fetching CloudTrail log from S3 for '"
               ++ "AWSLogs/123456789012/CloudTrail/log.json.gz" ++ "': NoSuchKey")]).
Proof.
  exact (fetch_download_error Sample.gunzip Sample.decode (Sample.loads JNull) Sample.repr
           Sample.world_s3_down Sample.bucket Sample.key _ [] eq_refl).
Defined.

Lemma fetch_decompression_error_witness :
  fetch_cloudtrail_log Stored.gunzip_fails Sample.decode
    (Sample.loads JNull) Sample.repr (Stored.world_with None) Sample.bucket Sample.key [] =
  (inr JNull,
   [S3GetObject Sample.bucket Sample.key;
    Log WARNING ("Error decompressing log file '"
                 ++ "AWSLogs/123456789012/CloudTrail/log.json.gz"
                 ++ "': Not a gzipped file")]).
Proof.
  exact (fetch_decompression_error Stored.gunzip_fails Sample.decode (Sample.loads JNull)
           Sample.repr (Stored.world_with None) Sample.bucket Sample.key
           Stored.bytes _ [] eq_refl (or_introl eq_refl)).
Defined.

Lemma fetch_json_error_witness :
  fetch_cloudtrail_log Sample.gunzip Sample.decode Stored.loads_fails Sample.repr
    (Stored.world_with None) Sample.bucket Sample.key [] =
  (inr JNull,
   [S3GetObject Sample.bucket Sample.key;
    Log ERROR ("Error decoding JSON for file '"
               ++ "AWSLogs/123456789012/CloudTrail/log.json.gz"
               ++ "': Expecting value: line 1 column 1 (char 0)")]).
Proof.
  exact (fetch_json_error Sample.gunzip Sample.decode Stored.loads_fails Sample.repr
           (Stored.world_with None) Sample.bucket Sample.key
           Stored.bytes Stored.bytes _ _ [] eq_refl eq_refl eq_refl eq_refl).
Defined.

Lemma fetch_rejects_other_documents_witness :
  fetch_cloudtrail_log Sample.gunzip Sample.decode
    (Sample.loads (JArray [Sample.stop_logging])) Sample.repr
    (Sample.world_with None) Sample.bucket Sample.key [] =
  (inr JNull,
   [S3GetObject Sample.bucket Sample.key;
    Log ERROR ("Error fetching CloudTrail log from S3 for '"
               ++ "AWSLogs/123456789012/CloudTrail/log.json.gz"
               ++ "': 'list' object has no attribute 'get'")]).
Proof.
  exact (fetch_rejects_other_documents Sample.gunzip Sample.decode
           (Sample.loads (JArray [Sample.stop_logging])) Sample.repr
           (Sample.world_with None) Sample.bucket Sample.key
           (JArray [Sample.stop_logging]) []
           (sample_payload None _) (or_introl eq_refl)).
Defined.

(** The number between the records stops the run: [StopLogging] has been
    published, [ConsoleLogin] is never looked at, and the result is 500. *)
Lemma handler_stops_at_first_non_dict_witness :
  exists out : trace,
    lambda_handler Sample.gunzip Sample.decode
      (Sample.loads (JObject (Sample.log_data Stored.records_with_number))) Sample.repr
      (Sample.world_with (Some Sample.topic)) Sample.s3_event "" [] =
      (inr (response_unhandled (AttributeError (JInt 5) "get")), out)
    /\ sns_calls out = [publish_call Sample.repr Sample.topic Sample.stop_logging].
Proof.
  destruct (handler_stops_at_first_non_dict
              Sample.gunzip Sample.decode
              (Sample.loads (JObject (Sample.log_data Stored.records_with_number)))
              Sample.repr (Sample.world_with (Some Sample.topic))
              Sample.s3_event Sample.bucket Sample.key
              (Sample.log_data Stored.records_with_number) Stored.records_with_number "" []
              (sample_reads_log _ _) eq_refl)
    as (out & Hrun & _ & Hsns).
  exists out. split; [exact Hrun | exact Hsns].
Defined.

Lemma handler_rejects_non_dict_event_witness :
  fst (lambda_handler Sample.gunzip Sample.decode (Sample.loads JNull) Sample.repr
         (Sample.world_with None) (JArray [Sample.s3_event]) "" []) =
  inr (response_unhandled (AttributeError (JArray [Sample.s3_event]) "get")).
Proof.
  rewrite (handler_rejects_non_dict_event Sample.gunzip Sample.decode (Sample.loads JNull)
             Sample.repr (Sample.world_with None) (JArray [Sample.s3_event]) "" []
             eq_refl).
  reflexivity.
Defined.

Lemma falsy_records_is_nothing_to_process_witness :
  fst (lambda_handler Sample.gunzip Sample.decode (Sample.loads JNull) Sample.repr
         (Sample.world_with None) (JObject [("Records", JNull)]) "" []) =
  inr response_no_records.
Proof.
  destruct (falsy_records_is_nothing_to_process Sample.gunzip Sample.decode
              (Sample.loads JNull) Sample.repr (Sample.world_with None)
              [("Records", JNull)] "" [] eq_refl) as [H _].
  rewrite H. reflexivity.
Defined.

Lemma falsy_bucket_or_key_is_invalid_input_witness :
  fst (lambda_handler Sample.gunzip Sample.decode (Sample.loads JNull) Sample.repr
         (Sample.world_with None)
         (JObject [("Records",
                    JArray [Sample.s3_record [("name", Sample.bucket)] [("key", JInt 0)]])])
         "" []) =
  inr response_invalid.
Proof.
  assert (Hnote : notification
                    (JObject [("Records",
                               JArray [Sample.s3_record [("name", Sample.bucket)]
                                                        [("key", JInt 0)]])])
                    (Some Sample.bucket) (Some (JInt 0))).
  { do 6 eexists. repeat split; reflexivity. }
  destruct (falsy_bucket_or_key_is_invalid_input Sample.gunzip Sample.decode
              (Sample.loads JNull) Sample.repr (Sample.world_with None)
              _ _ _ "" [] Hnote (or_intror eq_refl)) as [H _].
  rewrite H. reflexivity.
Defined.

Lemma non_dict_entry_is_unhandled_witness :
  exists v : json,
    is_object v = false
    /\ fst (lambda_handler Sample.gunzip Sample.decode (Sample.loads JNull) Sample.repr
              (Sample.world_with None)
              (JObject [("Records", JArray [JObject [("s3", JString "trail-bucket")]])])
              "" []) =
       inr (response_unhandled (AttributeError v "get")).
Proof.
  destruct (non_dict_entry_is_unhandled Sample.gunzip Sample.decode
              (Sample.loads JNull) Sample.repr (Sample.world_with None)
              [("Records", JArray [JObject [("s3", JString "trail-bucket")]])]
              [("s3", JString "trail-bucket")] [] "" [] eq_refl (or_introl eq_refl))
    as (v & Hv & H & _).
  exists v. split; [exact Hv|]. rewrite H. reflexivity.
Defined.

Lemma process_s3_records_result_witness :
  Copy.process_s3_records Sample.decode
    (Sample.loads (JObject (Sample.log_data Stored.records_with_number))) Sample.repr
    Stored.bytes [] =
  (inr [],
   (matching_trace Sample.repr Stored.records_with_number
      ++ [Log ERROR ("An unexpected error occurred during processing S3 records: "
                     ++ "'int' object has no attribute 'get'")])%list).
Proof.
  assert (Hne : Stored.bytes <> []) by discriminate.
  exact (process_s3_records_result Sample.decode
           (Sample.loads (JObject (Sample.log_data Stored.records_with_number))) Sample.repr
           Stored.bytes (string_of_list_byte Stored.bytes)
           (Sample.log_data Stored.records_with_number) Stored.records_with_number []
           Hne eq_refl eq_refl eq_refl).
Defined.

Lemma copy_handler_publishes_matches_witness :
  exists out : trace,
    Copy.lambda_handler Sample.gunzip Sample.decode
      (Sample.loads (JObject (Sample.log_data Sample.records))) Sample.repr
      (Stored.world_with (Some Sample.topic)) Sample.s3_event "" [] =
      (inr (copy_response_processed Sample.repr Sample.key 2), out)
    /\ sns_calls out =
         [publish_call Sample.repr Sample.topic Sample.stop_logging;
          publish_call Sample.repr Sample.topic Sample.console_login].
Proof.
  assert (Hne : Stored.bytes <> []) by discriminate.
  destruct (copy_handler_publishes_matches Sample.gunzip Sample.decode
              (Sample.loads (JObject (Sample.log_data Sample.records))) Sample.repr
              (Stored.world_with (Some Sample.topic))
              Sample.s3_event Sample.bucket Sample.key Stored.bytes Stored.bytes
              (string_of_list_byte Stored.bytes)
              (Sample.log_data Sample.records) Sample.records "" []
              sample_notification eq_refl eq_refl eq_refl eq_refl Hne eq_refl eq_refl eq_refl)
    as (out & Hrun & _ & Hsns).
  exists out. split; [exact Hrun | exact Hsns].
Defined.

Lemma copy_handler_swallows_parse_errors_witness :
  exists out : trace,
    Copy.lambda_handler Sample.gunzip Sample.decode Stored.loads_fails Sample.repr
      (Stored.world_with (Some Sample.topic)) Sample.s3_event "" [] =
      (inr (copy_response_processed Sample.repr Sample.key 0), out)
    /\ sns_calls out = [].
Proof.
  destruct (copy_handler_swallows_parse_errors Sample.gunzip Sample.decode
              Stored.loads_fails Sample.repr (Stored.world_with (Some Sample.topic))
              Sample.s3_event Sample.bucket Sample.key Stored.bytes Stored.bytes "" []
              sample_notification eq_refl eq_refl eq_refl eq_refl
              (or_intror (or_intror
                 (ex_intro _ _ (ex_intro _ _ (conj eq_refl eq_refl))))))
    as (out & Hrun & _ & _ & Hsns & _).
  exists out. split; [exact Hrun | exact Hsns].
Defined.

Lemma copy_handler_fetch_failure_witness :
  exists out : trace,
    Copy.lambda_handler Sample.gunzip Sample.decode (Sample.loads JNull) Sample.repr
      Sample.world_s3_down Sample.s3_event "" [] =
      (inr (copy_response_fetch_failed Sample.repr Sample.key), out)
    /\ sns_calls out = [].
Proof.
  destruct (copy_handler_fetch_failure Sample.gunzip Sample.decode (Sample.loads JNull)
              Sample.repr Sample.world_s3_down Sample.s3_event Sample.bucket Sample.key
              "" [] sample_notification eq_refl eq_refl
              (or_introl (ex_intro _ _ eq_refl)))
    as (out & Hrun & _ & _ & Hsns).
  exists out. split; [exact Hrun | exact Hsns].
Defined.

Lemma variants_publish_the_same_witness :
  exists out out' : trace,
    snd (lambda_handler Sample.gunzip Sample.decode
           (Sample.loads (JObject (Sample.log_data Sample.records))) Sample.repr
           (Stored.world_with (Some Sample.topic)) Sample.s3_event "" []) = out
    /\ snd (Copy.lambda_handler Sample.gunzip Sample.decode
              (Sample.loads (JObject (Sample.log_data Sample.records))) Sample.repr
              (Stored.world_with (Some Sample.topic)) Sample.s3_event "" []) = out'
    /\ sns_calls out = sns_calls out'.
Proof.
  assert (Hne : Stored.bytes <> []) by discriminate.
  destruct (variants_publish_the_same Sample.gunzip Sample.decode
              (Sample.loads (JObject (Sample.log_data Sample.records))) Sample.repr
              (Stored.world_with (Some Sample.topic))
              Sample.s3_event Sample.bucket Sample.key Stored.bytes Stored.bytes
              (string_of_list_byte Stored.bytes)
              (Sample.log_data Sample.records) Sample.records "" []
              sample_notification eq_refl eq_refl eq_refl eq_refl Hne eq_refl eq_refl eq_refl
              eq_refl)
    as (out & out' & Hrun & Hrun' & Hsns & _).
  exists out, out'. rewrite Hrun, Hrun'. repeat split. exact Hsns.
Defined.

Lemma sample_legacy_notification :
  legacy_notification Sample.s3_event Sample.bucket Sample.key.
Proof. do 6 eexists. repeat split; reflexivity. Defined.

(** [StopLogging] is printed, with the failure to build its log event;
    [ConsoleLogin] is not among the three names of the first version. *)
Lemma legacy_handler_only_prints_witness :
  Legacy.lambda_handler Sample.gunzip Sample.decode
    (Sample.loads (JObject (Sample.log_data Sample.records))) Sample.repr
    Stored.legacy_world Sample.s3_event "" [] =
  (inr tt,
   [Legacy.Print ("Processing CloudTrail log file: "
                  ++ "AWSLogs/123456789012/CloudTrail/log.json.gz"
                  ++ " from bucket: trail-bucket");
    Legacy.GetObject Sample.bucket Sample.key;
    Legacy.Print "Found matching event: StopLogging";
    Legacy.Print "Error sending log to CloudWatch: 'eventTime'"]).
Proof.
  exact (legacy_handler_only_prints Sample.gunzip Sample.decode
           (Sample.loads (JObject (Sample.log_data Sample.records))) Sample.repr
           Stored.legacy_world Sample.s3_event Sample.bucket Sample.key
           Stored.bytes Stored.bytes (string_of_list_byte Stored.bytes)
           (Sample.log_data Sample.records) Sample.records "" []
           sample_legacy_notification eq_refl eq_refl eq_refl eq_refl eq_refl eq_refl).
Defined.

(** A failed decompression is printed, and so is the failure to report it;
    an exception of [json.loads] that is not a [JSONDecodeError] is printed
    by the outer handler only. *)
Lemma legacy_error_report_fails_witness :
  Legacy.lambda_handler Stored.gunzip_fails Sample.decode (Sample.loads JNull)
    Sample.repr Stored.legacy_world Sample.s3_event "" [] =
  (inl (Legacy.NameError "time"),
   [Legacy.Print ("Processing CloudTrail log file: "
                  ++ "AWSLogs/123456789012/CloudTrail/log.json.gz"
                  ++ " from bucket: trail-bucket");
    Legacy.GetObject Sample.bucket Sample.key;
    Legacy.Print "Error decompressing log file: Not a gzipped file";
    Legacy.Print "Error processing S3 event: name 'time' is not defined"])
  /\ Legacy.lambda_handler Sample.gunzip Sample.decode
       (fun _ => inl (mk_exn "RecursionError" "maximum recursion depth exceeded"))
       Sample.repr Stored.legacy_world Sample.s3_event "" [] =
     (inl (Legacy.NameError "time"),
      [Legacy.Print ("Processing CloudTrail log file: "
                     ++ "AWSLogs/123456789012/CloudTrail/log.json.gz"
                     ++ " from bucket: trail-bucket");
       Legacy.GetObject Sample.bucket Sample.key;
       Legacy.Print "Error processing S3 event: maximum recursion depth exceeded"]).
Proof.
  split.
  - exact (legacy_error_report_fails Stored.gunzip_fails Sample.decode (Sample.loads JNull)
             Sample.repr Stored.legacy_world Sample.s3_event Sample.bucket Sample.key
             Stored.bytes (mk_exn "BadGzipFile" "Not a gzipped file") "" []
             sample_legacy_notification eq_refl
             ["Error decompressing log file: Not a gzipped file";
              "Error processing S3 event: name 'time' is not defined"]
             (or_introl (conj eq_refl (or_introl eq_refl)))).
  - exact (legacy_error_report_fails Sample.gunzip Sample.decode
             (fun _ => inl (mk_exn "RecursionError" "maximum recursion depth exceeded"))
             Sample.repr Stored.legacy_world Sample.s3_event Sample.bucket Sample.key
             Stored.bytes (mk_exn "RecursionError" "maximum recursion depth exceeded") "" []
             sample_legacy_notification eq_refl
             ["Error processing S3 event: maximum recursion depth exceeded"]
             (or_intror (conj eq_refl
                (ex_intro _ Stored.bytes
                   (ex_intro _ (string_of_list_byte Stored.bytes)
                      (conj eq_refl (conj eq_refl eq_refl))))))).
Defined.

Lemma legacy_download_failure_raises_witness :
  fst (Legacy.lambda_handler Sample.gunzip Sample.decode (Sample.loads JNull)
         Sample.repr Stored.legacy_world_s3_down Sample.s3_event "" []) =
  inl (Legacy.NameError "time").
Proof.
  rewrite (legacy_download_failure_raises Sample.gunzip Sample.decode (Sample.loads JNull)
             Sample.repr Stored.legacy_world_s3_down Sample.s3_event Sample.bucket
             Sample.key _ "" [] sample_legacy_notification eq_refl).
  reflexivity.
Defined.
